(** * OpenTSDB row parsers of vminsert: a shallow embedding

    The development follows the two OpenTSDB packages of [app/vminsert]:

    - [opentsdb] (the telnet [put] line format): [Rows], [Row], [Tag],
      [Rows.Reset], [Rows.Unmarshal], [Row.unmarshal], [unmarshalRows],
      [unmarshalTags], [Tag.unmarshal];
    - [opentsdbhttp] (the JSON format of [/api/put]): the same arena types,
      the JSON [Row.unmarshal], [unmarshalRows], [unmarshalTags], and the
      request pipeline [insertHandlerInternal], [pushCtx.Read],
      [pushCtx.InsertRows].

    Go values are modelled as the code has them: [int64] as [Z] with explicit
    wrap-around, [float64] as the kernel's binary64 floats, strings as
    [string], a [[]Tag] slice as a header (array, offset, length, capacity)
    into a store of backing arrays, so that the views [Row.Tags] and the
    pool [tagsPool] alias the same cells exactly as in the program. *)

From Stdlib Require Import ZArith String Ascii Floats Lia Bool.
From stdpp Require Import base option list.

Set Default Proof Using "Type".
Set Warnings "-register-all".

(** ** The Go side: integers, floats, strings *)

Module Go.

Definition MaxInt64 : Z := 2 ^ 63 - 1.
Definition MinInt64 : Z := - 2 ^ 63.

(** The value of an [int64] expression whose mathematical result is [z]. *)
Definition int64 (z : Z) : Z := (z + 2 ^ 63) mod 2 ^ 64 - 2 ^ 63.

Definition is_int64 (z : Z) : Prop := (MinInt64 <= z <= MaxInt64)%Z.

(** [int64(f)] for a [float64]: truncation towards zero.  Outside the range
    of [int64] (and for NaN) Go leaves the result to the platform; amd64
    yields [MinInt64]. *)
Definition int64_of_float64 (f : float) : Z :=
  match Prim2SF f with
  | S754_zero _ => 0%Z
  | S754_finite s m e =>
      let mag := Z.shiftl (Z.pos m) e in
      let v := if s then (- mag)%Z else mag in
      if ((MinInt64 <=? v) && (v <=? MaxInt64))%Z then v else MinInt64
  | _ => MinInt64
  end.

(** [float64(d)] for an unsigned integer below [2^63]. *)
Definition float64_of_uint (d : Z) : float := PrimFloat.of_uint63 (Uint63.of_Z d).

(** Strings are byte sequences; [len(s)], [s[:n]], [s[n:]]. *)
Definition len (s : string) : Z := Z.of_nat (String.length s).

Fixpoint str_take (n : nat) (s : string) : string :=
  match n, s with
  | S n', String c s' => String c (str_take n' s')
  | _, _ => EmptyString
  end.

Fixpoint str_drop (n : nat) (s : string) : string :=
  match n, s with
  | S n', String _ s' => str_drop n' s'
  | _, _ => s
  end.

Definition slice_to (s : string) (n : Z) : string := str_take (Z.to_nat n) s.
Definition slice_from (s : string) (n : Z) : string := str_drop (Z.to_nat n) s.

(** [strings.IndexByte]: index of the first [c] in [s], or [-1]. *)
Fixpoint IndexByte (s : string) (c : ascii) : Z :=
  match s with
  | EmptyString => (-1)%Z
  | String a s' =>
      if Ascii.eqb a c then 0%Z
      else let n := IndexByte s' c in
           if (n <? 0)%Z then (-1)%Z else (n + 1)%Z
  end.

(** A string without the byte [c]: a token of a line split at [c]. *)
Fixpoint lacks (c : ascii) (s : string) : Prop :=
  match s with
  | EmptyString => True
  | String a s' => a <> c /\ lacks c s'
  end.

(** [strings.HasPrefix]. *)
Definition HasPrefix (s p : string) : bool := String.prefix p s.

(** What [append] asks of the allocator: when a slice is full, the new
    backing array is strictly larger than the old one.  The exact growth
    is the runtime's business. *)
Class Runtime := {
  growslice : nat -> nat;
  growslice_gt : forall c : nat, c < growslice c
}.

(** A runtime that doubles, as Go does for small slices. *)
Definition doubling (c : nat) : nat := S (2 * c).

#[global] Instance doubling_runtime : Runtime :=
  {| growslice := doubling;
     growslice_gt := fun c => le_n_S _ _ (Nat.le_add_r c (c + 0)) |}.

End Go.

(** ** Decimal numbers: strconv, math.Pow10 and fastfloat

    These belong to the Go standard library and to
    [github.com/valyala/fastjson/fastfloat]; the parsers call them, and the
    fixtures below need their values on plain decimal tokens. *)

Module strconv.

Definition isDigit (c : ascii) : bool :=
  let n := nat_of_ascii c in (48 <=? n)%nat && (n <=? 57)%nat.

Definition digitVal (c : ascii) : Z := Z.of_nat (nat_of_ascii c - 48).

(** The longest run of decimal digits at the head of [s]: its value
    (continuing from [acc]), its length, and what follows it. *)
Fixpoint scanDigits (s : string) (acc : Z) (n : nat) : Z * nat * string :=
  match s with
  | String c s' =>
      if isDigit c then scanDigits s' (acc * 10 + digitVal c)%Z (S n)
      else (acc, n, s)
  | EmptyString => (acc, n, s)
  end.

(** The binary64 nearest to [m * 10^e] (ties to even), for [0 <= m]. *)
Definition decimal (m e : Z) : float :=
  if (m =? 0)%Z then 0%float
  else if (0 <=? e)%Z then SF2Prim (binary_normalize 53 1024 (m * 10 ^ e) 0 false)
  else
    let d := (10 ^ (- e))%Z in
    let k := (Z.log2_up d + 64)%Z in
    let q := (m * 2 ^ k / d)%Z in
    let sticky := if ((m * 2 ^ k) mod d =? 0)%Z then 0%Z else 1%Z in
    SF2Prim (binary_normalize 53 1024 (2 * q + sticky) (- (k + 1)) false).

Definition isInf (f : float) : bool :=
  match Prim2SF f with S754_infinity _ => true | _ => false end.

Definition splitSign (s : string) : bool * string :=
  match s with
  | String "-" s' => (true, s')
  | String "+" s' => (false, s')
  | _ => (false, s)
  end.

(** [strconv.ParseFloat(s, 64)] on decimal syntax
    [[+-]digits[.digits][(e|E)[+-]digits]]: the value and whether an error
    is returned (a syntax error with value 0, or a range error with an
    infinity). *)
Definition ParseFloat (s : string) : float * bool :=
  let '(neg, t) := splitSign s in
  let '(ip, ni, t1) := scanDigits t 0 0 in
  let '(m, nf, t2) :=
    match t1 with
    | String "." t' => scanDigits t' ip 0
    | _ => (ip, 0, t1)
    end in
  if (ni + nf =? 0)%nat then (0%float, true)
  else
    let finish (ex : Z) :=
      let f := decimal m (ex - Z.of_nat nf) in
      let f := if neg then (- f)%float else f in
      (f, isInf f) in
    match t2 with
    | EmptyString => finish 0%Z
    | String c t3 =>
        if Ascii.eqb c "e" || Ascii.eqb c "E" then
          let '(eneg, t4) := splitSign t3 in
          match scanDigits t4 0 0 with
          | (ex, S _, EmptyString) => finish (if eneg then - ex else ex)%Z
          | _ => (0%float, true)
          end
        else (0%float, true)
    end.

(** [strconv.ParseInt(s, 10, 64)]: [None] on a syntax or range error. *)
Definition ParseInt (s : string) : option Z :=
  let '(neg, t) := splitSign s in
  match scanDigits t 0 0 with
  | (d, S _, EmptyString) =>
      let v := if neg then (- d)%Z else d in
      if ((Go.MinInt64 <=? v) && (v <=? Go.MaxInt64))%Z then Some v else None
  | _ => None
  end.

End strconv.

Module math.

(** [math.Pow10(n)]: the tables [pow10tab] and [pow10postab32],
    [pow10negtab32] hold the nearest binary64 to the powers of ten. *)
Definition Pow10 (n : Z) : float :=
  if ((0 <=? n) && (n <=? 308))%Z then
    (strconv.decimal 1 (32 * (n / 32)) * strconv.decimal 1 (n mod 32))%float
  else if ((-323 <=? n) && (n <=? 0))%Z then
    (strconv.decimal 1 (- (32 * (- n / 32))) / strconv.decimal 1 (- n mod 32))%float
  else if (0 <? n)%Z then infinity
  else 0%float.

End math.

Module fastfloat.

Import strconv.

Definition slow (s : string) : float :=
  let '(f, err) := ParseFloat s in
  if err && negb (isInf f) then 0%float else f.

Definition signed (minus : bool) (f : float) : float :=
  if minus then (- f)%float else f.

(** The exponent part, entered at [t] with the mantissa [f] parsed. *)
Definition exponentPart (s : string) (minus : bool) (f : float) (t : string) : float :=
  match t with
  | String c t1 =>
      if Ascii.eqb c "e" || Ascii.eqb c "E" then
        match t1 with
        | EmptyString => 0%float
        | String c1 t2 =>
            let expMinus := Ascii.eqb c1 "-" in
            let t3 := if Ascii.eqb c1 "+" || expMinus then t2 else t1 in
            match t3 with
            | EmptyString => 0%float
            | _ =>
                let '(ex, ne, t4) := scanDigits t3 0 0 in
                if (300 <? ex)%Z then slow s
                else if (ne =? 0)%nat then 0%float
                else
                  let f := (f * math.Pow10 (if expMinus then - ex else ex))%float in
                  match t4 with
                  | EmptyString => signed minus f
                  | _ => 0%float
                  end
            end
        end
      else 0%float
  | EmptyString => 0%float
  end.

(** [fastfloat.ParseBestEffort]: "0 is returned if the number cannot be
    parsed".  Up to 18 integer and 18 fractional digits are accumulated in
    machine integers; longer runs go to [strconv.ParseFloat]. *)
Definition ParseBestEffort (s : string) : float :=
  match s with
  | EmptyString => 0%float
  | String c0 rest =>
      let minus := Ascii.eqb c0 "-" in
      let t := if minus then rest else s in
      match t with
      | EmptyString => 0%float
      | _ =>
          let '(d, n, t1) := scanDigits t 0 0 in
          if (18 <? (if minus then S n else n))%nat then slow s
          else if (n =? 0)%nat then 0%float
          else
            let f := Go.float64_of_uint d in
            match t1 with
            | EmptyString => signed minus f
            | String "." t2 =>
                match t2 with
                | EmptyString => 0%float
                | _ =>
                    let '(fr, nf, t3) := scanDigits t2 0 0 in
                    if (18 <? nf)%nat then slow s
                    else if (nf =? 0)%nat then 0%float
                    else
                      let f := (f + Go.float64_of_uint fr / math.Pow10 (Z.of_nat nf))%float in
                      match t3 with
                      | EmptyString => signed minus f
                      | _ => exponentPart s minus f t3
                      end
                end
            | _ => exponentPart s minus f t1
            end
      end
  end.

(** [fastfloat.ParseInt64BestEffort]: 0 when [s] is not a decimal
    integer; runs of more than 18 characters go to [strconv.ParseInt]. *)
Definition ParseInt64BestEffort (s : string) : Z :=
  match s with
  | EmptyString => 0%Z
  | String c0 rest =>
      let minus := Ascii.eqb c0 "-" in
      let t := if minus then rest else s in
      match t with
      | EmptyString => 0%Z
      | _ =>
          let '(d, n, t1) := scanDigits t 0 0 in
          if (18 <? (if minus then S n else n))%nat then
            match ParseInt s with Some dd => dd | None => 0%Z end
          else if (n =? 0)%nat then 0%Z
          else
            match t1 with
            | EmptyString => if minus then (- d)%Z else d
            | _ => 0%Z
            end
      end
  end.

End fastfloat.

(** ** fastjson values

    [github.com/valyala/fastjson]: a parsed JSON document.  A number keeps
    its source text and is converted on access. *)

Module fastjson.

Inductive Value :=
| VObject (kvs : list (string * Value))
| VArray (a : list Value)
| VString (s : string)
| VNumber (s : string)
| VTrue
| VFalse
| VNull.

Inductive Type_ :=
| TypeNull | TypeObject | TypeArray | TypeString | TypeNumber | TypeTrue | TypeFalse.

Definition Value_Type (v : Value) : Type_ :=
  match v with
  | VObject _ => TypeObject
  | VArray _ => TypeArray
  | VString _ => TypeString
  | VNumber _ => TypeNumber
  | VTrue => TypeTrue
  | VFalse => TypeFalse
  | VNull => TypeNull
  end.

(** [Object.Get]: the value of the first entry with the given key. *)
Fixpoint Object_Get (kvs : list (string * Value)) (key : string) : option Value :=
  match kvs with
  | [] => None
  | (k, v) :: kvs' => if String.eqb k key then Some v else Object_Get kvs' key
  end.

(** [Value.Get(key)].  On an array the key is read as a decimal index;
    the keys used by this package are not numbers, so an array has no such
    element. *)
Definition Value_Get (v : Value) (key : string) : option Value :=
  match v with
  | VObject kvs => Object_Get kvs key
  | _ => None
  end.

(** [Value.GetStringBytes()] on the value itself: nil unless a string. *)
Definition Value_StringBytes (v : Value) : option string :=
  match v with
  | VString s => Some s
  | _ => None
  end.

(** [Value.GetStringBytes(key)]. *)
Definition Value_GetStringBytes (v : Value) (key : string) : option string :=
  match Value_Get v key with
  | Some w => Value_StringBytes w
  | None => None
  end.

(** [Value.GetObject(key)]. *)
Definition Value_GetObject (v : Value) (key : string) : option (list (string * Value)) :=
  match Value_Get v key with
  | Some (VObject kvs) => Some kvs
  | _ => None
  end.

(** [Value.Array()], errors dropped as the caller does. *)
Definition Value_Array (v : Value) : list Value :=
  match v with
  | VArray a => a
  | _ => []
  end.

End fastjson.

(** ** Errors

    [fmt.Errorf(format, args...)] is kept as its format and arguments; the
    rendering of [%s], [%q] and [%d] is [fmt]'s. *)

Module fmt.

Inductive error :=
| Errorf (format : string) (args : list arg)
| EOF
with arg :=
| ArgString (s : string)
| ArgValue (v : fastjson.Value)
| ArgOptValue (v : option fastjson.Value)
| ArgInt (n : Z)
| ArgError (e : error).

(** A Go result pair [(value, err)]. *)
Inductive result (A : Type) :=
| Ok (a : A)
| Err (e : error).
Arguments Ok {A} a.
Arguments Err {A} e.

End fmt.

(** ** Slices over a store of backing arrays *)

Module Slice.

Record slice := Slice { arr : nat; off : nat; len : nat; cap : nat }.

(** The nil slice: no cells. *)
Definition nil : slice := Slice 0 0 0 0.

Section Mem.
Context {A : Type} (zero : A).

(** The store [m : list (list A)] holds the backing arrays allocated so
    far, by number. *)

Definition array (m : list (list A)) (a : nat) : list A := default [] (m !! a).

(** The elements [s[0] .. s[len(s)-1]]. *)
Definition load (m : list (list A)) (s : slice) : list A :=
  take (len s) (drop (off s) (array m (arr s))).

(** [s[i]] read and written. *)
Definition get (m : list (list A)) (s : slice) (i : nat) : A :=
  default zero (array m (arr s) !! (off s + i)).

Definition store (m : list (list A)) (s : slice) (i : nat) (x : A) : list (list A) :=
  alter (fun a => <[off s + i := x]> a) (arr s) m.

(** [s[:n]], [s[a:]] and [s[:n:n]]. *)
Definition upto (s : slice) (n : nat) : slice := Slice (arr s) (off s) n (cap s).
Definition from (s : slice) (a : nat) : slice :=
  Slice (arr s) (off s + a) (len s - a) (cap s - a).
Definition upto3 (s : slice) (n : nat) : slice := Slice (arr s) (off s) n n.

(** [append(s, x)]: in place when there is room, otherwise into a fresh
    array that receives a copy of the elements of [s]. *)
Definition append `{Go.Runtime} (m : list (list A)) (s : slice) (x : A) : list (list A) * slice :=
  if len s <? cap s then (store m s (len s) x, upto s (S (len s)))
  else
    let c := Go.growslice (cap s) in
    (m ++ [load m s ++ x :: replicate (c - S (len s)) zero],
     Slice (length m) 0 (S (len s)) c).

(** The idiom that takes the next slot of [dst], reusing spare capacity:
<<
    if cap(dst) > len(dst) { dst = dst[:len(dst)+1] }
    else { dst = append(dst, T{}) }
>>
*)
Definition extend `{Go.Runtime} (m : list (list A)) (dst : slice) : list (list A) * slice :=
  if len dst <? cap dst then (m, upto dst (len dst + 1))
  else append m dst zero.

(** [for i := range s { s[i] = x }]. *)
Definition fill (m : list (list A)) (s : slice) (x : A) : list (list A) :=
  foldl (fun m i => store m s i x) m (seq 0 (len s)).

(** A slice lies within its backing array. *)
Definition valid (m : list (list A)) (s : slice) : Prop :=
  off s + cap s <= length (array m (arr s)) /\ len s <= cap s.

(** How a slice [d] that starts its array evolves into [d'] when elements
    are appended to it: [d'] is [d] made longer in place, or lies in a
    fresh array; no array changes its size, and the cells outside the
    spare room of [d] keep their contents. *)
Definition grows (m : list (list A)) (d : slice) (m' : list (list A)) (d' : slice) : Prop :=
  valid m' d' /\ off d' = 0 /\ length m <= length m' /\
  (arr d' = arr d /\ len d <= len d' \/ length m <= arr d') /\
  (forall a, a < length m -> length (array m' a) = length (array m a)) /\
  (forall a k, a < length m -> a <> arr d \/ k < len d ->
               array m' a !! k = array m a !! k).

(** The cells of the view [v] are out of reach of appends to [d]. *)
Definition safe (m : list (list A)) (d v : slice) : Prop :=
  len v = 0 \/
  (arr v < length m /\ off v + len v <= length (array m (arr v)) /\
   (arr v = arr d -> off v + len v <= len d)).
End Mem.

(** The slice [d], grown from [d0], has reused the capacity of [d0]: its
    capacity is not smaller, and as long as its length fits the capacity
    of [d0] it lies in the array of [d0] with that capacity. *)
Definition reuses (d0 d : slice) : Prop :=
  cap d0 <= cap d /\
  (len d <= cap d0 -> arr d = arr d0 /\ cap d = cap d0).

End Slice.

(** ** The row arena: [Tag], [Row], [Rows]

    The two packages declare these types and [Reset] with the same text. *)

Module Arena.

Import Slice.

Record Tag := mkTag { Tag_Key : string; Tag_Value : string }.

Definition Tag_zero : Tag := mkTag EmptyString EmptyString.

Definition Tag_reset (t : Tag) : Tag :=
  let t := mkTag EmptyString (Tag_Value t) in
  mkTag (Tag_Key t) EmptyString.

Record Row := mkRow {
  Row_Metric : string;
  Row_Tags : slice;
  Row_Value : float;
  Row_Timestamp : Z
}.

Definition Row_zero : Row := mkRow EmptyString nil 0%float 0%Z.

Definition Row_reset (r : Row) : Row :=
  let r := mkRow EmptyString (Row_Tags r) (Row_Value r) (Row_Timestamp r) in
  let r := mkRow (Row_Metric r) nil (Row_Value r) (Row_Timestamp r) in
  let r := mkRow (Row_Metric r) (Row_Tags r) 0%float (Row_Timestamp r) in
  mkRow (Row_Metric r) (Row_Tags r) (Row_Value r) 0%Z.

Record Rows := mkRows { Rows_Rows : slice; Rows_tagsPool : slice }.

(** The zero value [Rows{}]. *)
Definition Rows_zero : Rows := mkRows nil nil.

(** The memory the slices point into. *)
Record Memory := mkMemory { rowMem : list (list Row); tagMem : list (list Tag) }.

Definition Memory_empty : Memory := mkMemory [] [].

(** [Rows.Reset]. *)
Definition Rows_Reset (m : Memory) (rs : Rows) : Memory * Rows :=
  let mr := foldl (fun mr i => store mr (Rows_Rows rs) i (Row_reset (get Row_zero mr (Rows_Rows rs) i)))
                  (rowMem m) (seq 0 (len (Rows_Rows rs))) in
  let rs := mkRows (upto (Rows_Rows rs) 0) (Rows_tagsPool rs) in
  let mt := foldl (fun mt i => store mt (Rows_tagsPool rs) i (Tag_reset (get Tag_zero mt (Rows_tagsPool rs) i)))
                  (tagMem m) (seq 0 (len (Rows_tagsPool rs))) in
  let rs := mkRows (Rows_Rows rs) (upto (Rows_tagsPool rs) 0) in
  (mkMemory mr mt, rs).

(** The row of the result of a [Row.unmarshal]. *)
Definition rowOf {X Y Z : Type} (res : X * Row * Y * Z) : Row :=
  let '(_, r, _, _) := res in r.

(** What a reader of the arena sees: each row with the tags its view
    holds. *)
Record RowView := mkRowView {
  Metric : string;
  Tags : list Tag;
  Value : float;
  Timestamp : Z
}.

Definition view (mt : list (list Tag)) (r : Row) : RowView :=
  mkRowView (Row_Metric r) (load mt (Row_Tags r)) (Row_Value r) (Row_Timestamp r).

Definition rows (m : Memory) (rs : Rows) : list Row := load (rowMem m) (Rows_Rows rs).

Definition contents (m : Memory) (rs : Rows) : list RowView :=
  view (tagMem m) <$> rows m rs.

(** The arena is well formed: both slices start their backing arrays and
    lie within them, as slices made by [append] from the zero value do. *)
Definition wf (m : Memory) (rs : Rows) : Prop :=
  valid (rowMem m) (Rows_Rows rs) /\ off (Rows_Rows rs) = 0 /\
  valid (tagMem m) (Rows_tagsPool rs) /\ off (Rows_tagsPool rs) = 0.

(** The tag views of [rows] tile the range from [start] to [stop] of the
    pool in the order of the rows, each a three-index slice. *)
Fixpoint tiles (start : nat) (rows : list Row) (stop : nat) : Prop :=
  match rows with
  | [] => start = stop
  | r :: rows' =>
      off (Row_Tags r) = start /\ cap (Row_Tags r) = len (Row_Tags r) /\
      tiles (start + len (Row_Tags r)) rows' stop
  end.

(** The view of the row [r] holds what the pool holds at its range, and
    appends to the pool cannot reach its cells. *)
Definition viewOK (mt : list (list Tag)) (pool : slice) (r : Row) : Prop :=
  safe mt pool (Row_Tags r) /\
  off (Row_Tags r) + len (Row_Tags r) <= len pool /\
  load mt (Row_Tags r) = take (len (Row_Tags r)) (drop (off (Row_Tags r)) (load mt pool)).

(** The state of [unmarshalRows] between two rows: [rows] are parsed. *)
Definition parsing (m : Memory) (dst pool : slice) (rows : list Row) : Prop :=
  valid (rowMem m) dst /\ off dst = 0 /\ load (rowMem m) dst = rows /\
  valid (tagMem m) pool /\ off pool = 0 /\
  tiles 0 rows (len pool) /\ Forall (viewOK (tagMem m) pool) rows.

(** What [Row.unmarshal] does to the pool ([mt], [pool] before; [mt'],
    [pool'] after) and the view it leaves in the row. *)
Definition rowStep (mt : list (list Tag)) (pool : slice) (mt' : list (list Tag))
    (r' : Row) (pool' : slice) (err : option fmt.error) : Prop :=
  grows mt pool mt' pool' /\
  (exists new, load mt' pool' = load mt pool ++ new) /\
  match err with
  | None =>
      Row_Tags r' = Slice (arr pool') (len pool) (len pool' - len pool) (len pool' - len pool) /\
      len pool <= len pool'
  | Some _ => Row_Tags r' = nil
  end.

(** A run of the row loop that started in [m] with [rows] parsed and ended
    in [m'], [dst'], [pool']: the rows before it are intact, the rows it
    added show as [rvs], and unless it failed the arena is again between
    two rows. *)
Definition advanced (m : Memory) (rows : list Row) (m' : Memory) (dst' pool' : slice)
    (rvs : list RowView) (err : option fmt.error) : Prop :=
  exists rows',
    load (rowMem m') dst' = rows ++ rows' /\
    view (tagMem m') <$> (rows ++ rows') = (view (tagMem m) <$> rows) ++ rvs /\
    wf m' (mkRows dst' pool') /\
    (err = None -> parsing m' dst' pool' (rows ++ rows')).

End Arena.

(** ** Package opentsdb: the telnet put line format *)

Module OpenTSDB.

Import Go Slice Arena fmt.
Local Open Scope Z_scope.

Section Parser.
Context `{Runtime}.
(** [fastfloat.ParseBestEffort]. *)
Variable ParseBestEffort : string -> float.

(** [Tag.unmarshal]. *)
Definition Tag_unmarshal (t : Tag) (s : string) : Tag * option error :=
  let t := Tag_reset t in
  let n := IndexByte s "=" in
  if n <? 0 then (t, Some (Errorf "missing tag value for %q" [ArgString s]))
  else
    let t := mkTag (slice_to s n) (Tag_Value t) in
    if Go.len (Tag_Key t) =? 0 then
      (t, Some (Errorf "tag key cannot be empty for %q" [ArgString s]))
    else
      let t := mkTag (Tag_Key t) (slice_from s (n + 1)) in
      (t, None).

(** [unmarshalTags]: each turn of the loop consumes a tag and a space;
    [fuel] bounds the turns. *)
Fixpoint unmarshalTags_loop (fuel : nat) (mt : list (list Tag)) (dst : slice) (s : string)
  : option (list (list Tag) * slice * option error) :=
  match fuel with
  | O => None
  | S fuel =>
      let '(mt, dst) := extend Tag_zero mt dst in
      let tag := (Slice.len dst - 1)%nat in
      let n := IndexByte s " " in
      if n <? 0 then
        let '(t, err) := Tag_unmarshal (get Tag_zero mt dst tag) s in
        let mt := store mt dst tag t in
        match err with
        | Some e => Some (mt, upto dst (Slice.len dst - 1), Some e)
        | None => Some (mt, dst, None)
        end
      else
        let '(t, err) := Tag_unmarshal (get Tag_zero mt dst tag) (slice_to s n) in
        let mt := store mt dst tag t in
        match err with
        | Some e => Some (mt, upto dst (Slice.len dst - 1), Some e)
        | None => unmarshalTags_loop fuel mt dst (slice_from s (n + 1))
        end
  end.

Definition unmarshalTags (mt : list (list Tag)) (dst : slice) (s : string)
  : option (list (list Tag) * slice * option error) :=
  unmarshalTags_loop (S (String.length s)) mt dst s.

(** [Row.unmarshal]: the row behind the pointer [r] is returned as
    updated, also when an error is. *)
Definition Row_unmarshal (mt : list (list Tag)) (r : Row) (s : string) (tagsPool : slice)
  : option (list (list Tag) * Row * slice * option error) :=
  let r := Row_reset r in
  if negb (HasPrefix s "put ") then
    Some (mt, r, tagsPool, Some (Errorf "missing `put ` prefix in %q" [ArgString s]))
  else
    let s := slice_from s (Go.len "put ") in
    let n := IndexByte s " " in
    if n <? 0 then
      Some (mt, r, tagsPool,
            Some (Errorf "cannot find whitespace between metric and timestamp in %q" [ArgString s]))
    else
      let r := mkRow (slice_to s n) (Row_Tags r) (Row_Value r) (Row_Timestamp r) in
      let tail := slice_from s (n + 1) in
      let n := IndexByte tail " " in
      if n <? 0 then
        Some (mt, r, tagsPool,
              Some (Errorf "cannot find whitespace between timestamp and value in %q" [ArgString s]))
      else
        let r := mkRow (Row_Metric r) (Row_Tags r) (Row_Value r)
                       (int64_of_float64 (ParseBestEffort (slice_to tail n))) in
        let tail := slice_from tail (n + 1) in
        let n := IndexByte tail " " in
        if n <? 0 then
          Some (mt, r, tagsPool,
                Some (Errorf "cannot find whitespace between value and the first tag in %q" [ArgString s]))
        else
          let r := mkRow (Row_Metric r) (Row_Tags r) (ParseBestEffort (slice_to tail n))
                         (Row_Timestamp r) in
          let tagsStart := Slice.len tagsPool in
          match unmarshalTags mt tagsPool (slice_from tail (n + 1)) with
          | None => None
          | Some (mt, tagsPool, Some err) =>
              Some (mt, r, tagsPool,
                    Some (Errorf "cannot unmarshal tags in %q: %s" [ArgString s; ArgError err]))
          | Some (mt, tagsPool, None) =>
              let tags := from tagsPool tagsStart in
              let r := mkRow (Row_Metric r) (upto3 tags (Slice.len tags)) (Row_Value r)
                             (Row_Timestamp r) in
              Some (mt, r, tagsPool, None)
          end.

(** The error of [Row.unmarshal] on the line [s], as a run on the empty
    pool gives it. *)
Definition lineError (s : string) : option error :=
  match Row_unmarshal [] Row_zero s nil with
  | Some (_, _, _, err) => err
  | None => None
  end.

Definition newline : ascii := ascii_of_nat 10.

(** [unmarshalRows]: each turn consumes at least one byte of [s]. *)
Fixpoint unmarshalRows_loop (fuel : nat) (m : Memory) (dst : slice) (s : string)
    (tagsPool : slice) : option (Memory * slice * slice * option error) :=
  match fuel with
  | O => None
  | S fuel =>
      if 0 <? Go.len s then
        let n := IndexByte s newline in
        if n =? 0 then
          unmarshalRows_loop fuel m dst (slice_from s 1) tagsPool
        else
          let '(mr, dst) := extend Row_zero (rowMem m) dst in
          let r := (Slice.len dst - 1)%nat in
          if n <? 0 then
            match Row_unmarshal (tagMem m) (get Row_zero mr dst r) s tagsPool with
            | None => None
            | Some (mt, row, tagsPool, err) =>
                let m := mkMemory (store mr dst r row) mt in
                match err with
                | Some err =>
                    Some (m, dst, tagsPool,
                          Some (Errorf "cannot unmarshal OpenTSDB line %q: %s"
                                       [ArgString s; ArgError err]))
                | None => Some (m, dst, tagsPool, None)
                end
            end
          else
            match Row_unmarshal (tagMem m) (get Row_zero mr dst r) (slice_to s n) tagsPool with
            | None => None
            | Some (mt, row, tagsPool, err) =>
                let m := mkMemory (store mr dst r row) mt in
                match err with
                | Some err =>
                    Some (m, dst, tagsPool,
                          Some (Errorf "cannot unmarshal OpenTSDB line %q: %s"
                                       [ArgString (slice_to s n); ArgError err]))
                | None => unmarshalRows_loop fuel m dst (slice_from s (n + 1)) tagsPool
                end
            end
      else Some (m, dst, tagsPool, None)
  end.

Definition unmarshalRows (m : Memory) (dst : slice) (s : string) (tagsPool : slice)
  : option (Memory * slice * slice * option error) :=
  unmarshalRows_loop (S (String.length s)) m dst s tagsPool.

(** [Rows.Unmarshal]. *)
Definition Rows_Unmarshal (m : Memory) (rs : Rows) (s : string)
  : option (Memory * Rows * option error) :=
  match unmarshalRows m (upto (Rows_Rows rs) 0) s (upto (Rows_tagsPool rs) 0) with
  | None => None
  | Some (m, dst, tagsPool, err) => Some (m, mkRows dst tagsPool, err)
  end.
End Parser.

End OpenTSDB.

(** ** Package opentsdbhttp: the JSON format *)

Module OpenTSDBHTTP.

Import Go Slice Arena fmt fastjson.
Local Open Scope Z_scope.

Definition SECOND_MASK : Z := 0x7FFFFFFF00000000.

(** [Object.Visit]: the callback runs on every entry, in order; [S] is
    what the closure has captured and updates. *)
Fixpoint Object_Visit {S : Type} (kvs : list (string * Value))
    (f : S -> string -> Value -> S) (st : S) : S :=
  match kvs with
  | [] => st
  | (k, v) :: kvs' => Object_Visit kvs' f (f st k v)
  end.

(** The entries of a [tags] object with a string value, as tags, in
    order: what the specification says the parser keeps. *)
Fixpoint keptTags (kvs : list (string * Value)) : list Tag :=
  match kvs with
  | [] => []
  | (k, VString s) :: kvs' => mkTag k s :: keptTags kvs'
  | _ :: kvs' => keptTags kvs'
  end.

Section Parser.
Context `{Runtime}.
(** [Value.Int64] and [Value.Float64] of fastjson. *)
Variable Value_Int64 : Value -> result Z.
Variable Value_Float64 : Value -> result float.

(** [unmarshalTags]. *)
Definition unmarshalTags (mt : list (list Tag)) (dst : slice) (tags : list (string * Value))
  : list (list Tag) * slice :=
  Object_Visit tags (fun '(mt, dst) k v =>
    let '(mt, dst) := extend Tag_zero mt dst in
    let tag := (Slice.len dst - 1)%nat in
    match Value_StringBytes v with
    | None => (mt, upto dst (Slice.len dst - 1))
    | Some tv =>
        let t := get Tag_zero mt dst tag in
        let t := mkTag k (Tag_Value t) in
        let t := mkTag (Tag_Key t) tv in
        (store mt dst tag t, dst)
    end) (mt, dst).

(** The timestamp of [Row.unmarshal], from [rawTs.Int64()] on. *)
Definition timestamp (o rawTs : Value) : result Z :=
  let ts :=
    match Value_Int64 rawTs with
    | Ok ts => Ok ts
    | Err _ =>
        match Value_Float64 rawTs with
        | Err _ => Err (Errorf "invalid `timestamp` field in %s" [ArgValue o])
        | Ok tsF => Ok (int64_of_float64 (tsF * 1000)%float)
        end
    end in
  match ts with
  | Err e => Err e
  | Ok ts => Ok (if Z.land ts SECOND_MASK =? 0 then int64 (ts * 1000) else ts)
  end.

(** [Row.unmarshal]: the row behind the pointer [r] is returned as
    updated, also when an error is. *)
Definition Row_unmarshal (mt : list (list Tag)) (r : Row) (o : Value) (tagsPool : slice)
  : list (list Tag) * Row * slice * option error :=
  let r := Row_reset r in
  match Value_GetStringBytes o "metric" with
  | None => (mt, r, tagsPool, Some (Errorf "missing `metric` field in %s" [ArgValue o]))
  | Some m =>
      let r := mkRow m (Row_Tags r) (Row_Value r) (Row_Timestamp r) in
      match Value_Get o "timestamp" with
      | None => (mt, r, tagsPool, Some (Errorf "missing `timestamp` field in %s" [ArgValue o]))
      | Some rawTs =>
          match timestamp o rawTs with
          | Err e => (mt, r, tagsPool, Some e)
          | Ok ts =>
              let r := mkRow (Row_Metric r) (Row_Tags r) (Row_Value r) ts in
              match Value_Get o "value" with
              | None =>
                  (mt, r, tagsPool, Some (Errorf "missing `value` field in %s" [ArgValue o]))
              | Some rawV =>
                  match Value_Float64 rawV with
                  | Err _ =>
                      (mt, r, tagsPool, Some (Errorf "invalid `value` field in %s" [ArgValue o]))
                  | Ok v =>
                      let r := mkRow (Row_Metric r) (Row_Tags r) v (Row_Timestamp r) in
                      match Value_GetObject o "tags" with
                      | None =>
                          (mt, r, tagsPool,
                           Some (Errorf "missing `tags` field in %s" [ArgValue o]))
                      | Some rawTags =>
                          let tagsStart := Slice.len tagsPool in
                          let '(mt, tagsPool) := unmarshalTags mt tagsPool rawTags in
                          let tags := from tagsPool tagsStart in
                          let r := mkRow (Row_Metric r) (upto3 tags (Slice.len tags))
                                         (Row_Value r) (Row_Timestamp r) in
                          (mt, r, tagsPool, None)
                      end
                  end
              end
          end
      end
  end.

(** The error of [Row.unmarshal] on [o], as a run on the empty pool
    gives it. *)
Definition rowError (o : Value) : option error :=
  let '(_, _, _, err) := Row_unmarshal [] Row_zero o nil in err.

(** The error of [unmarshalRows] around the error of a row. *)
Definition bodyError (e : Value) (err : option error) : option error :=
  match err with
  | Some err =>
      Some (Errorf "cannot unmarshal OpenTSDB body %s: %s" [ArgValue e; ArgError err])
  | None => None
  end.

(** One turn of the row loops of [unmarshalRows]: take the next slot of
    [dst], unmarshal [e] into it. *)
Definition unmarshalRow (m : Memory) (dst : slice) (e : Value) (tagsPool : slice)
  : Memory * slice * slice * option error :=
  let '(mr, dst) := extend Row_zero (rowMem m) dst in
  let r := (Slice.len dst - 1)%nat in
  let '(mt, row, tagsPool, err) :=
    Row_unmarshal (tagMem m) (get Row_zero mr dst r) e tagsPool in
  let m := mkMemory (store mr dst r row) mt in
  match err with
  | Some err =>
      (m, dst, tagsPool,
       Some (Errorf "cannot unmarshal OpenTSDB body %s: %s" [ArgValue e; ArgError err]))
  | None => (m, dst, tagsPool, None)
  end.

(** [for _, e := range a], left at the first error. *)
Fixpoint unmarshalRows_range (a : list Value) (m : Memory) (dst : slice) (tagsPool : slice)
  : Memory * slice * slice * option error :=
  match a with
  | [] => (m, dst, tagsPool, None)
  | e :: a' =>
      match unmarshalRow m dst e tagsPool with
      | (m, dst, tagsPool, Some err) => (m, dst, tagsPool, Some err)
      | (m, dst, tagsPool, None) => unmarshalRows_range a' m dst tagsPool
      end
  end.

(** [unmarshalRows]. *)
Definition unmarshalRows (m : Memory) (dst : slice) (av : option Value) (tagsPool : slice)
  : Memory * slice * slice * option error :=
  match av with
  | None => (m, dst, tagsPool, Some (Errorf "cannot unmarshal OpenTSDB body, it is empty" []))
  | Some av =>
      match Value_Type av with
      | TypeObject => unmarshalRow m dst av tagsPool
      | TypeArray => unmarshalRows_range (Value_Array av) m dst tagsPool
      | _ =>
          (m, dst, tagsPool,
           Some (Errorf "cannot unmarshal OpenTSDB body, type is not object or array: %s"
                        [ArgValue av]))
      end
  end.

(** [Rows.Unmarshal]. *)
Definition Rows_Unmarshal (m : Memory) (rs : Rows) (av : option Value)
  : Memory * Rows * option error :=
  let '(m, dst, tagsPool, err) :=
    unmarshalRows m (upto (Rows_Rows rs) 0) av (upto (Rows_tagsPool rs) 0) in
  (m, mkRows dst tagsPool, err).
End Parser.

(** [Value.Int64] and [Value.Float64] as fastjson has them, on
    [fastfloat]. *)
Definition fastjson_Int64 (v : Value) : result Z :=
  match v with
  | VNumber s =>
      let n := fastfloat.ParseInt64BestEffort s in
      if (n =? 0) && negb (String.eqb s "0") then
        Err (Errorf "cannot parse int64 %q" [ArgString s])
      else Ok n
  | _ => Err (Errorf "value doesn't contain number; it contains %s" [ArgValue v])
  end.

Definition fastjson_Float64 (v : Value) : result float :=
  match v with
  | VNumber s => Ok (fastfloat.ParseBestEffort s)
  | _ => Err (Errorf "value doesn't contain number; it contains %s" [ArgValue v])
  end.

(** *** The request pipeline *)

(** An [io.Reader] over a body: the bytes still to come and how the
    stream ends, with [io.EOF] ([None]) or with a read error. *)
Record Reader := mkReader { pending : string; failure : option error }.

(** [io.LimitReader(r, n)]: an [io.LimitedReader] over [r] with [n] bytes
    left. *)
Record LimitedReader := mkLimitedReader { R : Reader; N : Z }.

Definition LimitReader (r : Reader) (n : Z) : LimitedReader := mkLimitedReader r n.

(** A [LimitedReader] read until it reports an error: the bytes
    delivered, the error that ended them ([None] for [io.EOF]) and the
    reader afterwards.  With [N <= 0] it is at its end at once; the end of
    the underlying reader is only met when that holds fewer than [N]
    bytes. *)
Definition LimitedReader_drain (l : LimitedReader) : string * option error * LimitedReader :=
  let r := R l in
  if N l <=? 0 then (EmptyString, None, l)
  else if N l <=? Go.len (pending r) then
    (slice_to (pending r) (N l), None,
     mkLimitedReader (mkReader (slice_from (pending r) (N l)) (failure r)) 0)
  else
    (pending r, failure r,
     mkLimitedReader (mkReader EmptyString (failure r)) (N l - Go.len (pending r))).

(** Modelled from the spec: [bytesutil.ByteBuffer.ReadFrom] is not among
    the sources.  It reads [r] to its end into the buffer ("bounded read
    into context's buffer") and returns the number of bytes read; the end
    of input is not an error. *)
Definition ByteBuffer_ReadFrom (B : string) (lr : LimitedReader)
  : string * Z * option error * LimitedReader :=
  let '(data, err, lr) := LimitedReader_drain lr in
  ((B ++ data)%string, Go.len data, err, lr).

(** One data point handed to the storage: labels, timestamp, value. *)
Record Point := mkPoint {
  Labels : list (string * string);
  PointTimestamp : Z;
  PointValue : float
}.

(** Modelled from the spec: [common.InsertCtx] is not among the sources.
    It "accepts a reset-with-capacity-hint call, an append-label call, a
    write-data-point(labels, timestamp, value) call, and a flush call that
    durably hands off all buffered points". *)
Record InsertCtx := mkInsertCtx {
  ic_Labels : list (string * string);
  ic_buffered : list Point
}.

Definition InsertCtx_Reset (ic : InsertCtx) (rowsLen : nat) : InsertCtx := mkInsertCtx [] [].
Definition InsertCtx_AddLabel (ic : InsertCtx) (name value : string) : InsertCtx :=
  mkInsertCtx (ic_Labels ic ++ [(name, value)]) (ic_buffered ic).
Definition InsertCtx_WriteDataPoint (ic : InsertCtx) (labels : list (string * string))
    (timestamp : Z) (value : float) : InsertCtx :=
  mkInsertCtx (ic_Labels ic) (ic_buffered ic ++ [mkPoint labels timestamp value]).

(** The counters of the package. *)
Record Metrics := mkMetrics {
  rowsInserted : nat;
  rowsPerInsert : list nat;
  opentsdbReadCalls : nat;
  opentsdbReadErrors : nat;
  opentsdbUnmarshalErrors : nat
}.

(** What lives outside a push context: the slice memory, the counters and
    the points the storage has received. *)
Record World := mkWorld {
  memory : Memory;
  metrics : Metrics;
  storage : list Point
}.

Record pushCtx := mkPushCtx {
  ctx_Rows : Rows;
  ctx_Common : InsertCtx;
  ctx_reqBuf : string;
  ctx_err : option error
}.

(** [&pushCtx{}]. *)
Definition pushCtx_zero : pushCtx := mkPushCtx Rows_zero (mkInsertCtx [] []) EmptyString None.

Definition incReadErrors (w : World) : World :=
  let c := metrics w in
  mkWorld (memory w)
          (mkMetrics (rowsInserted c) (rowsPerInsert c) (opentsdbReadCalls c)
                     (S (opentsdbReadErrors c)) (opentsdbUnmarshalErrors c))
          (storage w).

Definition incUnmarshalErrors (w : World) : World :=
  let c := metrics w in
  mkWorld (memory w)
          (mkMetrics (rowsInserted c) (rowsPerInsert c) (opentsdbReadCalls c)
                     (opentsdbReadErrors c) (S (opentsdbUnmarshalErrors c)))
          (storage w).

Definition incReadCalls (w : World) : World :=
  let c := metrics w in
  mkWorld (memory w)
          (mkMetrics (rowsInserted c) (rowsPerInsert c) (S (opentsdbReadCalls c))
                     (opentsdbReadErrors c) (opentsdbUnmarshalErrors c))
          (storage w).

Section Pipeline.
Context `{Runtime}.
Variable Value_Int64 : Value -> result Z.
Variable Value_Float64 : Value -> result float.
(** [fastjson.Parser.ParseBytes]. *)
Variable ParseBytes : string -> result Value.
(** [getGzipReader]: the decompressed stream, or the error of a bad
    gzip header. *)
Variable getGzipReader : Reader -> result Reader.
(** [InsertCtx.FlushBufs]: the error the storage answers with. *)
Variable FlushBufs_error : list Point -> option error.

Definition setErr (ctx : pushCtx) (e : error) : pushCtx :=
  mkPushCtx (ctx_Rows ctx) (ctx_Common ctx) (ctx_reqBuf ctx) (Some e).

(** [pushCtx.Read]. *)
Definition pushCtx_Read (w : World) (ctx : pushCtx) (r : Reader) (maxSize : Z)
  : bool * World * pushCtx * Reader :=
  match ctx_err ctx with
  | Some _ => (false, w, ctx, r)
  | None =>
      let lr := LimitReader r (int64 (maxSize + 1)) in
      let '(B, reqLen, err, lr) := ByteBuffer_ReadFrom (ctx_reqBuf ctx) lr in
      let r := R lr in
      let ctx := mkPushCtx (ctx_Rows ctx) (ctx_Common ctx) B (ctx_err ctx) in
      match err with
      | Some err =>
          (false, incReadErrors w,
           setErr ctx (Errorf "cannot read request: %s" [ArgError err]), r)
      | None =>
          if maxSize <? reqLen then
            (false, incReadErrors w,
             setErr ctx (Errorf "too big packed request; mustn't exceed %d bytes" [ArgInt maxSize]),
             r)
          else
            match ParseBytes (ctx_reqBuf ctx) with
            | Err err =>
                (false, incUnmarshalErrors w,
                 setErr ctx (Errorf "error parsing json: %s, length: %d, maxSize: %d"
                                    [ArgError err; ArgInt reqLen; ArgInt maxSize]),
                 r)
            | Ok v =>
                let '(m, rs, err) :=
                  Rows_Unmarshal Value_Int64 Value_Float64 (memory w) (ctx_Rows ctx) (Some v) in
                let w := mkWorld m (metrics w) (storage w) in
                let ctx := mkPushCtx rs (ctx_Common ctx) (ctx_reqBuf ctx) (ctx_err ctx) in
                match err with
                | Some err =>
                    (false, incUnmarshalErrors w,
                     setErr ctx (Errorf "cannot unmarshal opentsdb http protocol json %s, %s"
                                        [ArgValue v; ArgError err]),
                     r)
                | None => (true, w, ctx, r)
                end
            end
      end
  end.

(** The labels of one row: the metric under the empty name, then the
    tags. *)
Definition rowLabels (mt : list (list Tag)) (r : Row) : list (string * string) :=
  (EmptyString, Row_Metric r) :: ((fun t => (Tag_Key t, Tag_Value t)) <$> load mt (Row_Tags r)).

(** [pushCtx.InsertRows]. *)
Definition pushCtx_InsertRows (w : World) (ctx : pushCtx) : World * pushCtx * option error :=
  let rows := load (rowMem (memory w)) (Rows_Rows (ctx_Rows ctx)) in
  let ic := InsertCtx_Reset (ctx_Common ctx) (length rows) in
  let ic :=
    foldl (fun ic r =>
             let ic := mkInsertCtx [] (ic_buffered ic) in
             let ic := InsertCtx_AddLabel ic EmptyString (Row_Metric r) in
             let ic :=
               foldl (fun ic tag => InsertCtx_AddLabel ic (Tag_Key tag) (Tag_Value tag))
                     ic (load (tagMem (memory w)) (Row_Tags r)) in
             InsertCtx_WriteDataPoint ic (ic_Labels ic) (Row_Timestamp r) (Row_Value r))
          ic rows in
  let c := metrics w in
  let c := mkMetrics (rowsInserted c + length rows) (rowsPerInsert c ++ [length rows])
                     (opentsdbReadCalls c) (opentsdbReadErrors c)
                     (opentsdbUnmarshalErrors c) in
  let err := FlushBufs_error (ic_buffered ic) in
  (mkWorld (memory w) c (storage w ++ ic_buffered ic),
   mkPushCtx (ctx_Rows ctx) (mkInsertCtx (ic_Labels ic) []) (ctx_reqBuf ctx) (ctx_err ctx),
   err).

(** [pushCtx.Error]. *)
Definition pushCtx_Error (ctx : pushCtx) : option error :=
  match ctx_err ctx with
  | Some EOF => None
  | e => e
  end.

(** [pushCtx.reset]. *)
Definition pushCtx_reset (w : World) (ctx : pushCtx) : World * pushCtx :=
  let '(m, rs) := Rows_Reset (memory w) (ctx_Rows ctx) in
  (mkWorld m (metrics w) (storage w),
   mkPushCtx rs (InsertCtx_Reset (ctx_Common ctx) 0) EmptyString None).

(** The loop [for ctx.Read(r, maxSize) { ... ctx.InsertRows() ... }] of
    [insertHandlerInternal] and its [return ctx.Error()]; [fuel] bounds
    the turns. *)
Fixpoint readLoop (fuel : nat) (w : World) (ctx : pushCtx) (r : Reader) (maxSize : Z)
  : option (World * pushCtx * option error) :=
  match fuel with
  | O => None
  | S fuel =>
      match pushCtx_Read w ctx r maxSize with
      | (true, w, ctx, r) =>
          match pushCtx_InsertRows w ctx with
          | (w, ctx, Some err) => Some (w, ctx, Some err)
          | (w, ctx, None) => readLoop fuel w ctx r maxSize
          end
      | (false, w, ctx, r) => Some (w, ctx, pushCtx_Error ctx)
      end
  end.

Record Request := mkRequest { ContentEncoding : string; Body : Reader }.

(** [insertHandlerInternal], run on the context [ctx] that [getPushCtx]
    hands out; the deferred [putPushCtx] resets it. *)
Definition insertHandlerInternal (fuel : nat) (w : World) (ctx : pushCtx)
    (req : Request) (maxSize : Z) : option (World * pushCtx * option error) :=
  let w := incReadCalls w in
  let r := Body req in
  let zr :=
    if String.eqb (ContentEncoding req) "gzip" then
      match getGzipReader r with
      | Err err => Err (Errorf "cannot read gzipped http protocol data: %s" [ArgError err])
      | Ok zr => Ok zr
      end
    else Ok r in
  match zr with
  | Err e => Some (w, ctx, Some e)
  | Ok r =>
      match readLoop fuel w ctx r maxSize with
      | None => None
      | Some (w, ctx, err) =>
          let '(w, ctx) := pushCtx_reset w ctx in
          Some (w, ctx, err)
      end
  end.
End Pipeline.

End OpenTSDBHTTP.

(** ** Writing the put format

    What a client sends: the text of tags, of one put line and of a batch
    of lines, to be read back by the line parser. *)

Module PutText.

Import Go Arena.
Local Open Scope string_scope.

Definition tagSegment (t : Tag) : string := Tag_Key t ++ "=" ++ Tag_Value t.

Fixpoint tagText (tags : list Tag) : string :=
  match tags with
  | [] => EmptyString
  | [t] => tagSegment t
  | t :: tags' => tagSegment t ++ " " ++ tagText tags'
  end.

(** One data point as its tokens. *)
Record Sample := mkSample {
  metricToken : string;
  timestampToken : string;
  valueToken : string;
  sampleTags : list Tag
}.

Definition putText (p : Sample) : string :=
  "put " ++ metricToken p ++ " " ++ timestampToken p ++ " " ++ valueToken p ++ " "
         ++ tagText (sampleTags p).

(** A batch of lines, each ended by a newline; [None] is an empty line. *)
Fixpoint batchText (ls : list (option Sample)) : string :=
  match ls with
  | [] => EmptyString
  | Some p :: ls' => putText p ++ String OpenTSDB.newline (batchText ls')
  | None :: ls' => String OpenTSDB.newline (batchText ls')
  end.

(** The samples of a batch, in order. *)
Fixpoint samples (ls : list (option Sample)) : list Sample :=
  match ls with
  | [] => []
  | Some p :: ls' => p :: samples ls'
  | None :: ls' => samples ls'
  end.

(** A token holds neither a space nor a newline. *)
Definition token (s : string) : Prop := lacks " " s /\ lacks OpenTSDB.newline s.

Definition goodTag (t : Tag) : Prop :=
  Tag_Key t <> EmptyString /\ lacks "=" (Tag_Key t) /\ token (Tag_Key t) /\ token (Tag_Value t).

Definition goodSample (p : Sample) : Prop :=
  token (metricToken p) /\ token (timestampToken p) /\ token (valueToken p) /\
  sampleTags p <> [] /\ Forall goodTag (sampleTags p).

Definition goodBatch (ls : list (option Sample)) : Prop := Forall goodSample (samples ls).

(** The row a sample is read as, with the numeric parser [parse]. *)
Definition sampleView (parse : string -> float) (p : Sample) : RowView :=
  mkRowView (metricToken p) (sampleTags p) (parse (valueToken p))
            (int64_of_float64 (parse (timestampToken p))).

End PutText.

(** ** Fixtures *)

Module Fixtures.

Import Arena fastjson.

(** The line [put sys.cpu 1577836800 42.5 host=web01 dc=us] and its
    newline. *)
Definition putLine : string :=
  ("put sys.cpu 1577836800 42.5 host=web01 dc=us" ++ String OpenTSDB.newline EmptyString)%string.

Definition putLineTags : list Tag := [mkTag "host" "web01"; mkTag "dc" "us"].

(** The binary64 nearest to 1577836800.123. *)
Definition ts_fraction : float := 0x1.782f84007df3bp+30%float.

(** [{"metric":"m","timestamp":<ts>,"value":1,"tags":{"host":"a"}}]. *)
Definition point (ts : Value) : Value :=
  VObject [("metric", VString "m"); ("timestamp", ts); ("value", VNumber "1");
           ("tags", VObject [("host", VString "a")])]%string.

(** [{"metric":"m","value":1,"tags":{}}]: no [timestamp]. *)
Definition noTimestamp : Value :=
  VObject [("metric", VString "m"); ("value", VNumber "1"); ("tags", VObject [])]%string.

(** [{"metric":"m","timestamp":"soon"}]: no [value], no [tags], and a
    timestamp that is not a number. *)
Definition badTimestamp : Value :=
  VObject [("metric", VString "m"); ("timestamp", VString "soon")]%string.

(** [{"host":"a","rack":7,"dc":"us","up":true}]. *)
Definition mixedTags : list (string * Value) :=
  [("host", VString "a"); ("rack", VNumber "7"); ("dc", VString "us"); ("up", VTrue)]%string.

(** Two lines with one and two tags, and a third line for a second
    call. *)
Definition twoLines : string :=
  ("put a 1 2 k=v" ++ String OpenTSDB.newline "put b 3 4 x=y z=w")%string.

Definition thirdLine : string := "put c 5 6 p=q"%string.

(** A line that ends after its timestamp. *)
Definition truncatedLine : string := "put cpu 1577836800"%string.

(** A line whose timestamp and value tokens are not numbers. *)
Definition garbageLine : string := "put m 12x y3 a=b"%string.

(** Two bodies, one for a first call and one for a second. *)
Definition firstBody : Value := point (VNumber "1000000000").
(** [{"metric":"n","timestamp":1577836800000,"value":2.5,"tags":...}]
    with the mixed tags. *)
Definition mixedRow : Value :=
  VObject [("metric", VString "n"); ("timestamp", VNumber "1577836800000");
           ("value", VNumber "2.5"); ("tags", VObject mixedTags)]%string.

Definition secondBody : Value := VArray [mixedRow].

Definition lineParse :=
  OpenTSDB.Rows_Unmarshal (H := Go.doubling_runtime) fastfloat.ParseBestEffort.

Definition jsonParse :=
  OpenTSDBHTTP.Rows_Unmarshal (H := Go.doubling_runtime)
    OpenTSDBHTTP.fastjson_Int64 OpenTSDBHTTP.fastjson_Float64.


(** The sample of the put line of the specification, a second one, and
    a batch with an empty line between them. *)
Definition cpuSample : PutText.Sample :=
  PutText.mkSample "sys.cpu" "1577836800" "42.5" putLineTags.
Definition memSample : PutText.Sample :=
  PutText.mkSample "sys.mem" "1577836801" "-7" [mkTag "host" "a=b"].
Definition cpuMemBatch : list (option PutText.Sample) := [Some cpuSample; None; Some memSample].

(** A world in which nothing has happened yet. *)
Definition world0 : OpenTSDBHTTP.World :=
  OpenTSDBHTTP.mkWorld Memory_empty (OpenTSDBHTTP.mkMetrics 0 [] 0 0 0) [].

(** A request of ten bytes, not compressed. *)
Definition tenBytes : OpenTSDBHTTP.Reader :=
  OpenTSDBHTTP.mkReader "0123456789" None.
(** A stream of three bytes that then breaks. *)
Definition brokenStream : OpenTSDBHTTP.Reader :=
  OpenTSDBHTTP.mkReader "012" (Some (fmt.Errorf "connection reset" [])).
Definition tenByteRequest : OpenTSDBHTTP.Request :=
  OpenTSDBHTTP.mkRequest EmptyString tenBytes.

(** Stand-ins for the collaborators of the pipeline: a JSON parser that
    answers every body with the object without timestamp, a gzip reader
    that passes the stream on, a storage that accepts what is flushed. *)
Definition parseAsPoint (body : string) : fmt.result Value := fmt.Ok firstBody.
Definition parseAsNoTimestamp (body : string) : fmt.result Value := fmt.Ok noTimestamp.
Definition gzipPass (r : OpenTSDBHTTP.Reader) : fmt.result OpenTSDBHTTP.Reader := fmt.Ok r.
Definition flushOk (points : list OpenTSDBHTTP.Point) : option fmt.error := None.

(** The arena a parse leaves. *)
Definition lineArena (o : option (Memory * Rows * option fmt.error)) : Memory * Rows :=
  match o with
  | Some (m, rs, _) => (m, rs)
  | None => (Memory_empty, Rows_zero)
  end.

Definition jsonArena (o : Memory * Rows * option fmt.error) : Memory * Rows :=
  let '(m, rs, _) := o in (m, rs).

End Fixtures.

(** * Properties *)

Set Warnings "-notation-for-abbreviation".

(** ** Strings *)

Section StringFacts.
Import Go.

Lemma str_take_length (n : nat) (s : string) :
  String.length (str_take n s) = Nat.min n (String.length s).
Proof. revert s; induction n as [|n IH]; intros [|c s]; simpl; auto. Qed.

Lemma str_drop_length (n : nat) (s : string) :
  String.length (str_drop n s) = String.length s - n.
Proof. revert s; induction n as [|n IH]; intros [|c s]; simpl; auto. Qed.

Lemma IndexByte_bounds (s : string) (c : ascii) :
  (-1 <= IndexByte s c < Z.of_nat (String.length s))%Z.
Proof.
  induction s as [|a s IH]; simpl; [lia|].
  destruct (Ascii.eqb a c); [lia|].
  destruct (Z.ltb_spec (IndexByte s c) 0); lia.
Qed.

Lemma slice_from_shorter (s : string) (c : ascii) (n : Z) :
  n = IndexByte s c -> (0 <= n)%Z ->
  String.length (slice_from s (n + 1)) < String.length s.
Proof.
  intros -> Hn. unfold slice_from. rewrite str_drop_length.
  pose proof (IndexByte_bounds s c). lia.
Qed.
End StringFacts.

(** ** Slices and their store *)

Section SliceFacts.
Import Slice.
Context {A : Type} (zero : A) `{Go.Runtime}.
Implicit Types (m : list (list A)) (s d v : slice) (x : A).

Lemma array_app_l m l a : a < length m -> array (m ++ l) a = array m a.
Proof. intros Ha. unfold array. by rewrite lookup_app_l. Qed.

Lemma array_app_new m (l : list A) : array (m ++ [l]) (length m) = l.
Proof.
  unfold array. rewrite lookup_app_r by lia.
  by replace (length m - length m) with 0 by lia.
Qed.

Lemma array_store m s i x a :
  array (store m s i x) a =
  if decide (a = arr s) then <[off s + i := x]> (array m a) else array m a.
Proof.
  unfold array, store. destruct (decide (a = arr s)) as [->|Hne].
  - rewrite list_lookup_alter_eq. by destruct (m !! arr s).
  - by rewrite list_lookup_alter_ne.
Qed.

Lemma length_store m s i x : length (store m s i x) = length m.
Proof. apply length_alter. Qed.

Lemma length_array_store m s i x a :
  length (array (store m s i x) a) = length (array m a).
Proof. rewrite array_store. destruct (decide _); [apply length_insert|done]. Qed.

Lemma lookup_load m s k :
  load m s !! k = if decide (k < len s) then array m (arr s) !! (off s + k) else None.
Proof.
  unfold load. rewrite lookup_take. destruct (decide _); [|done].
  by rewrite lookup_drop.
Qed.

Lemma length_load m s : valid m s -> length (load m s) = len s.
Proof.
  intros [Hc Hl]. unfold load. rewrite length_take, length_drop. lia.
Qed.

Lemma valid_array_exists m s : valid m s -> 0 < cap s -> arr s < length m.
Proof.
  intros [Hc _] Hpos. unfold array in Hc.
  destruct (m !! arr s) eqn:E; simpl in Hc; [|lia].
  by eapply lookup_lt_Some.
Qed.

Lemma grows_refl m d : valid m d -> off d = 0 -> grows m d m d.
Proof. intros [? ?] Ho. unfold grows, valid. split_and!; auto. Qed.

Lemma grows_trans m d m1 d1 m2 d2 :
  grows m d m1 d1 -> grows m1 d1 m2 d2 -> grows m d m2 d2.
Proof.
  intros (Hv1 & Ho1 & Hl1 & Hw1 & Hs1 & Hf1) (Hv2 & Ho2 & Hl2 & Hw2 & Hs2 & Hf2).
  unfold grows; split_and!; try done; try lia.
  - intros a Ha. rewrite Hs2 by lia. by apply Hs1.
  - intros a k Ha Hz. rewrite Hf2; [by apply Hf1|lia|].
    destruct Hw1 as [[E1 ?]|?]; [|left; lia].
    destruct Hz; [left; congruence|right; lia].
Qed.

Lemma grows_upto m d m1 d1 n :
  grows m d m1 d1 -> len d <= n -> n <= len d1 -> grows m d m1 (upto d1 n).
Proof.
  intros ((Hc & Hl) & Ho & Hlen & Hw & Hs & Hf) Hn1 Hn2.
  unfold grows, valid; split_and!; simpl; try done; try lia.
Qed.

Lemma extend_grows m d m' d' :
  valid m d -> off d = 0 -> extend zero m d = (m', d') ->
  grows m d m' d' /\ len d' = S (len d) /\ take (len d) (load m' d') = load m d.
Proof.
  intros Hv Ho. pose proof Hv as [Hc Hl]. unfold extend, append.
  destruct (Nat.ltb_spec (len d) (cap d)) as [Hlt|Hge]; intros [= <- <-].
  - split; [|split]; simpl; [|lia|].
    + unfold grows, valid; split_and!; simpl; try done; try lia.
    + unfold load; simpl. rewrite take_take. f_equal. lia.
  - pose proof (Go.growslice_gt (cap d)) as Hg.
    assert (len d = cap d) as Hlc by lia.
    pose proof (length_load m d Hv) as Hll.
    split; [|split]; simpl; [|done|].
    + unfold grows, valid; split_and!; simpl; try lia.
      * rewrite array_app_new. rewrite length_app; simpl.
        rewrite length_replicate. lia.
      * rewrite length_app; simpl; lia.
      * intros a Ha. by rewrite array_app_l.
      * intros a k Ha _. by rewrite array_app_l.
    + unfold load at 1; simpl. rewrite array_app_new, drop_0, take_take.
      replace (len d `min` S (len d)) with (len d) by lia.
      rewrite take_app_length'; done.
Qed.

Lemma grows_store_last m d m1 d1 x :
  grows m d m1 d1 -> len d1 = S (len d) -> take (len d) (load m1 d1) = load m d ->
  grows m d (store m1 d1 (len d) x) d1 /\
  load (store m1 d1 (len d) x) d1 = load m d ++ [x].
Proof.
  intros ((Hc & Hl) & Ho & Hlen & Hw & Hs & Hf) Hl1 Hpre. split.
  - unfold grows, valid; split_and!; try done.
    + by rewrite length_array_store.
    + by rewrite length_store.
    + intros a Ha. by rewrite length_array_store, Hs.
    + intros a k Ha Hz. rewrite array_store.
      destruct (decide (a = arr d1)) as [->|]; [|by apply Hf].
      destruct Hw as [[Hw ?]|?]; [|lia].
      rewrite list_lookup_insert_ne; [by apply Hf|].
      destruct Hz; [congruence|lia].
  - rewrite <- Hpre. unfold load. rewrite array_store, decide_True by done.
    rewrite Ho, Hl1; simpl.
    rewrite (take_S_r _ _ x).
    + f_equal. rewrite !drop_0, take_insert_ge, take_take by lia.
      f_equal. lia.
    + rewrite drop_0. apply list_lookup_insert_eq. lia.
Qed.

(** The next slot of [d] taken and filled with [x]. *)
Lemma extend_store m d m' d' x :
  valid m d -> off d = 0 -> extend zero m d = (m', d') ->
  grows m d (store m' d' (len d' - 1) x) d' /\
  load (store m' d' (len d' - 1) x) d' = load m d ++ [x] /\
  len d' = S (len d).
Proof.
  intros Hv Ho He. destruct (extend_grows _ _ _ _ Hv Ho He) as (Hg & Hl & Hp).
  replace (len d' - 1) with (len d) by lia.
  destruct (grows_store_last _ _ _ _ x Hg Hl Hp). done.
Qed.

(** A view whose cells are out of reach keeps its contents. *)
Lemma grows_safe m d m' d' v :
  grows m d m' d' -> safe m d v -> safe m' d' v /\ load m' v = load m v.
Proof.
  intros (Hv & Ho & Hlen & Hw & Hs & Hf) [Hz|(Ha & Hb & Hd)].
  - split; [by left|]. unfold load. by rewrite Hz.
  - split.
    + right. split; [lia|]. split; [by rewrite Hs|].
      intros E. destruct Hw as [[Hw ?]|?]; [|lia].
      rewrite Hw in E. specialize (Hd E). lia.
    + apply list_eq. intros k. rewrite !lookup_load.
      destruct (decide _); [|done]. apply Hf; [done|].
      destruct (decide (arr v = arr d)) as [E|]; [|by left].
      right. specialize (Hd E). lia.
Qed.

(** The view [d[start:]] cut to its length, as [Row.unmarshal] makes it. *)
Lemma view_safe m d start :
  valid m d -> off d = 0 -> start <= len d ->
  let v := upto3 (from d start) (len (from d start)) in
  safe m d v /\ load m v = drop start (load m d) /\
  v = Slice (arr d) start (len d - start) (len d - start).
Proof.
  intros Hv Ho Hs v. pose proof Hv as [Hc Hl].
  assert (v = Slice (arr d) start (len d - start) (len d - start)) as Ev.
  { unfold v, upto3, from; simpl. by rewrite Ho. }
  split; [|split]; [| |done].
  - rewrite Ev. destruct (decide (len d - start = 0)) as [E|E]; [by left|right].
    simpl. split; [apply (valid_array_exists _ _ Hv); lia|]. split; [lia|]. lia.
  - rewrite Ev. unfold load; simpl. rewrite Ho, drop_0.
    rewrite take_drop_commute. f_equal. f_equal. lia.
Qed.
End SliceFacts.

(** ** The arena between two rows *)

Section ArenaFacts.
Import Slice Arena.
Context `{Go.Runtime}.
Implicit Types (m : Memory) (mt : list (list Tag)) (rs : Rows) (r : Row).

Lemma tiles_app a rows b rows' c :
  tiles a rows b -> tiles b rows' c -> tiles a (rows ++ rows') c.
Proof.
  revert a. induction rows as [|r rows IH]; simpl; intros a.
  - by intros ->.
  - intros (? & ? & ?) ?. split_and!; auto.
Qed.

Lemma tiles_bounds a rows b i r :
  tiles a rows b -> rows !! i = Some r ->
  a <= off (Row_Tags r) /\ off (Row_Tags r) + len (Row_Tags r) <= b /\
  cap (Row_Tags r) = len (Row_Tags r).
Proof.
  revert a i. induction rows as [|r0 rows IH]; intros a i; simpl; [done|].
  intros (Ho & Hc & Ht) Hi.
  assert (a + len (Row_Tags r0) <= b) as Hle.
  { clear -Ht. revert Ht. generalize (a + len (Row_Tags r0)).
    induction rows as [|r1 rows IH]; simpl; intros n; [lia|].
    intros (_ & _ & Ht). apply IH in Ht. lia. }
  destruct i as [|i]; simpl in Hi.
  - injection Hi as <-. lia.
  - destruct (IH _ _ Ht Hi) as (? & ? & ?). lia.
Qed.

Lemma tiles_ordered a rows b i j ri rj :
  tiles a rows b -> rows !! i = Some ri -> rows !! j = Some rj -> i < j ->
  off (Row_Tags ri) + len (Row_Tags ri) <= off (Row_Tags rj).
Proof.
  revert a i j. induction rows as [|r0 rows IH]; intros a i j; simpl; [done|].
  intros (Ho & Hc & Ht) Hi Hj Hlt.
  destruct j as [|j]; [lia|]. simpl in Hj.
  destruct i as [|i]; simpl in Hi.
  - injection Hi as <-. destruct (tiles_bounds _ _ _ _ _ Ht Hj). lia.
  - eapply IH; eauto. lia.
Qed.

Lemma wf_parsing m rs :
  wf m rs -> parsing m (upto (Rows_Rows rs) 0) (upto (Rows_tagsPool rs) 0) [].
Proof.
  intros ((? & ?) & ? & (? & ?) & ?).
  unfold parsing, valid; simpl. split_and!; auto; try lia.
Qed.

Lemma parsing_wf m dst pool rows : parsing m dst pool rows -> wf m (mkRows dst pool).
Proof. intros (? & ? & ? & ? & ? & ?). by unfold wf. Qed.

Lemma viewOK_grows mt pool mt' pool' new r :
  grows mt pool mt' pool' -> valid mt pool ->
  load mt' pool' = load mt pool ++ new ->
  viewOK mt pool r ->
  viewOK mt' pool' r /\ view mt' r = view mt r.
Proof.
  intros Hg Hv Hnew (Hs & Hr & Hl).
  destruct (grows_safe _ _ _ _ _ Hg Hs) as [Hs' Hl'].
  assert (len pool <= len pool') as Hlen.
  { pose proof Hg as (Hv' & _). apply length_load in Hv, Hv'.
    rewrite <- Hv, <- Hv', Hnew, length_app. lia. }
  split; [|unfold view; by rewrite Hl'].
  unfold viewOK. split_and!; [done|lia|].
  rewrite Hl', Hl, Hnew. rewrite drop_app_le, take_app_le; [done| |].
  - rewrite length_drop, (length_load _ _ Hv). lia.
  - rewrite (length_load _ _ Hv). lia.
Qed.

(** A row parsed without error joins the parsed rows. *)
Lemma turn_ok m dst pool rows mr dst' mt' r' pool' :
  parsing m dst pool rows ->
  extend Row_zero (rowMem m) dst = (mr, dst') ->
  rowStep (tagMem m) pool mt' r' pool' None ->
  let m' := mkMemory (store mr dst' (len dst' - 1) r') mt' in
  parsing m' dst' pool' (rows ++ [r']) /\
  view mt' <$> rows = view (tagMem m) <$> rows /\
  load mt' (Row_Tags r') = drop (len pool) (load mt' pool').
Proof.
  intros (Hvr & Hor & Hlr & Hvt & Hot & Htl & Hviews) Hext (Hg & [new Hnew] & Htags & Hle) m'.
  destruct (extend_store Row_zero _ _ _ _ r' Hvr Hor Hext) as (Hgr & Hload & Hlen).
  pose proof Hg as (Hvt' & Hot' & _).
  destruct (view_safe (A := Tag) mt' pool' (len pool) Hvt' Hot' Hle) as (Hsafe & Hview & Hv).
  cbv zeta in Hsafe, Hview, Hv. rewrite <- Htags in Hv. rewrite Hv in Hsafe, Hview.
  assert (viewOK mt' pool' r') as Hnewview.
  { unfold viewOK. split_and!; [done|rewrite Htags; simpl; lia|].
    rewrite Hview. rewrite Htags at 1 2; simpl.
    rewrite take_ge; [done|]. rewrite length_drop, (length_load _ _ Hvt'). lia. }
  split; [|split]; [ | | done].
  - unfold parsing; simpl. destruct Hgr as (? & ? & _).
    split_and!; try done.
    + by rewrite Hload, Hlr.
    + eapply tiles_app; [done|]. simpl. rewrite Htags; simpl. split_and!; auto. lia.
    + apply Forall_app. split; [|by apply Forall_singleton].
      eapply Forall_impl; [done|]. intros r Hr.
      by destruct (viewOK_grows _ _ _ _ _ _ Hg Hvt Hnew Hr).
  - apply Forall_fmap_ext. eapply Forall_impl; [done|]. intros r Hr.
    by destruct (viewOK_grows _ _ _ _ _ _ Hg Hvt Hnew Hr).
Qed.

(** A row that fails stays in its slot; the rows before it are intact. *)
Lemma turn_err m dst pool rows mr dst' mt' r' pool' e :
  parsing m dst pool rows ->
  extend Row_zero (rowMem m) dst = (mr, dst') ->
  rowStep (tagMem m) pool mt' r' pool' (Some e) ->
  let m' := mkMemory (store mr dst' (len dst' - 1) r') mt' in
  wf m' (mkRows dst' pool') /\
  Arena.rows m' (mkRows dst' pool') = rows ++ [r'] /\
  view mt' <$> rows = view (tagMem m) <$> rows /\
  len dst' = S (len dst).
Proof.
  intros (Hvr & Hor & Hlr & Hvt & Hot & Htl & Hviews) Hext (Hg & [new Hnew] & Htags) m'.
  destruct (extend_store Row_zero _ _ _ _ r' Hvr Hor Hext) as (Hgr & Hload & Hlen).
  pose proof Hg as (Hvt' & Hot' & _). destruct Hgr as (? & ? & _).
  split_and!; try done.
  - unfold Arena.rows; simpl. by rewrite Hload, Hlr.
  - apply Forall_fmap_ext. eapply Forall_impl; [done|]. intros r Hr.
    by destruct (viewOK_grows _ _ _ _ _ _ Hg Hvt Hnew Hr).
Qed.
End ArenaFacts.

Section TurnFacts.
Import Slice Arena.
Context `{Go.Runtime}.

Lemma load_nil {A : Type} (m : list (list A)) : load m nil = [].
Proof. done. Qed.

Lemma load_upto {A : Type} (m : list (list A)) d n :
  n <= len d -> load m (upto d n) = take n (load m d).
Proof.
  intros Hn. unfold load; simpl. rewrite take_take. f_equal. lia.
Qed.

(** One turn of a row loop. *)
Lemma turn m dst pool rows mr dst' mt' r' pool' err :
  parsing m dst pool rows ->
  extend Row_zero (rowMem m) dst = (mr, dst') ->
  rowStep (tagMem m) pool mt' r' pool' err ->
  advanced m rows (mkMemory (store mr dst' (len dst' - 1) r') mt') dst' pool'
           [view mt' r'] err.
Proof.
  intros Hp Hext Hstep. exists [r']. destruct err as [e|].
  - destruct (turn_err _ _ _ _ _ _ _ _ _ _ Hp Hext Hstep) as (Hwf & Hrows & Hviews & _).
    split_and!; [done| |done|done].
    simpl. by rewrite fmap_app, Hviews.
  - destruct (turn_ok _ _ _ _ _ _ _ _ _ Hp Hext Hstep) as (Hp' & Hviews & _).
    pose proof Hp' as (_ & _ & Hl & _).
    split_and!; [done| |by eapply parsing_wf|done].
    simpl. by rewrite fmap_app, Hviews.
Qed.

Lemma advanced_refl m dst pool rows :
  parsing m dst pool rows -> advanced m rows m dst pool [] None.
Proof.
  intros Hp. exists []. rewrite !app_nil_r. pose proof Hp as (_ & _ & Hl & _).
  split_and!; [done|done|by eapply parsing_wf|done].
Qed.

Lemma advanced_trans m rows m1 dst1 pool1 rvs1 m2 dst2 pool2 rvs2 err :
  advanced m rows m1 dst1 pool1 rvs1 None ->
  (forall rows1, parsing m1 dst1 pool1 rows1 -> advanced m1 rows1 m2 dst2 pool2 rvs2 err) ->
  advanced m rows m2 dst2 pool2 (rvs1 ++ rvs2) err.
Proof.
  intros (rows1 & Hl1 & Hv1 & Hwf1 & Hp1) Hnext.
  destruct (Hnext _ (Hp1 eq_refl)) as (rows2 & Hl2 & Hv2 & Hwf2 & Hp2).
  exists (rows1 ++ rows2). rewrite !app_assoc.
  split_and!; [done| |done|done].
  by rewrite Hv2, Hv1.
Qed.

(** What an [advanced] run from the start of [Unmarshal] leaves. *)
Lemma advanced_start m m' rs' rvs err :
  advanced m [] m' (Rows_Rows rs') (Rows_tagsPool rs') rvs err ->
  wf m' rs' /\ contents m' rs' = rvs /\
  len (Rows_Rows rs') = length rvs /\
  (err = None -> parsing m' (Rows_Rows rs') (Rows_tagsPool rs') (rows m' rs')).
Proof.
  destruct rs' as [dst' pool']. intros (rows' & Hl & Hv & Hwf & Hp). simpl in *.
  pose proof Hwf as (Hvr & _). apply length_load in Hvr. simpl in Hvr.
  unfold contents, rows; simpl. rewrite Hl.
  split_and!; [done|done| |done].
  by rewrite <- Hvr, Hl, <- Hv, length_fmap.
Qed.
End TurnFacts.

(** ** The JSON parser *)

Section JSONFacts.
Import Go Slice Arena fmt fastjson OpenTSDBHTTP.
Context `{Runtime}.
Variable Value_Int64 : Value -> result Z.
Variable Value_Float64 : Value -> result float.

Local Notation Row_unmarshal := (OpenTSDBHTTP.Row_unmarshal Value_Int64 Value_Float64).
Local Notation unmarshalRow := (OpenTSDBHTTP.unmarshalRow Value_Int64 Value_Float64).
Local Notation unmarshalRows_range := (OpenTSDBHTTP.unmarshalRows_range Value_Int64 Value_Float64).
Local Notation unmarshalRows := (OpenTSDBHTTP.unmarshalRows Value_Int64 Value_Float64).
Local Notation Rows_Unmarshal := (OpenTSDBHTTP.Rows_Unmarshal Value_Int64 Value_Float64).

(** [unmarshalTags] appends the string-valued entries and nothing else. *)
Lemma unmarshalTags_kept (kvs : list (string * Value)) (mt : list (list Tag)) (dst : slice) :
  valid mt dst -> off dst = 0 ->
  exists mt' dst',
    unmarshalTags mt dst kvs = (mt', dst') /\
    grows mt dst mt' dst' /\
    load mt' dst' = load mt dst ++ keptTags kvs.
Proof.
  unfold unmarshalTags. revert mt dst.
  induction kvs as [|[k v] kvs IH]; intros mt dst Hv Ho; simpl.
  - exists mt, dst. rewrite app_nil_r. auto using grows_refl.
  - destruct (extend Tag_zero mt dst) as [mt1 dst1] eqn:Hext.
    destruct (extend_grows Tag_zero _ _ _ _ Hv Ho Hext) as (Hg & Hlen & Hpre).
    assert (forall mt2 dst2 new,
      grows mt dst mt2 dst2 -> load mt2 dst2 = load mt dst ++ new ->
      exists mt' dst',
        Object_Visit kvs
          (fun '(mt, dst) k v =>
             let '(mt, dst) := extend Tag_zero mt dst in
             let tag := len dst - 1 in
             match Value_StringBytes v with
             | None => (mt, upto dst (len dst - 1))
             | Some tv =>
                 let t := get Tag_zero mt dst tag in
                 let t := mkTag k (Tag_Value t) in
                 let t := mkTag (Tag_Key t) tv in
                 (store mt dst tag t, dst)
             end) (mt2, dst2) = (mt', dst') /\
        grows mt dst mt' dst' /\
        load mt' dst' = load mt dst ++ new ++ keptTags kvs) as Hrest.
    { intros mt2 dst2 new Hg2 Hl2. pose proof Hg2 as (Hv2 & Ho2 & _).
      destruct (IH mt2 dst2 Hv2 Ho2) as (mt' & dst' & Heq & Hg' & Hl').
      exists mt', dst'. split_and!; [done|by eapply grows_trans|].
      by rewrite Hl', Hl2, app_assoc. }
    replace (len dst1 - 1) with (len dst) by lia.
    destruct v as [kvs'|a|sv|sn| | |]; simpl;
      try (apply (Hrest _ _ []);
           [apply grows_upto; [done|lia|lia]
           |rewrite load_upto, app_nil_r by lia; done]).
    destruct (grows_store_last _ _ _ _ (mkTag k sv) Hg Hlen Hpre) as (Hg2 & Hl2).
    by apply (Hrest _ _ [mkTag k sv]).
Qed.

Local Ltac failed Hfail :=
  eexists _, _; intros mt r pool Hv Ho; eexists _, _, _;
  split_and!;
  [reflexivity
  |apply Hfail; [done|done|reflexivity]
  |unfold view; simpl; rewrite load_nil; reflexivity].

(** [Row.unmarshal]: what it leaves depends on the object alone. *)
Lemma json_Row_unmarshal_step (o : Value) :
  exists rv err, forall mt r pool,
    valid mt pool -> off pool = 0 ->
    exists mt' r' pool',
      Row_unmarshal mt r o pool = (mt', r', pool', err) /\
      rowStep mt pool mt' r' pool' err /\
      view mt' r' = rv.
Proof.
  unfold OpenTSDBHTTP.Row_unmarshal.
  assert (forall mt pool r' e, valid mt pool -> off pool = 0 -> Row_Tags r' = nil ->
            rowStep mt pool mt r' pool (Some e)) as Hfail.
  { intros mt pool r' e Hv Ho Ht. unfold rowStep.
    split_and!; [by apply grows_refl|exists []; by rewrite app_nil_r|done]. }
  destruct (Value_GetStringBytes o "metric") as [metric|];
    [|failed Hfail].
  destruct (Value_Get o "timestamp") as [rawTs|];
    [|failed Hfail].
  destruct (timestamp Value_Int64 Value_Float64 o rawTs) as [ts|e];
    [|failed Hfail].
  destruct (Value_Get o "value") as [rawV|];
    [|failed Hfail].
  destruct (Value_Float64 rawV) as [v|e];
    [|failed Hfail].
  destruct (Value_GetObject o "tags") as [rawTags|];
    [|failed Hfail].
  exists (mkRowView metric (keptTags rawTags) v ts), None.
  intros mt r pool Hv Ho.
  destruct (unmarshalTags_kept rawTags mt pool Hv Ho) as (mt' & pool' & -> & Hg & Hl).
  pose proof Hg as (Hv' & Ho' & _).
  assert (len pool <= len pool') as Hle.
  { apply length_load in Hv, Hv'. rewrite <- Hv, <- Hv', Hl, length_app. lia. }
  destruct (view_safe (A := Tag) mt' pool' (len pool) Hv' Ho' Hle) as (_ & Hview & Hshape).
  cbv zeta in Hview, Hshape.
  rewrite Hshape in Hview.
  eexists _, _, _. split_and!; [done| |].
  - unfold rowStep. split_and!; [done|by eexists| |done].
    simpl. unfold upto3, from; simpl. by rewrite Ho'.
  - unfold view, upto3, from; simpl. rewrite Ho'; simpl. f_equal.
    rewrite Hview, Hl, drop_app_length'; [done|]. symmetry. by apply length_load.
Qed.

(** One row of a body. *)
Lemma json_unmarshalRow_advanced (e : Value) :
  exists rvs err, forall m dst pool rows,
    parsing m dst pool rows ->
    exists m' dst' pool',
      unmarshalRow m dst e pool = (m', dst', pool', err) /\
      advanced m rows m' dst' pool' rvs err /\
      (err = None -> len dst' = S (len dst)).
Proof.
  destruct (json_Row_unmarshal_step e) as (rv & err & Hstep).
  exists [rv], (match err with
                | Some err =>
                    Some (Errorf "cannot unmarshal OpenTSDB body %s: %s" [ArgValue e; ArgError err])
                | None => None
                end).
  intros m dst pool rows Hp. unfold OpenTSDBHTTP.unmarshalRow.
  destruct (extend Row_zero (rowMem m) dst) as [mr dst'] eqn:Hext.
  pose proof Hp as (Hvr & Hor & _ & Hvt & Hot & _).
  destruct (Hstep (tagMem m) (get Row_zero mr dst' (len dst' - 1)) pool Hvt Hot)
    as (mt' & r' & pool' & -> & Hrs & <-).
  pose proof (turn _ _ _ _ _ _ _ _ _ _ Hp Hext Hrs) as Hadv.
  destruct (extend_grows Row_zero _ _ _ _ Hvr Hor Hext) as (_ & Hlen & _).
  destruct err as [err|]; eexists _, _, _; (split_and!; [done| |done]).
  - destruct Hadv as (rows' & ? & ? & ? & ?). exists rows'. split_and!; done.
  - done.
Qed.

Lemma json_unmarshalRows_range_advanced (a : list Value) :
  exists rvs err, forall m dst pool rows,
    parsing m dst pool rows ->
    exists m' dst' pool',
      unmarshalRows_range a m dst pool = (m', dst', pool', err) /\
      advanced m rows m' dst' pool' rvs err.
Proof.
  induction a as [|e a (rvs2 & err2 & IH)]; simpl.
  - exists [], None. intros m dst pool rows Hp. eexists _, _, _.
    split; [done|by apply advanced_refl].
  - destruct (json_unmarshalRow_advanced e) as (rvs1 & [err1|] & Hrow).
    + exists rvs1, (Some err1). intros m dst pool rows Hp.
      destruct (Hrow _ _ _ _ Hp) as (m' & dst' & pool' & -> & Hadv & _).
      by eexists _, _, _.
    + exists (rvs1 ++ rvs2), err2. intros m dst pool rows Hp.
      destruct (Hrow _ _ _ _ Hp) as (m1 & dst1 & pool1 & -> & Hadv & _).
      assert (exists m' dst' pool',
                unmarshalRows_range a m1 dst1 pool1 = (m', dst', pool', err2) /\
                forall rows1, parsing m1 dst1 pool1 rows1 ->
                              advanced m1 rows1 m' dst' pool' rvs2 err2)
        as (m' & dst' & pool' & -> & Hnext).
      { pose proof Hadv as (rows1 & _ & _ & _ & Hp1).
        destruct (IH _ _ _ _ (Hp1 eq_refl)) as (m' & dst' & pool' & Heq & _).
        exists m', dst', pool'. split; [done|].
        intros rows2 Hp2. destruct (IH _ _ _ _ Hp2) as (? & ? & ? & Heq' & ?).
        rewrite Heq in Heq'. by injection Heq' as <- <- <-. }
      eexists _, _, _. split; [done|]. by eapply advanced_trans.
Qed.

(** [Rows.Unmarshal]: the rows it leaves and the error it returns depend
    on the body alone. *)
Lemma json_Rows_Unmarshal_advanced (av : option Value) :
  exists rvs err, forall m rs,
    wf m rs ->
    exists m' rs',
      Rows_Unmarshal m rs av = (m', rs', err) /\
      advanced m [] m' (Rows_Rows rs') (Rows_tagsPool rs') rvs err.
Proof.
  unfold OpenTSDBHTTP.Rows_Unmarshal, OpenTSDBHTTP.unmarshalRows.
  assert (forall e, exists rvs, forall m rs, wf m rs ->
            advanced m [] m (upto (Rows_Rows rs) 0) (upto (Rows_tagsPool rs) 0) rvs (Some e))
    as Hfail.
  { intros e. exists []. intros m rs Hwf. apply wf_parsing in Hwf.
    destruct (advanced_refl _ _ _ _ Hwf) as (rows' & ? & ? & ? & ?).
    exists rows'. split_and!; done. }
  destruct av as [av|].
  2:{ destruct (Hfail (Errorf "cannot unmarshal OpenTSDB body, it is empty" [])) as [rvs Hf].
      eexists rvs, _. intros m rs Hwf. eexists _, _. split; [done|]. by apply Hf. }
  destruct (Value_Type av) eqn:Hty;
    try (destruct (Hfail (Errorf "cannot unmarshal OpenTSDB body, type is not object or array: %s"
                                 [ArgValue av])) as [rvs Hf];
         eexists rvs, _; intros m rs Hwf; eexists _, _; split; [done|]; by apply Hf).
  - destruct (json_unmarshalRow_advanced av) as (rvs & err & Hrow).
    exists rvs, err. intros m rs Hwf.
    destruct (Hrow _ _ _ _ (wf_parsing _ _ Hwf)) as (m' & dst' & pool' & -> & Hadv & _).
    by eexists _, _.
  - destruct (json_unmarshalRows_range_advanced (Value_Array av)) as (rvs & err & Hrange).
    exists rvs, err. intros m rs Hwf.
    destruct (Hrange _ _ _ _ (wf_parsing _ _ Hwf)) as (m' & dst' & pool' & -> & Hadv).
    by eexists _, _.
Qed.
End JSONFacts.

(** ** The line parser *)

Section LineFacts.
Import Go Slice Arena fmt OpenTSDB.
Context `{Runtime}.
Variable ParseBestEffort : string -> float.

Local Notation Row_unmarshal := (OpenTSDB.Row_unmarshal ParseBestEffort).
Local Notation unmarshalRows_loop := (OpenTSDB.unmarshalRows_loop ParseBestEffort).
Local Notation unmarshalRows := (OpenTSDB.unmarshalRows ParseBestEffort).
Local Notation Rows_Unmarshal := (OpenTSDB.Rows_Unmarshal ParseBestEffort).

Lemma Tag_unmarshal_reset (t : Tag) (s : string) :
  Tag_unmarshal t s = Tag_unmarshal Tag_zero s.
Proof. done. Qed.

(** [unmarshalTags] returns, and what it appends depends on the text
    alone. *)
Lemma unmarshalTags_loop_appends (fuel : nat) (s : string) :
  String.length s < fuel ->
  exists new err, forall (mt : list (list Tag)) (dst : slice),
    valid mt dst -> off dst = 0 ->
    exists mt' dst',
      unmarshalTags_loop fuel mt dst s = Some (mt', dst', err) /\
      grows mt dst mt' dst' /\
      load mt' dst' = load mt dst ++ new.
Proof.
  revert s. induction fuel as [|fuel IH]; intros s Hfuel; [lia|]. simpl.
  (* what one turn does with the tag text [s1] *)
  assert (forall s1, exists new1 err1, forall mt dst mt1 dst1,
            valid mt dst -> off dst = 0 -> extend Tag_zero mt dst = (mt1, dst1) ->
            exists t,
              Tag_unmarshal (get Tag_zero mt1 dst1 (len dst1 - 1)) s1 = (t, err1) /\
              match err1 with
              | Some _ =>
                  grows mt dst (store mt1 dst1 (len dst1 - 1) t) (upto dst1 (len dst1 - 1)) /\
                  load (store mt1 dst1 (len dst1 - 1) t) (upto dst1 (len dst1 - 1)) = load mt dst
              | None =>
                  grows mt dst (store mt1 dst1 (len dst1 - 1) t) dst1 /\
                  load (store mt1 dst1 (len dst1 - 1) t) dst1 = load mt dst ++ new1
              end) as Hturn.
  { intros s1. destruct (Tag_unmarshal Tag_zero s1) as [t err1] eqn:Ht.
    exists [t], err1. intros mt dst mt1 dst1 Hv Ho Hext.
    exists t. rewrite Tag_unmarshal_reset. split; [done|].
    destruct (extend_store Tag_zero _ _ _ _ t Hv Ho Hext) as (Hg & Hl & Hlen).
    destruct err1; [|done].
    split; [apply grows_upto; [done|lia|lia]|].
    rewrite load_upto, Hl by lia. rewrite take_app_length'; [done|].
    rewrite (length_load _ _ Hv). lia. }
  destruct (Z.ltb_spec (IndexByte s " ") 0) as [Hneg|Hpos].
  - destruct (Hturn s) as (new1 & err1 & Ht).
    exists (match err1 with Some _ => [] | None => new1 end), err1.
    intros mt dst Hv Ho.
    destruct (extend Tag_zero mt dst) as [mt1 dst1] eqn:Hext.
    destruct (Ht _ _ _ _ Hv Ho Hext) as (t & -> & Hres).
    destruct err1; destruct Hres as [Hg Hl]; eexists _, _;
      (split_and!; [done|done|]); [by rewrite app_nil_r|done].
  - destruct (Hturn (slice_to s (IndexByte s " "))) as (new1 & [e1|] & Ht).
    + exists [], (Some e1). intros mt dst Hv Ho.
      destruct (extend Tag_zero mt dst) as [mt1 dst1] eqn:Hext.
      destruct (Ht _ _ _ _ Hv Ho Hext) as (t & -> & Hg & Hl).
      eexists _, _. split_and!; [done|done|by rewrite app_nil_r].
    + destruct (IH (slice_from s (IndexByte s " " + 1))) as (new2 & err2 & Hrest).
      { pose proof (slice_from_shorter s " " _ eq_refl Hpos). lia. }
      exists (new1 ++ new2), err2. intros mt dst Hv Ho.
      destruct (extend Tag_zero mt dst) as [mt1 dst1] eqn:Hext.
      destruct (Ht _ _ _ _ Hv Ho Hext) as (t & -> & Hg & Hl).
      pose proof Hg as (Hv1 & Ho1 & _).
      destruct (Hrest _ _ Hv1 Ho1) as (mt' & dst' & -> & Hg' & Hl').
      eexists _, _. split_and!; [done|by eapply grows_trans|].
      by rewrite Hl', Hl, app_assoc.
Qed.

Lemma unmarshalTags_appends (s : string) :
  exists new err, forall (mt : list (list Tag)) (dst : slice),
    valid mt dst -> off dst = 0 ->
    exists mt' dst',
      unmarshalTags mt dst s = Some (mt', dst', err) /\
      grows mt dst mt' dst' /\
      load mt' dst' = load mt dst ++ new.
Proof. apply unmarshalTags_loop_appends. lia. Qed.

Local Ltac failed Hfail :=
  eexists _, _; intros mt r pool Hv Ho; eexists _, _, _;
  split_and!;
  [reflexivity
  |apply Hfail; [done|done|reflexivity]
  |unfold view; simpl; rewrite load_nil; reflexivity].

(** [Row.unmarshal] returns, and what it leaves depends on the line
    alone. *)
Lemma line_Row_unmarshal_step (s : string) :
  exists rv err, forall mt r pool,
    valid mt pool -> off pool = 0 ->
    exists mt' r' pool',
      Row_unmarshal mt r s pool = Some (mt', r', pool', err) /\
      rowStep mt pool mt' r' pool' err /\
      view mt' r' = rv.
Proof.
  unfold OpenTSDB.Row_unmarshal.
  assert (forall mt pool r' e, valid mt pool -> off pool = 0 -> Row_Tags r' = nil ->
            rowStep mt pool mt r' pool (Some e)) as Hfail.
  { intros mt pool r' e Hv Ho Ht. unfold rowStep.
    split_and!; [by apply grows_refl|exists []; by rewrite app_nil_r|done]. }
  destruct (HasPrefix s "put "); simpl; [|failed Hfail].
  set (s1 := slice_from s (Go.len "put ")).
  destruct (Z.ltb_spec (IndexByte s1 " ") 0); [failed Hfail|].
  set (tail1 := slice_from s1 (IndexByte s1 " " + 1)).
  destruct (Z.ltb_spec (IndexByte tail1 " ") 0); [failed Hfail|].
  set (tail2 := slice_from tail1 (IndexByte tail1 " " + 1)).
  destruct (Z.ltb_spec (IndexByte tail2 " ") 0); [failed Hfail|].
  destruct (unmarshalTags_appends (slice_from tail2 (IndexByte tail2 " " + 1)))
    as (new & [e|] & Htags).
  - eexists _, _. intros mt r pool Hv Ho.
    destruct (Htags _ _ Hv Ho) as (mt' & pool' & -> & Hg & Hl).
    eexists _, _, _. split_and!; [reflexivity| |unfold view; simpl; rewrite load_nil; reflexivity].
    unfold rowStep. split_and!; [done|by eexists|done].
  - exists (mkRowView (slice_to s1 (IndexByte s1 " ")) new
                      (ParseBestEffort (slice_to tail2 (IndexByte tail2 " ")))
                      (int64_of_float64 (ParseBestEffort (slice_to tail1 (IndexByte tail1 " "))))),
           None.
    intros mt r pool Hv Ho.
    destruct (Htags _ _ Hv Ho) as (mt' & pool' & -> & Hg & Hl).
    pose proof Hg as (Hv' & Ho' & _).
    assert (len pool <= len pool') as Hle.
    { apply length_load in Hv, Hv'. rewrite <- Hv, <- Hv', Hl, length_app. lia. }
    destruct (view_safe (A := Tag) mt' pool' (len pool) Hv' Ho' Hle) as (_ & Hview & Hshape).
    cbv zeta in Hview, Hshape. rewrite Hshape in Hview.
    eexists _, _, _. split_and!; [done| |].
    + unfold rowStep. split_and!; [done|by eexists| |done].
      simpl. unfold upto3, from; simpl. by rewrite Ho'.
    + unfold view, upto3, from; simpl. rewrite Ho'; simpl. f_equal.
      rewrite Hview, Hl, drop_app_length'; [done|]. symmetry. by apply length_load.
Qed.

(** One line of the text: the turn of [unmarshalRows] that parses [line]
    into the next slot of [dst]. *)
Lemma line_advanced (line : string) :
  exists rvs err, forall m dst pool rows mr dst',
    parsing m dst pool rows ->
    extend Row_zero (rowMem m) dst = (mr, dst') ->
    exists mt' row pool' err0,
      Row_unmarshal (tagMem m) (get Row_zero mr dst' (len dst' - 1)) line pool
        = Some (mt', row, pool', err0) /\
      err = match err0 with
            | Some e => Some (Errorf "cannot unmarshal OpenTSDB line %q: %s"
                                     [ArgString line; ArgError e])
            | None => None
            end /\
      advanced m rows (mkMemory (store mr dst' (len dst' - 1) row) mt') dst' pool' rvs err.
Proof.
  destruct (line_Row_unmarshal_step line) as (rv & err0 & Hstep).
  exists [rv], (match err0 with
                | Some e => Some (Errorf "cannot unmarshal OpenTSDB line %q: %s"
                                         [ArgString line; ArgError e])
                | None => None
                end).
  intros m dst pool rows mr dst' Hp Hext.
  pose proof Hp as (_ & _ & _ & Hvt & Hot & _).
  destruct (Hstep (tagMem m) (get Row_zero mr dst' (len dst' - 1)) pool Hvt Hot)
    as (mt' & r' & pool' & -> & Hrs & <-).
  pose proof (turn _ _ _ _ _ _ _ _ _ _ Hp Hext Hrs) as Hadv.
  exists mt', r', pool', err0. split_and!; [done|done|].
  destruct err0; [|done].
  destruct Hadv as (rows' & ? & ? & ? & ?). exists rows'. split_and!; done.
Qed.

Lemma line_unmarshalRows_loop_advanced (fuel : nat) (s : string) :
  String.length s < fuel ->
  exists rvs err, forall m dst pool rows,
    parsing m dst pool rows ->
    exists m' dst' pool',
      unmarshalRows_loop fuel m dst s pool = Some (m', dst', pool', err) /\
      advanced m rows m' dst' pool' rvs err.
Proof.
  revert s. induction fuel as [|fuel IH]; intros s Hfuel; [lia|]. simpl.
  destruct (Z.ltb_spec 0 (Go.len s)) as [Hlen|Hlen].
  2:{ exists [], None. intros m dst pool rows Hp. eexists _, _, _.
      split; [done|by apply advanced_refl]. }
  unfold Go.len in Hlen.
  destruct (Z.eqb_spec (IndexByte s newline) 0) as [Hz|Hnz].
  { destruct (IH (slice_from s 1)) as (rvs & err & Hrest).
    { unfold slice_from. rewrite str_drop_length. simpl. lia. }
    by exists rvs, err. }
  destruct (Z.ltb_spec (IndexByte s newline) 0) as [Hneg|Hpos].
  - destruct (line_advanced s) as (rvs & err & Hline).
    exists rvs, err. intros m dst pool rows Hp.
    destruct (extend Row_zero (rowMem m) dst) as [mr dst'] eqn:Hext.
    destruct (Hline _ _ _ _ _ _ Hp Hext) as (mt' & row & pool' & err0 & -> & -> & Hadv).
    destruct err0; by eexists _, _, _.
  - destruct (line_advanced (slice_to s (IndexByte s newline))) as (rvs1 & [err1|] & Hline).
    + exists rvs1, (Some err1). intros m dst pool rows Hp.
      destruct (extend Row_zero (rowMem m) dst) as [mr dst'] eqn:Hext.
      destruct (Hline _ _ _ _ _ _ Hp Hext) as (mt' & row & pool' & err0 & -> & Herr & Hadv).
      destruct err0; [|done]. rewrite Herr in Hadv. injection Herr as ->.
      by eexists _, _, _.
    + destruct (IH (slice_from s (IndexByte s newline + 1))) as (rvs2 & err2 & Hrest).
      { pose proof (slice_from_shorter s newline _ eq_refl Hpos). lia. }
      exists (rvs1 ++ rvs2), err2. intros m dst pool rows Hp.
      destruct (extend Row_zero (rowMem m) dst) as [mr dst'] eqn:Hext.
      destruct (Hline _ _ _ _ _ _ Hp Hext) as (mt' & row & pool' & err0 & -> & Herr & Hadv).
      destruct err0; [done|].
      set (m1 := mkMemory (store mr dst' (len dst' - 1) row) mt') in *.
      assert (exists m' dst2 pool2,
                unmarshalRows_loop fuel m1 dst' (slice_from s (IndexByte s newline + 1)) pool'
                  = Some (m', dst2, pool2, err2) /\
                forall rows1, parsing m1 dst' pool' rows1 ->
                              advanced m1 rows1 m' dst2 pool2 rvs2 err2)
        as (m' & dst2 & pool2 & -> & Hnext).
      { pose proof Hadv as (rows1 & _ & _ & _ & Hp1).
        destruct (Hrest _ _ _ _ (Hp1 eq_refl)) as (m' & dst2 & pool2 & Heq & _).
        exists m', dst2, pool2. split; [done|].
        intros rows2 Hp2. destruct (Hrest _ _ _ _ Hp2) as (? & ? & ? & Heq' & ?).
        rewrite Heq in Heq'. by injection Heq' as <- <- <-. }
      eexists _, _, _. split; [done|]. by eapply advanced_trans.
Qed.

(** [Rows.Unmarshal] returns; the rows it leaves and its error depend on
    the text alone. *)
Lemma line_Rows_Unmarshal_advanced (s : string) :
  exists rvs err, forall m rs,
    wf m rs ->
    exists m' rs',
      Rows_Unmarshal m rs s = Some (m', rs', err) /\
      advanced m [] m' (Rows_Rows rs') (Rows_tagsPool rs') rvs err.
Proof.
  unfold OpenTSDB.Rows_Unmarshal, OpenTSDB.unmarshalRows.
  destruct (line_unmarshalRows_loop_advanced (S (String.length s)) s) as (rvs & err & Hloop); [lia|].
  exists rvs, err. intros m rs Hwf.
  destruct (Hloop _ _ _ _ (wf_parsing _ _ Hwf)) as (m' & dst' & pool' & -> & Hadv).
  by eexists _, _.
Qed.
End LineFacts.

(** ** Capacity: what the row loops do to the slice headers *)

Section CapacityFacts.
Import Go Slice Arena fmt fastjson.
Context `{Runtime}.

Lemma extend_cap {A : Type} (zero : A) (m : list (list A)) (d : slice)
    (m' : list (list A)) (d' : slice) :
  extend zero m d = (m', d') -> cap d <= cap d'.
Proof.
  unfold extend, append.
  destruct (Nat.ltb_spec (len d) (cap d)); intros [= <- <-]; simpl; [lia|].
  pose proof (growslice_gt (cap d)). lia.
Qed.

Lemma extend_reuses {A : Type} (zero : A) (m : list (list A)) (d0 d : slice)
    (m' : list (list A)) (d' : slice) :
  extend zero m d = (m', d') -> reuses d0 d -> reuses d0 d'.
Proof.
  unfold extend, append, reuses.
  destruct (Nat.ltb_spec (len d) (cap d)) as [Hlt|Hge]; intros [= <- <-] [Hc Hin]; simpl.
  - split; [lia|]. intros Hl. apply Hin. lia.
  - pose proof (growslice_gt (cap d)). split; [lia|]. intros Hl. lia.
Qed.

Lemma reuses_start (d : slice) : reuses d (upto d 0).
Proof. unfold reuses; simpl. split; [lia|done]. Qed.

Section JSON.
Variable Value_Int64 : Value -> result Z.
Variable Value_Float64 : Value -> result float.

Lemma json_unmarshalTags_cap (tags : list (string * Value)) :
  forall mt dst mt' dst',
    OpenTSDBHTTP.unmarshalTags mt dst tags = (mt', dst') -> cap dst <= cap dst'.
Proof.
  unfold OpenTSDBHTTP.unmarshalTags.
  induction tags as [|[k v] tags IH]; intros mt dst mt' dst'; simpl.
  - intros [= <- <-]. lia.
  - destruct (extend Tag_zero mt dst) as [mt1 dst1] eqn:Hext.
    apply extend_cap in Hext.
    destruct (Value_StringBytes v); intros Hrest; apply IH in Hrest; simpl in *; lia.
Qed.

Lemma json_Row_unmarshal_cap mt r o pool mt' r' pool' err :
  OpenTSDBHTTP.Row_unmarshal Value_Int64 Value_Float64 mt r o pool = (mt', r', pool', err) ->
  cap pool <= cap pool'.
Proof.
  unfold OpenTSDBHTTP.Row_unmarshal. intros Heq.
  repeat case_match; simplify_eq; try lia.
  by eapply json_unmarshalTags_cap.
Qed.

Lemma json_unmarshalRow_reuses d0 m dst e pool m' dst' pool' err :
  OpenTSDBHTTP.unmarshalRow Value_Int64 Value_Float64 m dst e pool = (m', dst', pool', err) ->
  reuses d0 dst -> reuses d0 dst' /\ cap pool <= cap pool'.
Proof.
  unfold OpenTSDBHTTP.unmarshalRow.
  destruct (extend Row_zero (rowMem m) dst) as [mr dst1] eqn:Hext.
  destruct (OpenTSDBHTTP.Row_unmarshal _ _ _ _ _ _) as [[[mt1 r1] pool1] err1] eqn:Hrow.
  apply json_Row_unmarshal_cap in Hrow.
  intros Heq Hr. apply (extend_reuses _ _ d0) in Hext; [|done].
  destruct err1; injection Heq as <- <- <- <-; done.
Qed.

Lemma json_range_reuses d0 (a : list Value) :
  forall m dst pool m' dst' pool' err,
    OpenTSDBHTTP.unmarshalRows_range Value_Int64 Value_Float64 a m dst pool
      = (m', dst', pool', err) ->
    reuses d0 dst -> reuses d0 dst' /\ cap pool <= cap pool'.
Proof.
  induction a as [|e a IH]; intros m dst pool m' dst' pool' err; simpl.
  - intros [= <- <- <- <-] Hr. split; [done|lia].
  - destruct (OpenTSDBHTTP.unmarshalRow _ _ m dst e pool) as [[[m1 dst1] pool1] [e1|]] eqn:Hrow;
      intros Heq Hr;
      destruct (json_unmarshalRow_reuses d0 _ _ _ _ _ _ _ _ Hrow Hr) as [Hr1 Hc1].
    + injection Heq as <- <- <- <-. done.
    + destruct (IH _ _ _ _ _ _ _ Heq Hr1). split; [done|lia].
Qed.

Lemma json_Rows_Unmarshal_reuses m rs av m' rs' err :
  OpenTSDBHTTP.Rows_Unmarshal Value_Int64 Value_Float64 m rs av = (m', rs', err) ->
  reuses (Rows_Rows rs) (Rows_Rows rs') /\ cap (Rows_tagsPool rs) <= cap (Rows_tagsPool rs').
Proof.
  unfold OpenTSDBHTTP.Rows_Unmarshal.
  destruct (OpenTSDBHTTP.unmarshalRows _ _ _ _ _ _) as [[[m1 dst1] pool1] err1] eqn:Hrows.
  intros [= <- <- <-]. simpl.
  pose proof (reuses_start (Rows_Rows rs)) as Hr.
  unfold OpenTSDBHTTP.unmarshalRows in Hrows.
  destruct av as [av|]; [destruct (Value_Type av)|].
  all: first [ injection Hrows as <- <- <- <-; split; [done|simpl; lia]
             | eapply json_unmarshalRow_reuses in Hrows; [exact Hrows|exact Hr]
             | eapply json_range_reuses in Hrows; [exact Hrows|exact Hr] ].
Qed.
End JSON.

Section Line.
Variable ParseBestEffort : string -> float.

Lemma line_unmarshalTags_loop_cap (fuel : nat) :
  forall mt dst s mt' dst' err,
    OpenTSDB.unmarshalTags_loop fuel mt dst s = Some (mt', dst', err) -> cap dst <= cap dst'.
Proof.
  induction fuel as [|fuel IH]; intros mt dst s mt' dst' err; [done|].
  cbn [OpenTSDB.unmarshalTags_loop].
  destruct (extend Tag_zero mt dst) as [mt1 dst1] eqn:Hext. apply extend_cap in Hext.
  destruct (IndexByte s " " <? 0)%Z.
  - destruct (OpenTSDB.Tag_unmarshal _ s) as [t [e|]]; intros [= <- <- <-]; simpl; lia.
  - destruct (OpenTSDB.Tag_unmarshal _ _) as [t [e|]].
    + intros [= <- <- <-]; simpl; lia.
    + intros Heq. apply IH in Heq. lia.
Qed.

Lemma line_Row_unmarshal_cap mt r s pool mt' r' pool' err :
  OpenTSDB.Row_unmarshal ParseBestEffort mt r s pool = Some (mt', r', pool', err) ->
  cap pool <= cap pool'.
Proof.
  unfold OpenTSDB.Row_unmarshal, OpenTSDB.unmarshalTags. intros Heq.
  repeat case_match; simplify_eq; try lia.
  all: match goal with
       | Hl : OpenTSDB.unmarshalTags_loop _ _ _ _ = Some _ |- _ =>
           apply line_unmarshalTags_loop_cap in Hl; exact Hl
       end.
Qed.

Lemma line_loop_reuses d0 (fuel : nat) :
  forall m dst s pool m' dst' pool' err,
    OpenTSDB.unmarshalRows_loop ParseBestEffort fuel m dst s pool = Some (m', dst', pool', err) ->
    reuses d0 dst -> reuses d0 dst' /\ cap pool <= cap pool'.
Proof.
  induction fuel as [|fuel IH]; intros m dst s pool m' dst' pool' err; [done|].
  cbn [OpenTSDB.unmarshalRows_loop].
  destruct (0 <? Go.len s)%Z; [|by intros [= <- <- <- <-] Hr].
  destruct (IndexByte s OpenTSDB.newline =? 0)%Z.
  { intros Heq Hr. by eapply IH. }
  destruct (extend Row_zero (rowMem m) dst) as [mr dst1] eqn:Hext.
  intros Heq Hr. apply (extend_reuses _ _ d0) in Hext; [|done].
  destruct (IndexByte s OpenTSDB.newline <? 0)%Z.
  - destruct (OpenTSDB.Row_unmarshal _ _ _ _ _) as [[[[mt1 r1] pool1] err1]|] eqn:Hrow; [|done].
    apply line_Row_unmarshal_cap in Hrow.
    destruct err1; injection Heq as <- <- <- <-; done.
  - destruct (OpenTSDB.Row_unmarshal _ _ _ _ _) as [[[[mt1 r1] pool1] err1]|] eqn:Hrow; [|done].
    apply line_Row_unmarshal_cap in Hrow.
    destruct err1; [injection Heq as <- <- <- <-; done|].
    apply IH in Heq as [? ?]; [|done]. split; [done|lia].
Qed.

Lemma line_Rows_Unmarshal_reuses m rs s m' rs' err :
  OpenTSDB.Rows_Unmarshal ParseBestEffort m rs s = Some (m', rs', err) ->
  reuses (Rows_Rows rs) (Rows_Rows rs') /\ cap (Rows_tagsPool rs) <= cap (Rows_tagsPool rs').
Proof.
  unfold OpenTSDB.Rows_Unmarshal, OpenTSDB.unmarshalRows.
  destruct (OpenTSDB.unmarshalRows_loop _ _ _ _ _ _) as [[[[m1 dst1] pool1] err1]|] eqn:Hrows;
    [|done].
  intros [= <- <- <-]. simpl.
  eapply line_loop_reuses in Hrows; [exact Hrows|apply reuses_start].
Qed.
End Line.
End CapacityFacts.

(** * The claims *)

(** ** C9: Reset *)

Section ResetFacts.
Import Slice Arena.

Lemma foldl_store_shape {A : Type} (f : list (list A) -> nat -> A) (s : slice)
    (l : list nat) (m : list (list A)) :
  let m' := foldl (fun m i => store m s i (f m i)) m l in
  length m' = length m /\ forall a, length (array m' a) = length (array m a).
Proof.
  revert m. induction l as [|i l IH]; intros m; simpl; [done|].
  destruct (IH (store m s i (f m i))) as [Hl Ha].
  split; [by rewrite Hl, length_store|].
  intros a. by rewrite Ha, length_array_store.
Qed.

(** C9.  Resetting an arena a second time changes nothing; after a reset
    the arena holds no row and no tag, and both slices still have the
    backing array and the capacity they had: no array of the store has
    changed its size. *)
Theorem Reset_idempotent (m : Memory) (rs : Rows) :
  let '(m1, rs1) := Rows_Reset m rs in
  Rows_Reset m1 rs1 = (m1, rs1) /\
  len (Rows_Rows rs1) = 0 /\ len (Rows_tagsPool rs1) = 0 /\
  contents m1 rs1 = [] /\ load (tagMem m1) (Rows_tagsPool rs1) = [] /\
  cap (Rows_Rows rs1) = cap (Rows_Rows rs) /\
  cap (Rows_tagsPool rs1) = cap (Rows_tagsPool rs) /\
  arr (Rows_Rows rs1) = arr (Rows_Rows rs) /\
  arr (Rows_tagsPool rs1) = arr (Rows_tagsPool rs) /\
  off (Rows_Rows rs1) = off (Rows_Rows rs) /\
  off (Rows_tagsPool rs1) = off (Rows_tagsPool rs) /\
  (forall a, length (array (rowMem m1) a) = length (array (rowMem m) a)) /\
  (forall a, length (array (tagMem m1) a) = length (array (tagMem m) a)).
Proof.
  unfold Rows_Reset. cbv zeta.
  set (mr := foldl _ (rowMem m) _). set (mt := foldl _ (tagMem m) _).
  split_and!; try done.
  - apply (foldl_store_shape (fun mr i => Row_reset (get Row_zero mr (Rows_Rows rs) i))).
  - apply (foldl_store_shape (fun mt i => Tag_reset (get Tag_zero mt _ i))).
Qed.
End ResetFacts.

(** ** C1: the put line of the specification *)

Section PutLine.
Import Slice Arena Fixtures.

Lemma wf_zero : wf Memory_empty Rows_zero.
Proof. unfold wf, valid; simpl. lia. Qed.

(** C1, as the code has it.  From any well-formed arena, unmarshalling the
    line [put sys.cpu 1577836800 42.5 host=web01 dc=us] and its newline
    returns no error and leaves exactly one row: metric [sys.cpu], the tags
    [host=web01] and [dc=us] in that order, value 42.5, and the timestamp
    1577836800 as written in the line, in seconds. *)
Theorem put_line_row (m : Memory) (rs : Rows) :
  wf m rs ->
  exists m' rs',
    lineParse m rs putLine = Some (m', rs', None) /\
    contents m' rs' = [mkRowView "sys.cpu" putLineTags 42.5 1577836800].
Proof.
  intros Hwf. unfold lineParse.
  destruct (line_Rows_Unmarshal_advanced (H := Go.doubling_runtime)
              fastfloat.ParseBestEffort putLine) as (rvs & err & Hall).
  destruct (Hall _ _ wf_zero) as (m0 & rs0 & Heq0 & Hadv0).
  apply advanced_start in Hadv0 as (_ & Hc0 & _).
  vm_compute in Heq0. injection Heq0 as <- <- <-.
  vm_compute in Hc0. subst rvs.
  destruct (Hall _ _ Hwf) as (m' & rs' & Heq & Hadv).
  apply advanced_start in Hadv as (_ & Hc & _).
  exists m', rs'. split; [exact Heq|exact Hc].
Qed.

Lemma put_line_row_witness :
  wf Memory_empty Rows_zero /\
  exists m' rs',
    lineParse Memory_empty Rows_zero putLine = Some (m', rs', None) /\
    contents m' rs' = [mkRowView "sys.cpu" putLineTags 42.5 1577836800].
Proof.
  split.
  - unfold wf, valid; simpl; lia.
  - apply (put_line_row Memory_empty Rows_zero). unfold wf, valid; simpl; lia.
Defined.

(** C1, as stated, fails: the row does not carry the timestamp
    1577836800000. *)
Lemma put_line_milliseconds_cex :
  ~ exists m' rs',
      lineParse Memory_empty Rows_zero putLine = Some (m', rs', None) /\
      contents m' rs' = [mkRowView "sys.cpu" putLineTags 42.5 1577836800000].
Proof.
  intros (m' & rs' & Heq & Hc).
  vm_compute in Heq. injection Heq as <- <-.
  vm_compute in Hc. discriminate Hc.
Qed.
End PutLine.

(** ** C4: what Unmarshal does with the rows of the call before *)

Section Replaces.
Import Go Slice Arena fmt fastjson Fixtures.
Context `{Runtime}.

(** C4, as the code has it.  [Unmarshal] starts both sequences of the
    arena again at length 0, so the rows of an earlier call are not kept:
    in either format, from any well-formed arena, the call returns, the
    arena stays well formed, and the error and the rows it leaves are the
    ones that the same source gives in the empty arena.  The capacity of
    the arena is reused: neither sequence ends with less capacity than
    it had, and the row sequence is still in its backing array, with its
    capacity, whenever the rows of the call fit that capacity. *)
Theorem Unmarshal_replaces (m : Memory) (rs : Rows) :
  wf m rs ->
  (forall (ParseBestEffort : string -> float) (s : string),
     exists m' rs' m0 rs0 err,
       OpenTSDB.Rows_Unmarshal ParseBestEffort m rs s = Some (m', rs', err) /\
       OpenTSDB.Rows_Unmarshal ParseBestEffort Memory_empty Rows_zero s = Some (m0, rs0, err) /\
       contents m' rs' = contents m0 rs0 /\ wf m' rs' /\
       cap (Rows_Rows rs) <= cap (Rows_Rows rs') /\
       cap (Rows_tagsPool rs) <= cap (Rows_tagsPool rs') /\
       (len (Rows_Rows rs') <= cap (Rows_Rows rs) ->
        arr (Rows_Rows rs') = arr (Rows_Rows rs) /\
        cap (Rows_Rows rs') = cap (Rows_Rows rs))) /\
  (forall (Value_Int64 : Value -> result Z) (Value_Float64 : Value -> result float)
          (av : option Value),
     exists m' rs' m0 rs0 err,
       OpenTSDBHTTP.Rows_Unmarshal Value_Int64 Value_Float64 m rs av = (m', rs', err) /\
       OpenTSDBHTTP.Rows_Unmarshal Value_Int64 Value_Float64 Memory_empty Rows_zero av
         = (m0, rs0, err) /\
       contents m' rs' = contents m0 rs0 /\ wf m' rs' /\
       cap (Rows_Rows rs) <= cap (Rows_Rows rs') /\
       cap (Rows_tagsPool rs) <= cap (Rows_tagsPool rs') /\
       (len (Rows_Rows rs') <= cap (Rows_Rows rs) ->
        arr (Rows_Rows rs') = arr (Rows_Rows rs) /\
        cap (Rows_Rows rs') = cap (Rows_Rows rs))).
Proof.
  intros Hwf. split.
  - intros P s. destruct (line_Rows_Unmarshal_advanced P s) as (rvs & err & Hall).
    destruct (Hall _ _ Hwf) as (m' & rs' & Heq & Hadv).
    destruct (Hall _ _ wf_zero) as (m0 & rs0 & Heq0 & Hadv0).
    apply advanced_start in Hadv as (Hwf' & Hc & _).
    apply advanced_start in Hadv0 as (_ & Hc0 & _).
    destruct (line_Rows_Unmarshal_reuses P _ _ _ _ _ _ Heq) as [[Hcap Hin] Hpool].
    exists m', rs', m0, rs0, err. split_and!; try done.
    by rewrite Hc, Hc0.
  - intros I F av. destruct (json_Rows_Unmarshal_advanced I F av) as (rvs & err & Hall).
    destruct (Hall _ _ Hwf) as (m' & rs' & Heq & Hadv).
    destruct (Hall _ _ wf_zero) as (m0 & rs0 & Heq0 & Hadv0).
    apply advanced_start in Hadv as (Hwf' & Hc & _).
    apply advanced_start in Hadv0 as (_ & Hc0 & _).
    destruct (json_Rows_Unmarshal_reuses I F _ _ _ _ _ _ Heq) as [[Hcap Hin] Hpool].
    exists m', rs', m0, rs0, err. split_and!; try done.
    by rewrite Hc, Hc0.
Qed.
End Replaces.

Section ReplacesFixtures.
Import Go Slice Arena fmt fastjson Fixtures.

Lemma Unmarshal_replaces_witness :
  let m := (lineArena (lineParse Memory_empty Rows_zero twoLines)).1 in
  let rs := (lineArena (lineParse Memory_empty Rows_zero twoLines)).2 in
  wf m rs /\
  Metric <$> contents m rs = ["a"; "b"]%string /\
  (forall (ParseBestEffort : string -> float) (s : string),
     exists m' rs' m0 rs0 err,
       OpenTSDB.Rows_Unmarshal ParseBestEffort m rs s = Some (m', rs', err) /\
       OpenTSDB.Rows_Unmarshal ParseBestEffort Memory_empty Rows_zero s = Some (m0, rs0, err) /\
       contents m' rs' = contents m0 rs0 /\ wf m' rs' /\
       cap (Rows_Rows rs) <= cap (Rows_Rows rs') /\
       cap (Rows_tagsPool rs) <= cap (Rows_tagsPool rs') /\
       (len (Rows_Rows rs') <= cap (Rows_Rows rs) ->
        arr (Rows_Rows rs') = arr (Rows_Rows rs) /\
        cap (Rows_Rows rs') = cap (Rows_Rows rs))) /\
  (forall (Value_Int64 : Value -> result Z) (Value_Float64 : Value -> result float)
          (av : option Value),
     exists m' rs' m0 rs0 err,
       OpenTSDBHTTP.Rows_Unmarshal Value_Int64 Value_Float64 m rs av = (m', rs', err) /\
       OpenTSDBHTTP.Rows_Unmarshal Value_Int64 Value_Float64 Memory_empty Rows_zero av
         = (m0, rs0, err) /\
       contents m' rs' = contents m0 rs0 /\ wf m' rs' /\
       cap (Rows_Rows rs) <= cap (Rows_Rows rs') /\
       cap (Rows_tagsPool rs) <= cap (Rows_tagsPool rs') /\
       (len (Rows_Rows rs') <= cap (Rows_Rows rs) ->
        arr (Rows_Rows rs') = arr (Rows_Rows rs) /\
        cap (Rows_Rows rs') = cap (Rows_Rows rs))).
Proof.
  intros m rs.
  assert (wf m rs) as Hwf by (vm_compute; lia).
  split; [exact Hwf|].
  split; [vm_compute; reflexivity|].
  exact (Unmarshal_replaces (H := doubling_runtime) m rs Hwf).
Defined.

(** C4, as stated, fails in both formats: a second [Unmarshal] on the
    arena that a first one filled leaves only the rows of the second
    source; the row of the first is not before them. *)
Lemma Unmarshal_appends_cex :
  (let '(m, rs) := lineArena (lineParse Memory_empty Rows_zero twoLines) in
   let '(m', rs') := lineArena (lineParse m rs thirdLine) in
   Metric <$> contents m rs = ["a"; "b"]%string /\
   Metric <$> contents m' rs' = ["c"]%string /\
   ~ contents m rs `prefix_of` contents m' rs') /\
  (let '(m, rs) := jsonArena (jsonParse Memory_empty Rows_zero (Some firstBody)) in
   let '(m', rs') := jsonArena (jsonParse m rs (Some secondBody)) in
   Metric <$> contents m rs = ["m"]%string /\
   Metric <$> contents m' rs' = ["n"]%string /\
   ~ contents m rs `prefix_of` contents m' rs').
Proof.
  vm_compute. split_and!; try reflexivity.
  - intros [k Hk]. discriminate Hk.
  - intros [k Hk]. discriminate Hk.
Qed.
End ReplacesFixtures.

(** ** C10: the tag views of the rows *)

Section TagViews.
Import Go Slice Arena fmt fastjson Fixtures.
Context `{Runtime}.

Lemma safe_append_frame (mt : list (list Tag)) (pool v w : slice) (x : Tag) :
  cap v = len v -> safe mt pool w ->
  load (append Tag_zero mt v x).1 w = load mt w.
Proof.
  intros Hc Hs. unfold append. rewrite Hc, Nat.ltb_irrefl. simpl.
  destruct Hs as [Hz|(Ha & _)]; [unfold load; by rewrite Hz|].
  unfold load. by rewrite array_app_l.
Qed.

Lemma store_other_range (mt : list (list Tag)) (v w : slice) (k : nat) (x : Tag) :
  k < len v ->
  off v + len v <= off w \/ off w + len w <= off v ->
  load (store mt v k x) w = load mt w.
Proof.
  intros Hk Hd. apply list_eq. intros i. rewrite !lookup_load.
  destruct (decide (i < len w)); [|done].
  rewrite array_store. destruct (decide (arr w = arr v)) as [->|]; [|done].
  apply list_lookup_insert_ne. lia.
Qed.

(** The tag views of parsed rows: what [parsing] implies. *)
Lemma parsing_views (m : Memory) (dst pool : slice) (rws : list Row) :
  parsing m dst pool rws ->
  tiles 0 rws (len pool) /\
  Forall (fun r => load (tagMem m) (Row_Tags r) =
                   take (len (Row_Tags r)) (drop (off (Row_Tags r)) (load (tagMem m) pool))) rws /\
  forall i j ri rj, i <> j -> rws !! i = Some ri -> rws !! j = Some rj ->
    (off (Row_Tags ri) + len (Row_Tags ri) <= off (Row_Tags rj) \/
     off (Row_Tags rj) + len (Row_Tags rj) <= off (Row_Tags ri)) /\
    (forall k x, k < len (Row_Tags ri) ->
       load (store (tagMem m) (Row_Tags ri) k x) (Row_Tags rj) = load (tagMem m) (Row_Tags rj)) /\
    (forall x,
       load (append Tag_zero (tagMem m) (Row_Tags ri) x).1 (Row_Tags rj)
       = load (tagMem m) (Row_Tags rj)).
Proof.
  intros (_ & _ & _ & _ & _ & Ht & Hviews). split_and!; [done| |].
  - eapply Forall_impl; [done|]. by intros r (_ & _ & ?).
  - intros i j ri rj Hij Hi Hj.
    assert (off (Row_Tags ri) + len (Row_Tags ri) <= off (Row_Tags rj) \/
            off (Row_Tags rj) + len (Row_Tags rj) <= off (Row_Tags ri)) as Hd.
    { destruct (Nat.lt_total i j) as [Hlt|[->|Hlt]]; [left|done|right];
        eapply tiles_ordered; eauto. }
    split_and!; [done| |].
    + intros k x Hk. by apply store_other_range.
    + intros x. destruct (tiles_bounds _ _ _ _ _ Ht Hi) as (_ & _ & Hc).
      rewrite Forall_lookup in Hviews. destruct (Hviews _ _ Hj) as (Hs & _).
      by eapply safe_append_frame.
Qed.

(** C10.  After a successful [Unmarshal] in either format, the tag views
    of the rows tile the pool from its start to its length in the order of
    the rows, each view with its capacity equal to its length; each view
    holds what the pool holds at its range; the ranges of two distinct
    rows do not meet, and neither a write through one row's view nor an
    [append] to it changes what another row's view holds. *)
Theorem tag_views_disjoint (m : Memory) (rs : Rows) (m' : Memory) (rs' : Rows)
    (ParseBestEffort : string -> float) (s : string)
    (Value_Int64 : Value -> result Z) (Value_Float64 : Value -> result float)
    (av : option Value) :
  wf m rs ->
  OpenTSDB.Rows_Unmarshal ParseBestEffort m rs s = Some (m', rs', None) \/
  OpenTSDBHTTP.Rows_Unmarshal Value_Int64 Value_Float64 m rs av = (m', rs', None) ->
  let pool := Rows_tagsPool rs' in
  let mt := tagMem m' in
  tiles 0 (rows m' rs') (len pool) /\
  Forall (fun r => load mt (Row_Tags r) =
                   take (len (Row_Tags r)) (drop (off (Row_Tags r)) (load mt pool)))
         (rows m' rs') /\
  forall i j ri rj, i <> j -> rows m' rs' !! i = Some ri -> rows m' rs' !! j = Some rj ->
    (off (Row_Tags ri) + len (Row_Tags ri) <= off (Row_Tags rj) \/
     off (Row_Tags rj) + len (Row_Tags rj) <= off (Row_Tags ri)) /\
    (forall k x, k < len (Row_Tags ri) ->
       load (store mt (Row_Tags ri) k x) (Row_Tags rj) = load mt (Row_Tags rj)) /\
    (forall x,
       load (append Tag_zero mt (Row_Tags ri) x).1 (Row_Tags rj) = load mt (Row_Tags rj)).
Proof.
  intros Hwf Hres.
  assert (parsing m' (Rows_Rows rs') (Rows_tagsPool rs') (rows m' rs')) as Hp.
  { destruct Hres as [Hres|Hres].
    - destruct (line_Rows_Unmarshal_advanced ParseBestEffort s) as (rvs & err & Hall).
      destruct (Hall _ _ Hwf) as (m1 & rs1 & Heq & Hadv).
      rewrite Hres in Heq. injection Heq as <- <- <-.
      apply advanced_start in Hadv as (_ & _ & _ & Hp). by apply Hp.
    - destruct (json_Rows_Unmarshal_advanced Value_Int64 Value_Float64 av)
        as (rvs & err & Hall).
      destruct (Hall _ _ Hwf) as (m1 & rs1 & Heq & Hadv).
      rewrite Hres in Heq. injection Heq as <- <- <-.
      apply advanced_start in Hadv as (_ & _ & _ & Hp). by apply Hp. }
  by apply parsing_views in Hp.
Qed.
End TagViews.

Section TagViewsFixture.
Import Go Slice Arena fmt fastjson Fixtures.

Lemma tag_views_disjoint_witness :
  let '(m', rs') := lineArena (lineParse Memory_empty Rows_zero twoLines) in
  wf Memory_empty Rows_zero /\
  lineParse Memory_empty Rows_zero twoLines = Some (m', rs', None) /\
  Row_Tags <$> rows m' rs' = [Slice 0 0 1 1; Slice 1 1 2 2] /\
  let pool := Rows_tagsPool rs' in
  let mt := tagMem m' in
  tiles 0 (rows m' rs') (len pool) /\
  Forall (fun r => load mt (Row_Tags r) =
                   take (len (Row_Tags r)) (drop (off (Row_Tags r)) (load mt pool)))
         (rows m' rs') /\
  forall i j ri rj, i <> j -> rows m' rs' !! i = Some ri -> rows m' rs' !! j = Some rj ->
    (off (Row_Tags ri) + len (Row_Tags ri) <= off (Row_Tags rj) \/
     off (Row_Tags rj) + len (Row_Tags rj) <= off (Row_Tags ri)) /\
    (forall k x, k < len (Row_Tags ri) ->
       load (store mt (Row_Tags ri) k x) (Row_Tags rj) = load mt (Row_Tags rj)) /\
    (forall x,
       load (append Tag_zero mt (Row_Tags ri) x).1 (Row_Tags rj) = load mt (Row_Tags rj)).
Proof.
  destruct (lineArena (lineParse Memory_empty Rows_zero twoLines)) as [m' rs'] eqn:E.
  vm_compute in E. injection E as <- <-.
  split; [unfold wf, valid; simpl; lia|].
  split; [vm_compute; reflexivity|].
  split; [vm_compute; reflexivity|].
  eapply (tag_views_disjoint (H := doubling_runtime) Memory_empty Rows_zero _ _
            fastfloat.ParseBestEffort twoLines
            OpenTSDBHTTP.fastjson_Int64 OpenTSDBHTTP.fastjson_Float64 None).
  - unfold wf, valid; simpl; lia.
  - left. vm_compute. reflexivity.
Defined.
End TagViewsFixture.

(** ** C2, C3: the timestamp of a JSON row *)

Section Timestamp.
Import Go Slice Arena fmt fastjson OpenTSDBHTTP Fixtures.
Context `{Runtime}.
Variable Value_Int64 : Value -> result Z.
Variable Value_Float64 : Value -> result float.
Local Open Scope Z_scope.

Lemma SECOND_MASK_bits : SECOND_MASK = Z.shiftl (Z.ones 31) 32.
Proof. reflexivity. Qed.

(** A non-negative [int64] with no bit of the mask set is below [2^32]. *)
Lemma below_mask (t : Z) :
  0 <= t <= MaxInt64 -> Z.land t SECOND_MASK = 0 -> t < 2 ^ 32.
Proof.
  intros [H0 Hmax] Hland. destruct (Z.lt_ge_cases t (2 ^ 32)) as [|Hge]; [done|].
  exfalso. assert (0 < t) as Hpos by lia.
  pose proof (Z.log2_spec t Hpos) as [Hlo Hhi].
  assert (32 <= Z.log2 t) as Hl32 by (apply Z.log2_le_pow2; lia).
  assert (Z.log2 t < 63) as Hl63.
  { apply Z.log2_lt_pow2; [done|]. unfold MaxInt64 in Hmax. lia. }
  assert (Z.testbit (Z.land t SECOND_MASK) (Z.log2 t) = true) as Hbit.
  { rewrite Z.land_spec, Z.bit_log2 by done. simpl.
    rewrite SECOND_MASK_bits, Z.shiftl_spec by lia.
    apply Z.ones_spec_low. lia. }
  rewrite Hland, Z.bits_0 in Hbit. discriminate.
Qed.

(** C2.  When [Int64] reads the [timestamp] field as the integer [t], the
    row stores [t * 1000], as an [int64] product, if no bit of
    [0x7FFFFFFF00000000] is set in [t], and [t] unchanged otherwise; for a
    non-negative [int64] the product is exact.  1000000000 is stored as
    1000000000000, and 1577836800000 as itself. *)
Theorem timestamp_unit (mt : list (list Tag)) (r : Row) (o : Value) (pool : slice)
    (metric : string) (rawTs : Value) (t : Z) :
  Value_GetStringBytes o "metric" = Some metric ->
  Value_Get o "timestamp" = Some rawTs ->
  Value_Int64 rawTs = Ok t ->
  Row_Timestamp (rowOf (Row_unmarshal Value_Int64 Value_Float64 mt r o pool))
    = (if Z.land t SECOND_MASK =? 0 then int64 (t * 1000) else t) /\
  (0 <= t <= MaxInt64 -> Z.land t SECOND_MASK = 0 -> int64 (t * 1000) = t * 1000) /\
  Row_Timestamp (rowOf (Row_unmarshal fastjson_Int64 fastjson_Float64 mt r
                          (point (VNumber "1000000000")) pool)) = 1000000000000 /\
  Row_Timestamp (rowOf (Row_unmarshal fastjson_Int64 fastjson_Float64 mt r
                          (point (VNumber "1577836800000")) pool)) = 1577836800000.
Proof.
  intros Hm Hts Hint. split_and!.
  - unfold Row_unmarshal, timestamp. rewrite Hm, Hts, Hint.
    destruct (Value_Get o "value") as [rawV|]; [|done].
    destruct (Value_Float64 rawV); [|done].
    destruct (Value_GetObject o "tags"); [|done].
    by destruct (unmarshalTags _ _ _).
  - intros Ht Hland. pose proof (below_mask t Ht Hland).
    unfold int64. rewrite Z.mod_small; lia.
  - unfold Row_unmarshal. simpl. by destruct (unmarshalTags _ _ _).
  - unfold Row_unmarshal. simpl. by destruct (unmarshalTags _ _ _).
Qed.

(** C3.  When [Int64] fails on the [timestamp] field and [Float64] reads
    it as the float 1577836800.123, the row stores 1577836800123: the
    float times 1000, truncated; that integer has bits of the mask set, so
    it is not multiplied again. *)
Theorem fractional_timestamp (mt : list (list Tag)) (r : Row) (o : Value) (pool : slice)
    (metric : string) (rawTs : Value) (e : error) :
  Value_GetStringBytes o "metric" = Some metric ->
  Value_Get o "timestamp" = Some rawTs ->
  Value_Int64 rawTs = Err e ->
  Value_Float64 rawTs = Ok ts_fraction ->
  Row_Timestamp (rowOf (Row_unmarshal Value_Int64 Value_Float64 mt r o pool)) = 1577836800123 /\
  int64_of_float64 (ts_fraction * 1000)%float = 1577836800123 /\
  Z.land 1577836800123 SECOND_MASK <> 0 /\
  fastfloat.ParseBestEffort "1577836800.123" = ts_fraction /\
  strconv.decimal 1577836800123 (-3) = ts_fraction.
Proof.
  intros Hm Hts Hint Hfloat.
  assert (int64_of_float64 (ts_fraction * 1000)%float = 1577836800123) as Hconv
    by (vm_compute; reflexivity).
  split_and!; [|done|done|vm_compute; reflexivity|vm_compute; reflexivity].
  unfold Row_unmarshal, timestamp. rewrite Hm, Hts, Hint, Hfloat, Hconv.
  change (Z.land 1577836800123 SECOND_MASK =? 0) with false. cbv iota.
  destruct (Value_Get o "value") as [rawV|]; [|done].
  destruct (Value_Float64 rawV); [|done].
  destruct (Value_GetObject o "tags"); [|done].
  by destruct (unmarshalTags _ _ _).
Qed.
End Timestamp.

Section TimestampFixtures.
Import Go Slice Arena fmt fastjson OpenTSDBHTTP Fixtures.
Local Open Scope Z_scope.

Lemma timestamp_unit_witness :
  let o := point (VNumber "1000000000") in
  Value_GetStringBytes o "metric" = Some "m"%string /\
  Value_Get o "timestamp" = Some (VNumber "1000000000") /\
  fastjson_Int64 (VNumber "1000000000") = Ok 1000000000 /\
  Row_Timestamp (rowOf (Row_unmarshal (H := doubling_runtime) fastjson_Int64 fastjson_Float64
                          [] Row_zero o nil))
    = (if Z.land 1000000000 SECOND_MASK =? 0 then int64 (1000000000 * 1000) else 1000000000).
Proof.
  cbv zeta. split_and!; [reflexivity|reflexivity|reflexivity|].
  apply (timestamp_unit (H := doubling_runtime) fastjson_Int64 fastjson_Float64
           [] Row_zero (point (VNumber "1000000000")) nil "m" (VNumber "1000000000") 1000000000);
    reflexivity.
Defined.

Lemma fractional_timestamp_witness :
  let o := point (VNumber "1577836800.123") in
  Value_GetStringBytes o "metric" = Some "m"%string /\
  Value_Get o "timestamp" = Some (VNumber "1577836800.123") /\
  fastjson_Int64 (VNumber "1577836800.123")
    = Err (Errorf "cannot parse int64 %q" [ArgString "1577836800.123"]) /\
  fastjson_Float64 (VNumber "1577836800.123") = Ok ts_fraction /\
  Row_Timestamp (rowOf (Row_unmarshal (H := doubling_runtime) fastjson_Int64 fastjson_Float64
                          [] Row_zero o nil)) = 1577836800123.
Proof.
  cbv zeta. split_and!; [reflexivity|reflexivity|vm_compute; reflexivity|vm_compute; reflexivity|].
  apply (fractional_timestamp (H := doubling_runtime) fastjson_Int64 fastjson_Float64
           [] Row_zero (point (VNumber "1577836800.123")) nil "m" (VNumber "1577836800.123")
           (Errorf "cannot parse int64 %q" [ArgString "1577836800.123"]));
    vm_compute; reflexivity.
Defined.
End TimestampFixtures.

(** ** C8: tags whose value is not a string *)

Section NonStringTags.
Import Go Slice Arena fmt fastjson OpenTSDBHTTP Fixtures.
Context `{Runtime}.
Variable Value_Int64 : Value -> result Z.
Variable Value_Float64 : Value -> result float.

Lemma keptTags_elem (kvs : list (string * Value)) (k s : string) :
  mkTag k s ∈ keptTags kvs <-> (k, VString s) ∈ kvs.
Proof.
  induction kvs as [|[k0 v0] kvs IH]; simpl.
  - split; intros Hin; by apply elem_of_nil in Hin.
  - rewrite elem_of_cons.
    destruct v0; rewrite ?elem_of_cons, IH; try (split; [by right|intros [[=]|]; done]).
    split; (intros [[=]|]; [left; congruence|by right]).
Qed.

(** C8.  Whatever the values of the entries of [tags] are, a row whose
    other fields are good is parsed without error; its tag view holds,
    in order, one tag for each entry whose value is a string and nothing
    for the other entries, and these tags are what the pool has gained. *)
Theorem non_string_tags_dropped (mt : list (list Tag)) (r : Row) (o : Value) (pool : slice)
    (metric : string) (rawTs : Value) (ts : Z) (rawV : Value) (v : float)
    (kvs : list (string * Value)) :
  valid mt pool -> off pool = 0 ->
  Value_GetStringBytes o "metric" = Some metric ->
  Value_Get o "timestamp" = Some rawTs ->
  timestamp Value_Int64 Value_Float64 o rawTs = Ok ts ->
  Value_Get o "value" = Some rawV ->
  Value_Float64 rawV = Ok v ->
  Value_GetObject o "tags" = Some kvs ->
  exists mt' r' pool',
    Row_unmarshal Value_Int64 Value_Float64 mt r o pool = (mt', r', pool', None) /\
    view mt' r' = mkRowView metric (keptTags kvs) v ts /\
    load mt' pool' = load mt pool ++ keptTags kvs /\
    (forall k s, mkTag k s ∈ keptTags kvs <-> (k, VString s) ∈ kvs) /\
    keptTags mixedTags = [mkTag "host" "a"; mkTag "dc" "us"].
Proof.
  intros Hv Ho Hm Hts Hstamp Hval Hfl Htags.
  unfold Row_unmarshal. rewrite Hm, Hts, Hstamp, Hval, Hfl, Htags.
  destruct (unmarshalTags_kept kvs mt pool Hv Ho) as (mt' & pool' & -> & Hg & Hl).
  pose proof Hg as (Hv' & Ho' & _).
  assert (len pool <= len pool')%nat as Hle.
  { apply length_load in Hv, Hv'. rewrite <- Hv, <- Hv', Hl, length_app. lia. }
  destruct (view_safe (A := Tag) mt' pool' (len pool) Hv' Ho' Hle) as (_ & Hview & Hshape).
  cbv zeta in Hview, Hshape. rewrite Hshape in Hview.
  eexists _, _, _. split_and!; [done| |done|apply keptTags_elem|done].
  unfold view, upto3, from; simpl. rewrite Ho'; simpl. f_equal.
  rewrite Hview, Hl, drop_app_length'; [done|]. symmetry. by apply length_load.
Qed.
End NonStringTags.

Section NonStringTagsFixture.
Import Go Slice Arena fmt fastjson OpenTSDBHTTP Fixtures.

Lemma non_string_tags_dropped_witness :
  let ts := 1577836800000%Z in
  valid (A := Tag) [] nil /\ off nil = 0 /\
  Value_GetStringBytes mixedRow "metric" = Some "n"%string /\
  Value_Get mixedRow "timestamp" = Some (VNumber "1577836800000") /\
  timestamp fastjson_Int64 fastjson_Float64 mixedRow (VNumber "1577836800000") = Ok ts /\
  Value_Get mixedRow "value" = Some (VNumber "2.5") /\
  fastjson_Float64 (VNumber "2.5") = Ok 2.5%float /\
  Value_GetObject mixedRow "tags" = Some mixedTags /\
  exists mt' r' pool',
    Row_unmarshal (H := doubling_runtime) fastjson_Int64 fastjson_Float64 [] Row_zero mixedRow nil
      = (mt', r', pool', None) /\
    view mt' r' = mkRowView "n" (keptTags mixedTags) 2.5 ts /\
    load mt' pool' = load [] nil ++ keptTags mixedTags /\
    (forall k s, mkTag k s ∈ keptTags mixedTags <-> (k, VString s) ∈ mixedTags) /\
    keptTags mixedTags = [mkTag "host" "a"; mkTag "dc" "us"].
Proof.
  cbv zeta.
  split; [unfold valid; simpl; lia|].
  split; [reflexivity|].
  split; [reflexivity|].
  split; [reflexivity|].
  split; [vm_compute; reflexivity|].
  split; [reflexivity|].
  split; [vm_compute; reflexivity|].
  split; [reflexivity|].
  apply (non_string_tags_dropped (H := doubling_runtime) fastjson_Int64 fastjson_Float64
           [] Row_zero mixedRow nil "n" (VNumber "1577836800000") 1577836800000
           (VNumber "2.5") 2.5%float mixedTags).
  - unfold valid; simpl; lia.
  - reflexivity.
  - reflexivity.
  - reflexivity.
  - vm_compute; reflexivity.
  - reflexivity.
  - vm_compute; reflexivity.
  - reflexivity.
Defined.
End NonStringTagsFixture.

(** ** C7: the numeric tokens of a line *)

Section LineTokens.
Import Go Slice Arena fmt OpenTSDB Fixtures.
Context `{Runtime}.
Local Open Scope string_scope.

Lemma IndexByte_token (a b : string) (c : ascii) :
  lacks c a -> IndexByte (a ++ String c b) c = Z.of_nat (String.length a).
Proof.
  induction a as [|x a IH]; simpl.
  - intros _. by rewrite Ascii.eqb_refl.
  - intros [Hne Ha]. apply Ascii.eqb_neq in Hne. rewrite Hne, IH by done.
    destruct (Z.ltb_spec (Z.of_nat (String.length a)) 0); lia.
Qed.

Lemma slice_to_token (a b : string) (c : ascii) :
  slice_to (a ++ String c b) (Z.of_nat (String.length a)) = a.
Proof.
  unfold slice_to. rewrite Nat2Z.id.
  induction a as [|x a IH]; simpl; [done|by rewrite IH].
Qed.

Lemma slice_from_token (a b : string) (c : ascii) :
  slice_from (a ++ String c b) (Z.of_nat (String.length a) + 1) = b.
Proof.
  unfold slice_from. replace (Z.to_nat (Z.of_nat (String.length a) + 1))
    with (S (String.length a)) by lia.
  induction a as [|x a IH]; [done|exact IH].
Qed.

Lemma HasPrefix_put (rest : string) : HasPrefix ("put " ++ rest) "put " = true.
Proof. unfold HasPrefix. by destruct rest. Qed.

(** C7.  In a line [put <metric> <timestamp> <value> <tags>] the
    timestamp and value tokens never decide whether [Row.unmarshal]
    fails: the result is the one of [unmarshalTags] on the tag text, with
    the row holding [int64(ParseBestEffort(timestamp))] and
    [ParseBestEffort(value)]; with another numeric parser the error, the
    pool, the metric and the tag view of any line are the same.  With
    fastfloat, which gives 0 for what it cannot parse, the tokens [12x]
    and [y3] are stored as 0, without error. *)
Theorem numeric_tokens_best_effort (ParseBestEffort : string -> float)
    (mt : list (list Tag)) (r : Row) (pool : slice) (metric ts v tagText : string) :
  lacks " " metric -> lacks " " ts -> lacks " " v ->
  let rest := metric ++ " " ++ ts ++ " " ++ v ++ " " ++ tagText in
  let row tags :=
    mkRow metric tags (ParseBestEffort v) (int64_of_float64 (ParseBestEffort ts)) in
  Row_unmarshal ParseBestEffort mt r ("put " ++ rest) pool =
    match unmarshalTags mt pool tagText with
    | None => None
    | Some (mt', pool', Some err) =>
        Some (mt', row nil, pool',
              Some (Errorf "cannot unmarshal tags in %q: %s" [ArgString rest; ArgError err]))
    | Some (mt', pool', None) =>
        let tags := from pool' (Slice.len pool) in
        Some (mt', row (upto3 tags (Slice.len tags)), pool', None)
    end /\
  (forall (ParseOther : string -> float) (s : string),
     match Row_unmarshal ParseBestEffort mt r s pool, Row_unmarshal ParseOther mt r s pool with
     | Some (mt1, r1, pool1, err1), Some (mt2, r2, pool2, err2) =>
         mt1 = mt2 /\ pool1 = pool2 /\ err1 = err2 /\
         Row_Metric r1 = Row_Metric r2 /\ Row_Tags r1 = Row_Tags r2
     | None, None => True
     | _, _ => False
     end) /\
  fastfloat.ParseBestEffort "12x" = 0%float /\
  fastfloat.ParseBestEffort "y3" = 0%float /\
  (let '(m', rs') := lineArena (lineParse Memory_empty Rows_zero garbageLine) in
   lineParse Memory_empty Rows_zero garbageLine = Some (m', rs', None) /\
   contents m' rs' = [mkRowView "m" [mkTag "a" "b"] 0 0]).
Proof.
  intros Hm Ht Hv rest row. split_and!.
  - unfold Row_unmarshal. rewrite HasPrefix_put.
    change (slice_from ("put " ++ rest) (Go.len "put ")) with rest. simpl negb. cbv iota.
    subst rest row. cbn [String.append].
    rewrite (IndexByte_token metric _ " " Hm), slice_to_token, slice_from_token.
    destruct (Z.ltb_spec (Z.of_nat (String.length metric)) 0) as [|_]; [lia|].
    rewrite (IndexByte_token ts _ " " Ht), slice_to_token, slice_from_token.
    destruct (Z.ltb_spec (Z.of_nat (String.length ts)) 0) as [|_]; [lia|].
    rewrite (IndexByte_token v _ " " Hv), slice_to_token, slice_from_token.
    destruct (Z.ltb_spec (Z.of_nat (String.length v)) 0) as [|_]; [lia|].
    simpl. destruct (unmarshalTags mt pool tagText) as [[[mt' pool'] [err|]]|]; done.
  - intros P s. unfold Row_unmarshal.
    destruct (HasPrefix s "put "); simpl; [|done].
    destruct (_ <? 0)%Z; [done|].
    destruct (_ <? 0)%Z; [done|].
    destruct (_ <? 0)%Z; [done|].
    destruct (unmarshalTags _ _ _) as [[[mt' pool'] [err|]]|]; done.
  - vm_compute; reflexivity.
  - vm_compute; reflexivity.
  - vm_compute. split; reflexivity.
Qed.
End LineTokens.

Section LineTokensFixture.
Import Go Slice Arena fmt OpenTSDB Fixtures.
Local Open Scope string_scope.

Lemma numeric_tokens_best_effort_witness :
  lacks " " "m" /\ lacks " " "12x" /\ lacks " " "y3" /\
  Row_Timestamp
    (rowOf (default ([], Row_zero, nil, None)
              (Row_unmarshal (H := doubling_runtime) fastfloat.ParseBestEffort
                 [] Row_zero garbageLine nil))) = 0%Z.
Proof.
  split_and!; [simpl; split; [discriminate|done]
              |simpl; split_and!; first [discriminate|done]
              |simpl; split_and!; first [discriminate|done]|].
  pose proof (numeric_tokens_best_effort (H := doubling_runtime) fastfloat.ParseBestEffort
                [] Row_zero nil "m" "12x" "y3" "a=b") as Hthm.
  destruct Hthm as (Heq & _).
  - simpl; split; [discriminate|done].
  - simpl; split_and!; first [discriminate|done].
  - simpl; split_and!; first [discriminate|done].
  - cbv zeta in Heq. change ("put " ++ "m" ++ " " ++ "12x" ++ " " ++ "y3" ++ " " ++ "a=b")
      with garbageLine in Heq.
    rewrite Heq. vm_compute. reflexivity.
Defined.
End LineTokensFixture.

(** ** C6: a body larger than maxSize *)

Section Oversize.
Import Go Slice Arena fmt fastjson OpenTSDBHTTP.
Context `{Runtime}.
Variable Value_Int64 : Value -> result Z.
Variable Value_Float64 : Value -> result float.
Variable ParseBytes : string -> result Value.
Variable getGzipReader : Reader -> result Reader.
Variable FlushBufs_error : list Point -> option error.
Local Open Scope Z_scope.

Local Notation Read := (pushCtx_Read Value_Int64 Value_Float64 ParseBytes).
Local Notation handler :=
  (insertHandlerInternal Value_Int64 Value_Float64 ParseBytes getGzipReader FlushBufs_error).

Lemma int64_small (z : Z) : MinInt64 <= z <= MaxInt64 -> int64 z = z.
Proof. unfold MinInt64, MaxInt64, int64. intros Hz. rewrite Z.mod_small; lia. Qed.

Lemma len_slice_to (s : string) (n : Z) :
  0 <= n <= Go.len s -> Go.len (slice_to s n) = n.
Proof.
  unfold Go.len, slice_to. intros Hn. rewrite str_take_length. lia.
Qed.

(** The handler around a [Read] that fails at once. *)
Lemma handler_first_read_fails (fuel : nat) (w : World) (ctx : pushCtx) (req : Request)
    (r : Reader) (maxSize : Z) (w1 : World) (ctx1 : pushCtx) (r1 : Reader) :
  (if String.eqb (ContentEncoding req) "gzip" then getGzipReader (Body req)
   else Ok (Body req)) = Ok r ->
  Read (incReadCalls w) ctx r maxSize = (false, w1, ctx1, r1) ->
  exists w' ctx',
    handler (S fuel) w ctx req maxSize = Some (w', ctx', pushCtx_Error ctx1) /\
    storage w' = storage w1 /\ metrics w' = metrics w1.
Proof.
  intros Hr Hread. unfold insertHandlerInternal.
  assert ((if String.eqb (ContentEncoding req) "gzip"
           then match getGzipReader (Body req) with
                | Ok zr => Ok zr
                | Err err =>
                    Err (Errorf "cannot read gzipped http protocol data: %s" [ArgError err])
                end
           else Ok (Body req)) = Ok r) as ->.
  { destruct (String.eqb _ _); [|done]. by rewrite Hr. }
  cbv beta iota zeta. cbn [readLoop]. rewrite Hread.
  unfold pushCtx_reset.
  destruct (Rows_Reset (memory w1) (ctx_Rows ctx1)) as [m' rs'].
  eexists _, _. split_and!; reflexivity.
Qed.

(** C6.  When the body that [Read] is given holds more than [maxSize]
    bytes, [Read] takes [maxSize + 1] of them (none when that is not
    positive), counts a read error, records the error "too big packed
    request" and returns false; the handler returns that error without
    having run [InsertRows]: the storage has received nothing and the
    counter of inserted rows has not moved. *)
Theorem Read_oversize (fuel : nat) (w : World) (ctx : pushCtx) (req : Request)
    (r : Reader) (maxSize : Z) :
  ctx_err ctx = None ->
  MinInt64 <= maxSize ->
  Go.len (pending r) <= MaxInt64 ->
  maxSize < Go.len (pending r) ->
  (if String.eqb (ContentEncoding req) "gzip" then getGzipReader (Body req)
   else Ok (Body req)) = Ok r ->
  let tooBig := Errorf "too big packed request; mustn't exceed %d bytes" [ArgInt maxSize] in
  let taken := Z.max 0 (maxSize + 1) in
  Read w ctx r maxSize =
    (false, incReadErrors w,
     mkPushCtx (ctx_Rows ctx) (ctx_Common ctx)
               (ctx_reqBuf ctx ++ slice_to (pending r) taken)%string (Some tooBig),
     mkReader (slice_from (pending r) taken) (failure r)) /\
  Go.len (slice_to (pending r) taken) = taken /\
  exists w' ctx',
    handler (S fuel) w ctx req maxSize = Some (w', ctx', Some tooBig) /\
    storage w' = storage w /\
    rowsInserted (metrics w') = rowsInserted (metrics w) /\
    opentsdbReadErrors (metrics w') = S (opentsdbReadErrors (metrics w)).
Proof.
  intros Herr Hmin Hlen Hbig Hr tooBig taken.
  assert (forall w0, Read w0 ctx r maxSize =
    (false, incReadErrors w0,
     mkPushCtx (ctx_Rows ctx) (ctx_Common ctx)
               (ctx_reqBuf ctx ++ slice_to (pending r) taken)%string (Some tooBig),
     mkReader (slice_from (pending r) taken) (failure r))) as Hread.
  { intros w0. unfold pushCtx_Read, ByteBuffer_ReadFrom, LimitedReader_drain, LimitReader.
    rewrite Herr, int64_small by lia. simpl R; simpl N.
    destruct (Z.leb_spec (maxSize + 1) 0) as [Hn|Hn].
    - replace taken with 0 by (unfold taken; lia).
      change (Go.len EmptyString) with 0.
      destruct (Z.ltb_spec maxSize 0) as [_|]; [|lia].
      destruct r; done.
    - replace taken with (maxSize + 1) by (unfold taken; lia).
      destruct (Z.leb_spec (maxSize + 1) (Go.len (pending r))) as [_|]; [|lia].
      rewrite len_slice_to by lia.
      destruct (Z.ltb_spec maxSize (maxSize + 1)) as [_|]; [|lia].
      done. }
  split_and!; [apply Hread| |].
  - apply len_slice_to. unfold taken, Go.len in *. lia.
  - destruct (handler_first_read_fails fuel w ctx req r maxSize _ _ _ Hr (Hread _))
      as (w' & ctx' & Heq & Hst & Hme).
    exists w', ctx'. split_and!; [done|done|by rewrite Hme|by rewrite Hme].
Qed.
End Oversize.

Section OversizeFixture.
Import Go Slice Arena fmt fastjson OpenTSDBHTTP Fixtures.
Local Open Scope Z_scope.

Lemma Read_oversize_witness :
  let tooBig := Errorf "too big packed request; mustn't exceed %d bytes" [ArgInt 4] in
  ctx_err pushCtx_zero = None /\
  MinInt64 <= 4 /\
  Go.len (pending tenBytes) <= MaxInt64 /\
  4 < Go.len (pending tenBytes) /\
  pushCtx_Read (H := doubling_runtime) fastjson_Int64 fastjson_Float64 parseAsNoTimestamp
      world0 pushCtx_zero tenBytes 4 =
    (false, incReadErrors world0,
     mkPushCtx Rows_zero (mkInsertCtx [] []) "01234" (Some tooBig),
     mkReader "56789" None) /\
  exists w' ctx',
    insertHandlerInternal (H := doubling_runtime) fastjson_Int64 fastjson_Float64
        parseAsNoTimestamp gzipPass flushOk 1 world0 pushCtx_zero tenByteRequest 4
      = Some (w', ctx', Some tooBig) /\
    storage w' = [].
Proof.
  cbv zeta.
  pose proof (Read_oversize (H := doubling_runtime) fastjson_Int64 fastjson_Float64
                parseAsNoTimestamp gzipPass flushOk 0 world0 pushCtx_zero tenByteRequest
                tenBytes 4) as Hthm.
  split; [reflexivity|].
  split; [vm_compute; discriminate|].
  split; [vm_compute; discriminate|].
  split; [vm_compute; reflexivity|].
  destruct Hthm as (Hread & _ & w' & ctx' & Heq & Hst & _).
  - reflexivity.
  - vm_compute; discriminate.
  - vm_compute; discriminate.
  - vm_compute; reflexivity.
  - reflexivity.
  - split; [exact Hread|]. exists w', ctx'. split; [exact Heq|exact Hst].
Defined.
End OversizeFixture.

(** ** C5: a JSON row without a required field *)

Section MissingField.
Import Go Slice Arena fmt fastjson OpenTSDBHTTP Fixtures.
Context `{Runtime}.
Variable Value_Int64 : Value -> result Z.
Variable Value_Float64 : Value -> result float.
Variable ParseBytes : string -> result Value.
Variable getGzipReader : Reader -> result Reader.
Variable FlushBufs_error : list Point -> option error.
Local Open Scope Z_scope.

Local Notation Read := (pushCtx_Read Value_Int64 Value_Float64 ParseBytes).
Local Notation handler :=
  (insertHandlerInternal Value_Int64 Value_Float64 ParseBytes getGzipReader FlushBufs_error).
Local Notation Unmarshal := (OpenTSDBHTTP.Rows_Unmarshal Value_Int64 Value_Float64).

(** A body within the size limit that the JSON parser accepts reaches
    [Rows.Unmarshal], and [Read] returns what that decides. *)
Lemma Read_parsed (w : World) (ctx : pushCtx) (r : Reader) (maxSize : Z) (v : Value) :
  ctx_err ctx = None -> failure r = None ->
  0 <= maxSize < MaxInt64 -> Go.len (pending r) <= maxSize ->
  ParseBytes (ctx_reqBuf ctx ++ pending r) = Ok v ->
  Read w ctx r maxSize =
    let '(m, rs, err) := Unmarshal (memory w) (ctx_Rows ctx) (Some v) in
    let w1 := mkWorld m (metrics w) (storage w) in
    let ctx1 := mkPushCtx rs (ctx_Common ctx) (ctx_reqBuf ctx ++ pending r)%string None in
    match err with
    | Some e =>
        (false, incUnmarshalErrors w1,
         setErr ctx1 (Errorf "cannot unmarshal opentsdb http protocol json %s, %s"
                             [ArgValue v; ArgError e]),
         mkReader EmptyString None)
    | None => (true, w1, ctx1, mkReader EmptyString None)
    end.
Proof.
  intros Herr Hfail Hmax Hlen Hparse.
  unfold pushCtx_Read, ByteBuffer_ReadFrom, LimitedReader_drain, LimitReader.
  rewrite Herr, int64_small by (unfold MinInt64, MaxInt64 in *; lia). simpl R; simpl N.
  destruct (Z.leb_spec (maxSize + 1) 0) as [|_]; [lia|].
  destruct (Z.leb_spec (maxSize + 1) (Go.len (pending r))) as [|_]; [lia|].
  rewrite Hfail. simpl.
  destruct (Z.ltb_spec maxSize (Go.len (pending r))) as [|_]; [lia|].
  rewrite Hparse.
  destruct (Unmarshal (memory w) (ctx_Rows ctx) (Some v)) as [[m rs] [e|]]; done.
Qed.

(** C5, as the code has it.  For a body that is one JSON object: when a
    required field is missing and the fields checked before it (in the
    order metric, timestamp, value, tags) are good, [Unmarshal] returns
    an error that names that field; the failed row keeps its slot, so the
    arena then counts one row; and a request whose body the JSON parser
    reads as such an object ends with that error and has inserted
    nothing. *)
Theorem missing_field_error (m : Memory) (rs : Rows) (kvs : list (string * Value)) :
  let o := VObject kvs in
  let failure field :=
    Errorf "cannot unmarshal OpenTSDB body %s: %s"
           [ArgValue o; ArgError (Errorf ("missing `" ++ field ++ "` field in %s") [ArgValue o])] in
  let fails field :=
    exists m' rs',
      Unmarshal m rs (Some o) = (m', rs', Some (failure field)) /\
      Slice.len (Rows_Rows rs') = 1%nat /\ wf m' rs' in
  wf m rs ->
  (Value_Get o "metric" = None -> fails "metric"%string) /\
  (forall metric,
     Value_GetStringBytes o "metric" = Some metric ->
     Value_Get o "timestamp" = None -> fails "timestamp"%string) /\
  (forall metric rawTs ts,
     Value_GetStringBytes o "metric" = Some metric ->
     Value_Get o "timestamp" = Some rawTs ->
     timestamp Value_Int64 Value_Float64 o rawTs = Ok ts ->
     Value_Get o "value" = None -> fails "value"%string) /\
  (forall metric rawTs ts rawV v,
     Value_GetStringBytes o "metric" = Some metric ->
     Value_Get o "timestamp" = Some rawTs ->
     timestamp Value_Int64 Value_Float64 o rawTs = Ok ts ->
     Value_Get o "value" = Some rawV ->
     Value_Float64 rawV = Ok v ->
     Value_Get o "tags" = None -> fails "tags"%string) /\
  (forall field fuel w ctx req maxSize,
     fails field ->
     memory w = m -> ctx_Rows ctx = rs -> ctx_err ctx = None ->
     ContentEncoding req <> "gzip"%string ->
     OpenTSDBHTTP.failure (Body req) = None ->
     0 <= maxSize < MaxInt64 -> Go.len (pending (Body req)) <= maxSize ->
     ParseBytes (ctx_reqBuf ctx ++ pending (Body req)) = Ok o ->
     exists w' ctx',
       handler (S fuel) w ctx req maxSize =
         Some (w', ctx',
               Some (Errorf "cannot unmarshal opentsdb http protocol json %s, %s"
                            [ArgValue o; ArgError (failure field)])) /\
       storage w' = storage w /\
       rowsInserted (metrics w') = rowsInserted (metrics w)).
Proof.
  intros o failure fails Hwf.
  assert (forall field,
    (forall mt r pool, exists r',
       Row_unmarshal Value_Int64 Value_Float64 mt r o pool =
         (mt, r', pool, Some (Errorf ("missing `" ++ field ++ "` field in %s") [ArgValue o]))) ->
    fails field) as Hfails.
  { intros field Hrow. unfold fails.
    destruct (json_Rows_Unmarshal_advanced Value_Int64 Value_Float64 (Some o))
      as (rvs & err & Hall).
    destruct (Hall _ _ Hwf) as (m' & rs' & Heq & Hadv).
    apply advanced_start in Hadv as (Hwf' & Hc & Hlen & _).
    exists m', rs'.
    assert (err = Some (failure field) /\ length rvs = 1%nat) as [-> Hone].
    { unfold OpenTSDBHTTP.Rows_Unmarshal, OpenTSDBHTTP.unmarshalRows,
        OpenTSDBHTTP.unmarshalRow in Heq.
      simpl in Heq.
      destruct (extend Row_zero (rowMem m) (upto (Rows_Rows rs) 0)) as [mr dst] eqn:Hext.
      destruct (Hrow (tagMem m) (get Row_zero mr dst (Slice.len dst - 1))
                     (upto (Rows_tagsPool rs) 0)) as [r' Hr'].
      rewrite Hr' in Heq. injection Heq as <- <- <-.
      split; [done|]. rewrite <- Hlen. simpl.
      destruct Hwf as (Hvr & Hor & _).
      assert (valid (rowMem m) (upto (Rows_Rows rs) 0)) as Hv0.
      { destruct Hvr. unfold valid; simpl. lia. }
      by destruct (extend_grows Row_zero _ _ _ _ Hv0 Hor Hext) as (_ & -> & _). }
    split_and!; [done|by rewrite Hlen|done]. }
  split_and!.
  - intros Hmiss. apply Hfails. intros mt r pool. eexists.
    unfold Row_unmarshal, Value_GetStringBytes. by rewrite Hmiss.
  - intros metric Hm Hmiss. apply Hfails. intros mt r pool. eexists.
    unfold Row_unmarshal. by rewrite Hm, Hmiss.
  - intros metric rawTs ts Hm Hts Hstamp Hmiss. apply Hfails. intros mt r pool. eexists.
    unfold Row_unmarshal. by rewrite Hm, Hts, Hstamp, Hmiss.
  - intros metric rawTs ts rawV v Hm Hts Hstamp Hval Hfl Hmiss. apply Hfails.
    intros mt r pool. eexists.
    unfold Row_unmarshal, Value_GetObject. by rewrite Hm, Hts, Hstamp, Hval, Hfl, Hmiss.
  - intros field fuel w ctx req maxSize (m' & rs' & Heq & _) Hmem Hrows Herr Hgz Hfail Hmax
      Hlen Hparse.
    pose proof (Read_parsed (incReadCalls w) ctx (Body req) maxSize o Herr Hfail Hmax Hlen
                  Hparse) as Hread.
    simpl memory in Hread. rewrite Hmem, Hrows, Heq in Hread. cbv zeta in Hread.
    edestruct (handler_first_read_fails Value_Int64 Value_Float64 ParseBytes getGzipReader
                 FlushBufs_error fuel w ctx req (Body req) maxSize) as (w' & ctx' & Hh & Hst & Hme);
      [|exact Hread|].
    + apply String.eqb_neq in Hgz. by rewrite Hgz.
    + exists w', ctx'. split_and!; [done|done|by rewrite Hme].
Qed.
End MissingField.

Section MissingFieldFixtures.
Import Go Slice Arena fmt fastjson OpenTSDBHTTP Fixtures.
Local Open Scope Z_scope.

Lemma missing_field_error_witness :
  wf Memory_empty Rows_zero /\
  Value_GetStringBytes noTimestamp "metric" = Some "m"%string /\
  Value_Get noTimestamp "timestamp" = None /\
  exists m' rs',
    jsonParse Memory_empty Rows_zero (Some noTimestamp) =
      (m', rs',
       Some (Errorf "cannot unmarshal OpenTSDB body %s: %s"
               [ArgValue noTimestamp;
                ArgError (Errorf "missing `timestamp` field in %s" [ArgValue noTimestamp])])) /\
    Slice.len (Rows_Rows rs') = 1%nat /\ wf m' rs'.
Proof.
  pose proof (missing_field_error (H := doubling_runtime) fastjson_Int64 fastjson_Float64
                parseAsNoTimestamp gzipPass flushOk Memory_empty Rows_zero
                [("metric", VString "m"); ("value", VNumber "1"); ("tags", VObject [])]%string)
    as Hthm.
  cbv zeta in Hthm.
  split; [unfold wf, valid; simpl; lia|].
  split; [reflexivity|].
  split; [reflexivity|].
  destruct Hthm as (_ & Hts & _).
  - unfold wf, valid; simpl; lia.
  - apply (Hts "m"%string); reflexivity.
Defined.

(** C5, as stated, fails twice.  The object without [timestamp] leaves
    the arena, empty before the call, with one row that holds the metric
    read before the failure; and the object that lacks [value] and [tags]
    but has a timestamp that is no number is refused for its timestamp,
    by an error that names neither missing field. *)
Lemma missing_field_cex :
  (let '(m', rs', err) := jsonParse Memory_empty Rows_zero (Some noTimestamp) in
   err <> None /\ Slice.len (Rows_Rows Rows_zero) = 0%nat /\
   Slice.len (Rows_Rows rs') <> Slice.len (Rows_Rows Rows_zero) /\
   Metric <$> contents m' rs' = ["m"%string]) /\
  Value_Get badTimestamp "value" = None /\
  Value_Get badTimestamp "tags" = None /\
  (let '(_, _, err) := jsonParse Memory_empty Rows_zero (Some badTimestamp) in
   err = Some (Errorf "cannot unmarshal OpenTSDB body %s: %s"
                 [ArgValue badTimestamp;
                  ArgError (Errorf "invalid `timestamp` field in %s" [ArgValue badTimestamp])])).
Proof.
  vm_compute. split_and!; try reflexivity; discriminate.
Qed.
End MissingFieldFixtures.

(** * More of the line parser *)

Section PutTextFacts.
Import Go Slice Arena fmt OpenTSDB PutText.
Context `{Runtime}.
Variable ParseBestEffort : string -> float.
Local Open Scope string_scope.

Local Notation Row_unmarshal := (OpenTSDB.Row_unmarshal ParseBestEffort).
Local Notation unmarshalRows_loop := (OpenTSDB.unmarshalRows_loop ParseBestEffort).
Local Notation Rows_Unmarshal := (OpenTSDB.Rows_Unmarshal ParseBestEffort).

Lemma IndexByte_lacks (s : string) (c : ascii) : lacks c s -> IndexByte s c = (-1)%Z.
Proof.
  induction s as [|a s IH]; simpl; [done|].
  intros [Hne Hs]. apply Ascii.eqb_neq in Hne. by rewrite Hne, IH.
Qed.

Lemma lacks_app (c : ascii) (a b : string) : lacks c a -> lacks c b -> lacks c (a ++ b).
Proof. induction a as [|x a IH]; simpl; [done|]. intros [? ?] ?. auto. Qed.

Lemma length_append (a b : string) :
  String.length (a ++ b) = (String.length a + String.length b)%nat.
Proof. induction a as [|x a IH]; simpl; [done|by rewrite IH]. Qed.

(** [Tag.unmarshal] on a segment [key=value]. *)
Lemma Tag_unmarshal_segment (t0 : Tag) (key value : string) :
  key <> EmptyString -> lacks "=" key ->
  Tag_unmarshal t0 (key ++ "=" ++ value) = (mkTag key value, None).
Proof.
  intros Hne Hk. unfold Tag_unmarshal. cbn [String.append].
  rewrite (IndexByte_token key value "=" Hk), slice_to_token, slice_from_token.
  destruct (Z.ltb_spec (Z.of_nat (String.length key)) 0) as [|_]; [lia|].
  simpl. unfold Go.len.
  destruct key; [done|]. done.
Qed.

(** X1.  [Tag.unmarshal] splits a segment at its first [=]: with a key
    that holds no [=], the text [key=value] gives the tag (key, value),
    whatever the value holds, unless the key is empty, which is an
    error; and the key alone, a segment without [=], is the error
    "missing tag value". *)
Theorem Tag_unmarshal_split (t0 : Tag) (key value : string) :
  lacks "=" key ->
  Tag_unmarshal t0 (key ++ "=" ++ value) =
    (if String.eqb key EmptyString
     then (Tag_zero,
           Some (Errorf "tag key cannot be empty for %q" [ArgString (key ++ "=" ++ value)]))
     else (mkTag key value, None)) /\
  Tag_unmarshal t0 key =
    (Tag_zero, Some (Errorf "missing tag value for %q" [ArgString key])).
Proof.
  intros Hk. split.
  - destruct key as [|c key]; [done|].
    change (String.eqb (String c key) EmptyString) with false. cbv iota.
    by apply Tag_unmarshal_segment.
  - unfold Tag_unmarshal. by rewrite (IndexByte_lacks key "=" Hk).
Qed.

Lemma goodTag_segment (t : Tag) :
  goodTag t ->
  lacks " " (tagSegment t) /\ lacks newline (tagSegment t) /\
  forall t0, Tag_unmarshal t0 (tagSegment t) = (t, None).
Proof.
  intros (Hne & Heq & [Hks Hkn] & [Hvs Hvn]). unfold tagSegment. split_and!.
  - apply lacks_app; [done|]. simpl. split; [discriminate|done].
  - apply lacks_app; [done|]. simpl. split; [discriminate|done].
  - intros t0. rewrite Tag_unmarshal_segment by done. by destruct t.
Qed.

Lemma tags_loop_roundtrip (tags : list Tag) (fuel : nat) (mt : list (list Tag)) (dst : slice) :
  tags <> [] -> Forall goodTag tags ->
  String.length (tagText tags) < fuel ->
  valid mt dst -> off dst = 0 ->
  exists mt' dst',
    unmarshalTags_loop fuel mt dst (tagText tags) = Some (mt', dst', None) /\
    grows mt dst mt' dst' /\
    load mt' dst' = (load mt dst ++ tags)%list.
Proof.
  revert fuel mt dst. induction tags as [|t tags IH]; [done|].
  intros fuel mt dst _ Hgood Hfuel Hv Ho.
  apply Forall_cons in Hgood as [Ht Hgood].
  destruct (goodTag_segment t Ht) as (Hsp & _ & Hseg).
  destruct fuel as [|fuel]; [lia|]. cbn [unmarshalTags_loop].
  destruct (extend Tag_zero mt dst) as [mt1 dst1] eqn:Hext.
  destruct (extend_store Tag_zero _ _ _ _ t Hv Ho Hext) as (Hg & Hl & Hlen).
  destruct tags as [|t2 tags].
  - cbn [tagText]. rewrite (IndexByte_lacks _ " " Hsp). cbv iota.
    change (-1 <? 0)%Z with true. cbv iota. rewrite Hseg.
    by eexists _, _.
  - change (tagText (t :: t2 :: tags))
      with (tagSegment t ++ " " ++ tagText (t2 :: tags)) in *.
    set (rest := tagText (t2 :: tags)) in *.
    change (tagSegment t ++ " " ++ rest) with (tagSegment t ++ String " " rest) in *.
    rewrite (IndexByte_token _ rest " " Hsp), slice_to_token, slice_from_token.
    destruct (Z.ltb_spec (Z.of_nat (String.length (tagSegment t))) 0) as [|_]; [lia|].
    rewrite Hseg. pose proof Hg as (Hv1 & Ho1 & _).
    destruct (IH fuel (store mt1 dst1 (len dst1 - 1) t) dst1) as (mt' & dst' & -> & Hg' & Hl');
      [done|done| |done|done|].
    + rewrite length_append in Hfuel. simpl in Hfuel. lia.
    + eexists _, _. split_and!; [done|by eapply grows_trans|].
      rewrite Hl', Hl, <- app_assoc. done.
Qed.

(** X2.  The tags a client writes as [k1=v1 k2=v2 ...] are read back:
    for one or more well-formed tags, [unmarshalTags] returns no error
    and appends exactly these tags to the pool, in order. *)
Theorem unmarshalTags_roundtrip (tags : list Tag) (mt : list (list Tag)) (dst : slice) :
  tags <> [] -> Forall goodTag tags ->
  valid mt dst -> off dst = 0 ->
  exists mt' dst',
    unmarshalTags mt dst (tagText tags) = Some (mt', dst', None) /\
    load mt' dst' = (load mt dst ++ tags)%list /\
    len dst' = (len dst + length tags)%nat.
Proof.
  intros Hne Hgood Hv Ho.
  destruct (tags_loop_roundtrip tags (S (String.length (tagText tags))) mt dst)
    as (mt' & dst' & Heq & Hg & Hl); [done|done|lia|done|done|].
  exists mt', dst'. split_and!; [done|done|].
  pose proof Hg as (Hv' & _). apply length_load in Hv, Hv'.
  rewrite <- Hv, <- Hv', Hl, length_app. done.
Qed.

(** [Row.unmarshal] on a line of tokens. *)
Lemma Row_unmarshal_tokens (mt : list (list Tag)) (r : Row) (pool : slice)
    (metric ts v tagText : string) :
  lacks " " metric -> lacks " " ts -> lacks " " v ->
  Row_unmarshal mt r ("put " ++ metric ++ " " ++ ts ++ " " ++ v ++ " " ++ tagText) pool =
    match unmarshalTags mt pool tagText with
    | None => None
    | Some (mt', pool', Some err) =>
        Some (mt',
              mkRow metric nil (ParseBestEffort v) (int64_of_float64 (ParseBestEffort ts)),
              pool',
              Some (Errorf "cannot unmarshal tags in %q: %s"
                           [ArgString (metric ++ " " ++ ts ++ " " ++ v ++ " " ++ tagText);
                            ArgError err]))
    | Some (mt', pool', None) =>
        Some (mt',
              mkRow metric (upto3 (from pool' (len pool)) (len (from pool' (len pool))))
                    (ParseBestEffort v) (int64_of_float64 (ParseBestEffort ts)),
              pool', None)
    end.
Proof.
  intros Hm Ht Hv.
  unfold OpenTSDB.Row_unmarshal. rewrite HasPrefix_put.
  change (slice_from ("put " ++ ?x) (Go.len "put ")) with x. simpl negb. cbv iota.
  cbn [String.append].
  rewrite (IndexByte_token metric _ " " Hm), slice_to_token, slice_from_token.
  destruct (Z.ltb_spec (Z.of_nat (String.length metric)) 0) as [|_]; [lia|].
  rewrite (IndexByte_token ts _ " " Ht), slice_to_token, slice_from_token.
  destruct (Z.ltb_spec (Z.of_nat (String.length ts)) 0) as [|_]; [lia|].
  rewrite (IndexByte_token v _ " " Hv), slice_to_token, slice_from_token.
  destruct (Z.ltb_spec (Z.of_nat (String.length v)) 0) as [|_]; [lia|].
  simpl. destruct (unmarshalTags mt pool tagText) as [[[mt' pool'] [err|]]|]; done.
Qed.

(** A well-formed sample is read back by [Row.unmarshal]. *)
Lemma Row_unmarshal_sample (p : Sample) (mt : list (list Tag)) (r : Row) (pool : slice) :
  goodSample p -> valid mt pool -> off pool = 0 ->
  exists mt' r' pool',
    Row_unmarshal mt r (putText p) pool = Some (mt', r', pool', None) /\
    rowStep mt pool mt' r' pool' None /\
    view mt' r' = sampleView ParseBestEffort p.
Proof.
  intros ([Hm _] & [Ht _] & [Hv _] & Hne & Hgood) Hval Ho. unfold putText.
  rewrite Row_unmarshal_tokens by done.
  destruct (tags_loop_roundtrip (sampleTags p) (S (String.length (tagText (sampleTags p))))
              mt pool) as (mt' & pool' & Heq & Hg & Hl); [done|done|lia|done|done|].
  unfold unmarshalTags. rewrite Heq.
  pose proof Hg as (Hv' & Ho' & _).
  assert (len pool <= len pool') as Hle.
  { apply length_load in Hval, Hv'. rewrite <- Hval, <- Hv', Hl, length_app. lia. }
  destruct (view_safe (A := Tag) mt' pool' (len pool) Hv' Ho' Hle) as (_ & Hview & Hshape).
  cbv zeta in Hview, Hshape. rewrite Hshape in Hview.
  eexists _, _, _. split_and!; [done| |].
  - unfold rowStep. split_and!; [done|by eexists| |done].
    simpl. unfold upto3, from; simpl. by rewrite Ho'.
  - unfold view, sampleView, upto3, from; simpl. rewrite Ho'; simpl. f_equal.
    rewrite Hview, Hl, drop_app_length'; [done|]. symmetry. by apply length_load.
Qed.

Lemma tagText_lacks (c : ascii) (tags : list Tag) :
  c <> " "%char -> Forall (fun t => lacks c (tagSegment t)) tags -> lacks c (tagText tags).
Proof.
  intros Hc. induction tags as [|t tags IH]; [done|].
  intros Hall. apply Forall_cons in Hall as [Ht Hall].
  destruct tags as [|t2 tags]; [done|].
  change (tagText (t :: t2 :: tags)) with (tagSegment t ++ " " ++ tagText (t2 :: tags)).
  apply lacks_app; [done|]. simpl. split; [congruence|]. by apply IH.
Qed.

Lemma putText_line (p : Sample) :
  goodSample p ->
  lacks newline (putText p) /\ (0 < String.length (putText p))%nat.
Proof.
  intros ([_ Hm] & [_ Ht] & [_ Hv] & _ & Hgood). split; [|simpl; lia].
  assert (forall s, lacks newline s -> lacks newline (" " ++ s)) as Hsp.
  { intros s Hs. simpl. split; [discriminate|done]. }
  unfold putText.
  apply lacks_app; [simpl; split_and!; first [discriminate|done]|].
  apply lacks_app; [done|]. apply Hsp.
  apply lacks_app; [done|]. apply Hsp.
  apply lacks_app; [done|]. apply Hsp.
  apply tagText_lacks; [discriminate|].
  eapply Forall_impl; [done|]. intros t Ht'. by destruct (goodTag_segment t Ht') as (_ & ? & _).
Qed.

Lemma samples_length (ls : list (option Sample)) :
  (length ls <= String.length (batchText ls))%nat.
Proof.
  induction ls as [|[p|] ls IH]; simpl; [lia| |lia].
  rewrite length_append. simpl. lia.
Qed.

Lemma str_append_assoc (a b c : string) : (a ++ b) ++ c = a ++ (b ++ c).
Proof. induction a as [|x a IH]; simpl; [done|by rewrite IH]. Qed.

Lemma parsing_rows (m : Memory) (dst pool : slice) (rows : list Row) :
  parsing m dst pool rows -> rows = load (rowMem m) dst.
Proof. by intros (_ & _ & <- & _). Qed.

(** The lines of a batch are parsed in order, and the loop goes on with
    what follows the batch. *)
Lemma batch_loop (ls : list (option Sample)) (tail : string) (fuel : nat)
    (m : Memory) (dst pool : slice) (rows : list Row) :
  goodBatch ls ->
  String.length (batchText ls ++ tail) < fuel ->
  parsing m dst pool rows ->
  exists m1 dst1 pool1 fuel1,
    String.length tail < fuel1 /\
    advanced m rows m1 dst1 pool1 (sampleView ParseBestEffort <$> samples ls) None /\
    unmarshalRows_loop fuel m dst (batchText ls ++ tail) pool =
      unmarshalRows_loop fuel1 m1 dst1 tail pool1.
Proof.
  revert fuel m dst pool rows. induction ls as [|[p|] ls IH];
    intros fuel m dst pool rows Hgood Hfuel Hp.
  - exists m, dst, pool, fuel. split_and!; [done|by apply advanced_refl|done].
  - unfold goodBatch in Hgood. cbn [samples] in Hgood.
    apply Forall_cons in Hgood as [Hgp Hgood].
    destruct (putText_line p Hgp) as [Hnl Hpos].
    destruct fuel as [|fuel]; [lia|].
    cbn [batchText samples] in *. rewrite str_append_assoc in *.
    change (String newline (batchText ls) ++ tail)
      with (String newline (batchText ls ++ tail)) in *.
    set (rest := batchText ls ++ tail) in *.
    rewrite length_append in Hfuel. simpl in Hfuel.
    cbn [OpenTSDB.unmarshalRows_loop].
    assert ((0 <? Go.len (putText p ++ String newline rest))%Z = true) as ->.
    { apply Z.ltb_lt. unfold Go.len. rewrite length_append. lia. }
    rewrite (IndexByte_token _ rest newline Hnl), slice_to_token, slice_from_token.
    destruct (Z.eqb_spec (Z.of_nat (String.length (putText p))) 0) as [|_]; [lia|].
    destruct (Z.ltb_spec (Z.of_nat (String.length (putText p))) 0) as [|_]; [lia|].
    destruct (extend Row_zero (rowMem m) dst) as [mr dst'] eqn:Hext.
    pose proof Hp as (_ & _ & _ & Hvt & Hot & _).
    destruct (Row_unmarshal_sample p (tagMem m) (get Row_zero mr dst' (len dst' - 1)) pool
                Hgp Hvt Hot) as (mt' & r' & pool' & -> & Hstep & Hview).
    pose proof (turn _ _ _ _ _ _ _ _ _ _ Hp Hext Hstep) as Hadv. rewrite Hview in Hadv.
    set (m1 := mkMemory (store mr dst' (len dst' - 1) r') mt') in *.
    pose proof Hadv as (rows1 & _ & _ & _ & Hp1). specialize (Hp1 eq_refl).
    destruct (IH fuel m1 dst' pool' _ Hgood ltac:(lia) Hp1)
      as (m2 & dst2 & pool2 & fuel2 & Hf2 & Hadv2 & Heq).
    exists m2, dst2, pool2, fuel2. split_and!; [done| |done].
    change (sampleView ParseBestEffort <$> p :: samples ls)
      with ([sampleView ParseBestEffort p] ++ (sampleView ParseBestEffort <$> samples ls))%list.
    eapply advanced_trans; [exact Hadv|].
    intros rows2 Hp2. apply parsing_rows in Hp2. pose proof (parsing_rows _ _ _ _ Hp1) as E.
    rewrite Hp2, <- E. exact Hadv2.
  - destruct fuel as [|fuel]; [lia|].
    cbn [batchText samples] in *.
    change (String newline (batchText ls) ++ tail)
      with (String newline (batchText ls ++ tail)) in *.
    set (rest := batchText ls ++ tail) in *. simpl in Hfuel.
    cbn [OpenTSDB.unmarshalRows_loop].
    assert ((0 <? Go.len (String newline rest))%Z = true) as ->.
    { apply Z.ltb_lt. unfold Go.len. simpl. lia. }
    cbn [IndexByte]. rewrite Ascii.eqb_refl. change (0 =? 0)%Z with true. cbv iota.
    change (slice_from (String newline rest) 1) with rest.
    apply (IH fuel m dst pool rows Hgood ltac:(lia) Hp).
Qed.

(** X3.  A batch of well-formed put lines is read back: from any
    well-formed arena, [Unmarshal] of the text of the batch, in which
    empty lines may stand anywhere, returns no error and leaves exactly
    one row for each line, in order, with the metric and tags as
    written and the numbers as the numeric parser reads them.  The same
    holds when a last line follows without its newline. *)
Theorem Unmarshal_roundtrip (ls : list (option Sample)) (m : Memory) (rs : Rows) :
  wf m rs -> goodBatch ls ->
  (exists m' rs',
     Rows_Unmarshal m rs (batchText ls) = Some (m', rs', None) /\
     contents m' rs' = sampleView ParseBestEffort <$> samples ls) /\
  (forall p, goodSample p ->
     exists m' rs',
       Rows_Unmarshal m rs (batchText ls ++ putText p) = Some (m', rs', None) /\
       contents m' rs' = (sampleView ParseBestEffort <$> samples ls ++ [p])%list).
Proof.
  intros Hwf Hgood. apply wf_parsing in Hwf. split.
  - assert (String.length (batchText ls ++ EmptyString) < S (String.length (batchText ls)))
      as Hfuel by (rewrite length_append; simpl; lia).
    destruct (batch_loop ls EmptyString (S (String.length (batchText ls)))
                m _ _ [] Hgood Hfuel Hwf) as (m1 & dst1 & pool1 & fuel1 & Hf & Hadv & Heq).
    unfold OpenTSDB.Rows_Unmarshal, OpenTSDB.unmarshalRows.
    assert (batchText ls ++ EmptyString = batchText ls) as E.
    { generalize (batchText ls). intros s. induction s as [|x s IH]; simpl; [done|by rewrite IH]. }
    rewrite E in Heq. rewrite Heq.
    destruct fuel1 as [|fuel1]; [simpl in Hf; lia|]. simpl.
    eexists _, _. split; [done|].
    by apply (advanced_start m m1 (mkRows dst1 pool1)) in Hadv as (_ & Hc & _).
  - intros p Hgp.
    destruct (batch_loop ls (putText p) (S (String.length (batchText ls ++ putText p)))
                m _ _ [] Hgood ltac:(lia) Hwf) as (m1 & dst1 & pool1 & fuel1 & Hf & Hadv & Heq).
    unfold OpenTSDB.Rows_Unmarshal, OpenTSDB.unmarshalRows. rewrite Heq.
    destruct (putText_line p Hgp) as [Hnl Hpos].
    destruct fuel1 as [|fuel1]; [lia|]. cbn [OpenTSDB.unmarshalRows_loop].
    assert ((0 <? Go.len (putText p))%Z = true) as ->.
    { apply Z.ltb_lt. unfold Go.len. lia. }
    rewrite (IndexByte_lacks _ newline Hnl).
    change (-1 =? 0)%Z with false. change (-1 <? 0)%Z with true. cbv iota.
    destruct (extend Row_zero (rowMem m1) dst1) as [mr dst'] eqn:Hext.
    pose proof Hadv as (rows1 & _ & _ & _ & Hp1). specialize (Hp1 eq_refl).
    pose proof Hp1 as (_ & _ & _ & Hvt & Hot & _).
    destruct (Row_unmarshal_sample p (tagMem m1) (get Row_zero mr dst' (len dst' - 1)) pool1
                Hgp Hvt Hot) as (mt' & r' & pool' & -> & Hstep & Hview).
    pose proof (turn _ _ _ _ _ _ _ _ _ _ Hp1 Hext Hstep) as Hadv1. rewrite Hview in Hadv1.
    eexists _, _. split; [done|].
    assert (advanced m [] (mkMemory (store mr dst' (len dst' - 1) r') mt') dst' pool'
              ((sampleView ParseBestEffort <$> samples ls) ++ [sampleView ParseBestEffort p])
              None) as Hall.
    { eapply advanced_trans; [exact Hadv|].
      intros rows2 Hp2. apply parsing_rows in Hp2. pose proof (parsing_rows _ _ _ _ Hp1) as E.
      rewrite Hp2, <- E. exact Hadv1. }
    apply (advanced_start m _ (mkRows dst' pool')) in Hall as (_ & Hc & _).
    by rewrite Hc, fmap_app.
Qed.

(** X4.  A line break at the head of the text is an empty line and is
    skipped: [Unmarshal] gives the same result with and without it. *)
Theorem Unmarshal_skips_empty_line (m : Memory) (rs : Rows) (s : string) :
  Rows_Unmarshal m rs (String newline s) = Rows_Unmarshal m rs s.
Proof.
  unfold OpenTSDB.Rows_Unmarshal, OpenTSDB.unmarshalRows.
  change (String.length (String newline s)) with (S (String.length s)).
  cbn [OpenTSDB.unmarshalRows_loop].
  assert ((0 <? Go.len (String newline s))%Z = true) as ->.
  { apply Z.ltb_lt. unfold Go.len. simpl. lia. }
  cbn [IndexByte]. rewrite Ascii.eqb_refl. done.
Qed.
End PutTextFacts.

Section PutTextFixtures.
Import Go Slice Arena fmt OpenTSDB PutText Fixtures.
Local Open Scope string_scope.

Local Ltac lacking := repeat (split; [discriminate|]); exact I.

Lemma goodTag_host : goodTag (mkTag "host" "web01").
Proof. unfold goodTag, token. simpl. split_and!; try discriminate; lacking. Qed.

Lemma goodTag_dc : goodTag (mkTag "dc" "us").
Proof. unfold goodTag, token. simpl. split_and!; try discriminate; lacking. Qed.

Lemma goodTag_host_ab : goodTag (mkTag "host" "a=b").
Proof. unfold goodTag, token. simpl. split_and!; try discriminate; lacking. Qed.

Lemma goodSample_cpu : goodSample cpuSample.
Proof.
  unfold goodSample, token. simpl. split_and!; try discriminate; try lacking.
  constructor; [apply goodTag_host|constructor; [apply goodTag_dc|constructor]].
Qed.

Lemma goodSample_mem : goodSample memSample.
Proof.
  unfold goodSample, token. simpl. split_and!; try discriminate; try lacking.
  constructor; [apply goodTag_host_ab|constructor].
Qed.

Lemma Tag_unmarshal_split_witness :
  lacks "=" "host" /\
  Tag_unmarshal Tag_zero "host=a=b" = (mkTag "host" "a=b", None) /\
  Tag_unmarshal Tag_zero "host"
    = (Tag_zero, Some (Errorf "missing tag value for %q" [ArgString "host"])).
Proof.
  split; [simpl; lacking|].
  apply (Tag_unmarshal_split Tag_zero "host" "a=b"). simpl; lacking.
Defined.

Lemma unmarshalTags_roundtrip_witness :
  putLineTags <> [] /\ Forall goodTag putLineTags /\
  valid (A := Tag) [] nil /\ off nil = 0 /\
  exists mt' dst',
    unmarshalTags (H := doubling_runtime) [] nil "host=web01 dc=us" = Some (mt', dst', None) /\
    load mt' dst' = putLineTags /\
    len dst' = 2.
Proof.
  split; [discriminate|].
  split; [constructor; [apply goodTag_host|constructor; [apply goodTag_dc|constructor]]|].
  split; [unfold valid; simpl; lia|].
  split; [reflexivity|].
  apply (unmarshalTags_roundtrip (H := doubling_runtime) putLineTags [] nil).
  - discriminate.
  - constructor; [apply goodTag_host|constructor; [apply goodTag_dc|constructor]].
  - unfold valid; simpl; lia.
  - reflexivity.
Defined.

Lemma Unmarshal_roundtrip_witness :
  wf Memory_empty Rows_zero /\ goodBatch cpuMemBatch /\
  (exists m' rs',
     lineParse Memory_empty Rows_zero (batchText cpuMemBatch) = Some (m', rs', None) /\
     contents m' rs' =
       [mkRowView "sys.cpu" putLineTags 42.5 1577836800;
        mkRowView "sys.mem" [mkTag "host" "a=b"] (-7) 1577836801]).
Proof.
  split; [unfold wf, valid; simpl; lia|].
  split; [constructor; [apply goodSample_cpu|constructor; [apply goodSample_mem|constructor]]|].
  destruct (Unmarshal_roundtrip (H := doubling_runtime) fastfloat.ParseBestEffort cpuMemBatch
              Memory_empty Rows_zero) as [(m' & rs' & Heq & Hc) _].
  - unfold wf, valid; simpl; lia.
  - constructor; [apply goodSample_cpu|constructor; [apply goodSample_mem|constructor]].
  - exists m', rs'. split; [exact Heq|]. rewrite Hc. vm_compute. reflexivity.
Defined.
End PutTextFixtures.

(** * More of the request pipeline *)

Section PipelineFacts.
Import Go Slice Arena fmt fastjson OpenTSDBHTTP.
Context `{Runtime}.
Variable Value_Int64 : Value -> result Z.
Variable Value_Float64 : Value -> result float.
Variable ParseBytes : string -> result Value.
Variable getGzipReader : Reader -> result Reader.
Variable FlushBufs_error : list Point -> option error.
Local Open Scope Z_scope.

Local Notation Read := (pushCtx_Read Value_Int64 Value_Float64 ParseBytes).
Local Notation handler :=
  (insertHandlerInternal Value_Int64 Value_Float64 ParseBytes getGzipReader FlushBufs_error).
Local Notation Unmarshal := (OpenTSDBHTTP.Rows_Unmarshal Value_Int64 Value_Float64).

Lemma labels_fold (tags : list Tag) (ic : InsertCtx) :
  foldl (fun ic tag => InsertCtx_AddLabel ic (Tag_Key tag) (Tag_Value tag)) ic tags =
  mkInsertCtx (ic_Labels ic ++ ((fun t => (Tag_Key t, Tag_Value t)) <$> tags)) (ic_buffered ic).
Proof.
  revert ic. induction tags as [|t tags IH]; intros ic; simpl.
  - rewrite app_nil_r. by destruct ic.
  - rewrite IH. simpl. by rewrite <- app_assoc.
Qed.

(** The point [InsertRows] writes for a row. *)
Lemma points_fold (mt : list (list Tag)) (rows : list Row) (ic : InsertCtx) :
  ic_buffered
    (foldl (fun ic r =>
              let ic := mkInsertCtx [] (ic_buffered ic) in
              let ic := InsertCtx_AddLabel ic EmptyString (Row_Metric r) in
              let ic :=
                foldl (fun ic tag => InsertCtx_AddLabel ic (Tag_Key tag) (Tag_Value tag))
                      ic (load mt (Row_Tags r)) in
              InsertCtx_WriteDataPoint ic (ic_Labels ic) (Row_Timestamp r) (Row_Value r))
           ic rows) =
  (ic_buffered ic ++
   ((fun r => mkPoint (rowLabels mt r) (Row_Timestamp r) (Row_Value r)) <$> rows))%list.
Proof.
  revert ic. induction rows as [|r rows IH]; intros ic; simpl.
  - by rewrite app_nil_r.
  - rewrite IH. rewrite labels_fold. simpl. by rewrite <- app_assoc.
Qed.

(** X5.  [InsertRows] hands the storage one point for each row of the
    arena, in the order of the rows: the labels are the metric under the
    empty name followed by the tags of the row's view, with the row's
    timestamp and value.  The counter of inserted rows grows by the
    number of rows, and the error returned is the one of the flush. *)
Theorem InsertRows_points (w : World) (ctx : pushCtx) :
  let rws := rows (memory w) (ctx_Rows ctx) in
  let points :=
    (fun r => mkPoint (rowLabels (tagMem (memory w)) r) (Row_Timestamp r) (Row_Value r))
      <$> rws in
  let '(w', ctx', err) := pushCtx_InsertRows FlushBufs_error w ctx in
  storage w' = (storage w ++ points)%list /\
  rowsInserted (metrics w') = (rowsInserted (metrics w) + length rws)%nat /\
  err = FlushBufs_error points /\
  memory w' = memory w /\ ctx_Rows ctx' = ctx_Rows ctx /\ ctx_err ctx' = ctx_err ctx.
Proof.
  unfold pushCtx_InsertRows, InsertCtx_Reset, rows. cbv zeta.
  rewrite points_fold. simpl. done.
Qed.

(** X6.  A body within the size limit that the JSON parser accepts and
    [Unmarshal] parses without error makes [Read] return true: the buffer
    has gained the body, the stream is at its end, the arena holds the
    rows of the body, and no error is recorded or counted. *)
Theorem Read_accepts (w : World) (ctx : pushCtx) (r : Reader) (maxSize : Z) (v : Value)
    (m' : Memory) (rs' : Rows) :
  ctx_err ctx = None -> failure r = None ->
  0 <= maxSize < MaxInt64 -> Go.len (pending r) <= maxSize ->
  ParseBytes (ctx_reqBuf ctx ++ pending r) = Ok v ->
  Unmarshal (memory w) (ctx_Rows ctx) (Some v) = (m', rs', None) ->
  Read w ctx r maxSize =
    (true, mkWorld m' (metrics w) (storage w),
     mkPushCtx rs' (ctx_Common ctx) (ctx_reqBuf ctx ++ pending r)%string None,
     mkReader EmptyString None).
Proof.
  intros Herr Hfail Hmax Hlen Hparse Hun.
  rewrite (Read_parsed Value_Int64 Value_Float64 ParseBytes w ctx r maxSize v) by done.
  by rewrite Hun.
Qed.

(** X7.  A stream that breaks before the size limit is reached makes
    [Read] return false with the error "cannot read request" around the
    stream's error, and counts a read error; the handler returns that
    error and nothing is inserted. *)
Theorem Read_broken_stream (fuel : nat) (w : World) (ctx : pushCtx) (req : Request)
    (maxSize : Z) (e : error) :
  ctx_err ctx = None ->
  ContentEncoding req <> "gzip"%string ->
  failure (Body req) = Some e ->
  0 <= maxSize < MaxInt64 -> Go.len (pending (Body req)) <= maxSize ->
  let broken := Errorf "cannot read request: %s" [ArgError e] in
  Read w ctx (Body req) maxSize =
    (false, incReadErrors w,
     mkPushCtx (ctx_Rows ctx) (ctx_Common ctx) (ctx_reqBuf ctx ++ pending (Body req))%string
               (Some broken),
     mkReader EmptyString (Some e)) /\
  exists w' ctx',
    handler (S fuel) w ctx req maxSize = Some (w', ctx', Some broken) /\
    storage w' = storage w /\
    rowsInserted (metrics w') = rowsInserted (metrics w) /\
    opentsdbReadErrors (metrics w') = S (opentsdbReadErrors (metrics w)).
Proof.
  intros Herr Hgz Hfail Hmax Hlen broken.
  assert (forall w0, Read w0 ctx (Body req) maxSize =
    (false, incReadErrors w0,
     mkPushCtx (ctx_Rows ctx) (ctx_Common ctx) (ctx_reqBuf ctx ++ pending (Body req))%string
               (Some broken),
     mkReader EmptyString (Some e))) as Hread.
  { intros w0. unfold pushCtx_Read, ByteBuffer_ReadFrom, LimitedReader_drain, LimitReader.
    rewrite Herr, int64_small by (unfold MinInt64, MaxInt64 in *; lia). simpl R; simpl N.
    destruct (Z.leb_spec (maxSize + 1) 0) as [|_]; [lia|].
    destruct (Z.leb_spec (maxSize + 1) (Go.len (pending (Body req)))) as [|_]; [lia|].
    rewrite Hfail. done. }
  split; [apply Hread|].
  edestruct (handler_first_read_fails Value_Int64 Value_Float64 ParseBytes getGzipReader
               FlushBufs_error fuel w ctx req (Body req) maxSize) as (w' & ctx' & Hh & Hst & Hme);
    [|apply Hread|].
  - apply String.eqb_neq in Hgz. by rewrite Hgz.
  - exists w', ctx'. split_and!; [done|done|by rewrite Hme|by rewrite Hme].
Qed.
End PipelineFacts.

Section PipelineFixtures.
Import Go Slice Arena fmt fastjson OpenTSDBHTTP Fixtures.
Local Open Scope Z_scope.

Lemma Read_accepts_witness :
  let '(m', rs') := jsonArena (jsonParse Memory_empty Rows_zero (Some firstBody)) in
  ctx_err pushCtx_zero = None /\ failure tenBytes = None /\
  0 <= 10 < MaxInt64 /\ Go.len (pending tenBytes) <= 10 /\
  parseAsPoint (ctx_reqBuf pushCtx_zero ++ pending tenBytes) = Ok firstBody /\
  jsonParse (memory world0) (ctx_Rows pushCtx_zero) (Some firstBody) = (m', rs', None) /\
  pushCtx_Read (H := doubling_runtime) fastjson_Int64 fastjson_Float64 parseAsPoint
      world0 pushCtx_zero tenBytes 10 =
    (true, mkWorld m' (metrics world0) (storage world0),
     mkPushCtx rs' (ctx_Common pushCtx_zero) "0123456789" None,
     mkReader EmptyString None).
Proof.
  destruct (jsonArena (jsonParse Memory_empty Rows_zero (Some firstBody))) as [m' rs'] eqn:E.
  vm_compute in E. injection E as <- <-.
  split; [reflexivity|].
  split; [reflexivity|].
  split; [vm_compute; split; [discriminate|reflexivity]|].
  split; [vm_compute; discriminate|].
  split; [reflexivity|].
  split; [vm_compute; reflexivity|].
  apply (Read_accepts (H := doubling_runtime) fastjson_Int64 fastjson_Float64 parseAsPoint
           world0 pushCtx_zero tenBytes 10 firstBody).
  - reflexivity.
  - reflexivity.
  - vm_compute; split; [discriminate|reflexivity].
  - vm_compute; discriminate.
  - reflexivity.
  - vm_compute; reflexivity.
Defined.

Lemma Read_broken_stream_witness :
  let req := mkRequest EmptyString brokenStream in
  let broken := Errorf "cannot read request: %s" [ArgError (Errorf "connection reset" [])] in
  ctx_err pushCtx_zero = None /\
  ContentEncoding req <> "gzip"%string /\
  failure (Body req) = Some (Errorf "connection reset" []) /\
  0 <= 10 < MaxInt64 /\ Go.len (pending (Body req)) <= 10 /\
  pushCtx_Read (H := doubling_runtime) fastjson_Int64 fastjson_Float64 parseAsPoint
      world0 pushCtx_zero brokenStream 10 =
    (false, incReadErrors world0,
     mkPushCtx Rows_zero (mkInsertCtx [] []) "012" (Some broken),
     mkReader EmptyString (Some (Errorf "connection reset" []))).
Proof.
  cbv zeta.
  split; [reflexivity|].
  split; [discriminate|].
  split; [reflexivity|].
  split; [vm_compute; split; [discriminate|reflexivity]|].
  split; [vm_compute; discriminate|].
  apply (Read_broken_stream (H := doubling_runtime) fastjson_Int64 fastjson_Float64 parseAsPoint
           gzipPass flushOk 0 world0 pushCtx_zero (mkRequest EmptyString brokenStream) 10
           (Errorf "connection reset" [])).
  - reflexivity.
  - discriminate.
  - reflexivity.
  - vm_compute; split; [discriminate|reflexivity].
  - vm_compute; discriminate.
Defined.
End PipelineFixtures.

(** * More of the arena *)

Section ResetClears.
Import Slice Arena.

Lemma reset_fold {A : Type} (zero z : A) (g : A -> A) (s : slice) (n : nat)
    (m : list (list A)) :
  (forall x, g x = z) ->
  let m' := foldl (fun m i => store m s i (g (get zero m s i))) m (seq 0 n) in
  forall a k,
    array m' a !! k =
    if decide (a = arr s /\ off s <= k < off s + n /\ k < length (array m a))
    then Some z else array m a !! k.
Proof.
  intros Hg. induction n as [|n IH]; intros m' a k.
  - simpl in m'. subst m'. rewrite decide_False; [done|lia].
  - subst m'. rewrite seq_S, foldl_app. simpl.
    set (m1 := foldl _ m (seq 0 n)) in *. rewrite Hg, array_store.
    assert (length (array m1 a) = length (array m a)) as Hlen.
    { apply (foldl_store_shape (fun m i => g (get zero m s i))). }
    specialize (IH a k). cbv zeta in IH.
    destruct (decide (a = arr s)) as [->|Hne].
    + destruct (decide (off s + n = k)) as [<-|Hk].
      * destruct (decide (off s + n < length (array m (arr s)))) as [Hin|Hout].
        -- rewrite list_lookup_insert_eq by lia. rewrite decide_True; [done|lia].
        -- rewrite list_insert_ge by lia.
           rewrite IH. rewrite !decide_False; [done|lia|lia].
      * rewrite list_lookup_insert_ne by done. rewrite IH.
        destruct (decide (arr s = arr s /\ off s <= k < off s + n /\ _)) as [Hd|Hd].
        -- rewrite decide_True; [done|lia].
        -- rewrite decide_False; [done|lia].
    + rewrite IH. rewrite !decide_False; [done|tauto|tauto].
Qed.
End ResetClears.

Section ResetClearsTheorem.
Import Slice Arena.

(** X8.  [Reset] on a well-formed arena sets the slots in use to the
    zero value, rows and tags alike, and nothing else: the slots beyond
    the length, within the capacity, and the other arrays are as they
    were.  The arena stays well formed. *)
Theorem Reset_clears (m : Memory) (rs : Rows) :
  wf m rs ->
  let '(m1, rs1) := Rows_Reset m rs in
  load (rowMem m1) (Rows_Rows rs) = replicate (len (Rows_Rows rs)) Row_zero /\
  load (tagMem m1) (Rows_tagsPool rs) = replicate (len (Rows_tagsPool rs)) Tag_zero /\
  wf m1 rs1 /\
  (forall a k, a <> arr (Rows_Rows rs) \/ len (Rows_Rows rs) <= k ->
     array (rowMem m1) a !! k = array (rowMem m) a !! k) /\
  (forall a k, a <> arr (Rows_tagsPool rs) \/ len (Rows_tagsPool rs) <= k ->
     array (tagMem m1) a !! k = array (tagMem m) a !! k).
Proof.
  intros ((Hrc & Hrl) & Hro & (Htc & Htl) & Hto).
  unfold Rows_Reset. cbv zeta. simpl Rows_tagsPool. simpl Rows_Rows.
  pose proof (reset_fold Row_zero Row_zero Row_reset (Rows_Rows rs) (len (Rows_Rows rs))
                (rowMem m) (fun _ => eq_refl)) as Hr.
  pose proof (reset_fold Tag_zero Tag_zero Tag_reset (Rows_tagsPool rs)
                (len (Rows_tagsPool rs)) (tagMem m) (fun _ => eq_refl)) as Ht.
  pose proof (foldl_store_shape (fun mr i => Row_reset (get Row_zero mr (Rows_Rows rs) i))
                (Rows_Rows rs) (seq 0 (len (Rows_Rows rs))) (rowMem m)) as [_ Hrs].
  pose proof (foldl_store_shape (fun mt i => Tag_reset (get Tag_zero mt (Rows_tagsPool rs) i))
                (Rows_tagsPool rs) (seq 0 (len (Rows_tagsPool rs))) (tagMem m)) as [_ Hts].
  cbv zeta in Hr, Ht, Hrs, Hts.
  set (mr := foldl _ (rowMem m) _) in *. set (mt := foldl _ (tagMem m) _) in *.
  split_and!.
  - apply list_eq. intros k. rewrite lookup_load.
    destruct (decide (k < len (Rows_Rows rs))) as [Hk|Hk].
    + rewrite Hr, decide_True; [|lia]. symmetry. by apply lookup_replicate_2.
    + symmetry. apply lookup_replicate_None. lia.
  - apply list_eq. intros k. rewrite lookup_load.
    destruct (decide (k < len (Rows_tagsPool rs))) as [Hk|Hk].
    + rewrite Ht, decide_True; [|lia]. symmetry. by apply lookup_replicate_2.
    + symmetry. apply lookup_replicate_None. lia.
  - unfold wf, valid; simpl. rewrite Hrs, Hts. split_and!; try done; lia.
  - intros a k Hak. rewrite Hr, decide_False; [done|lia].
  - intros a k Hak. rewrite Ht, decide_False; [done|lia].
Qed.
End ResetClearsTheorem.

Section ResetClearsFixture.
Import Go Slice Arena Fixtures.

Lemma Reset_clears_witness :
  let m := (lineArena (lineParse Memory_empty Rows_zero twoLines)).1 in
  let rs := (lineArena (lineParse Memory_empty Rows_zero twoLines)).2 in
  wf m rs /\
  Metric <$> contents m rs = ["a"; "b"]%string /\
  let '(m1, rs1) := Rows_Reset m rs in
  load (rowMem m1) (Rows_Rows rs) = replicate (len (Rows_Rows rs)) Row_zero /\
  load (tagMem m1) (Rows_tagsPool rs) = replicate (len (Rows_tagsPool rs)) Tag_zero /\
  wf m1 rs1 /\
  (forall a k, a <> arr (Rows_Rows rs) \/ len (Rows_Rows rs) <= k ->
     array (rowMem m1) a !! k = array (rowMem m) a !! k) /\
  (forall a k, a <> arr (Rows_tagsPool rs) \/ len (Rows_tagsPool rs) <= k ->
     array (tagMem m1) a !! k = array (tagMem m) a !! k).
Proof.
  intros m rs.
  assert (wf m rs) as Hwf by (vm_compute; lia).
  split; [exact Hwf|].
  split; [vm_compute; reflexivity|].
  exact (Reset_clears m rs Hwf).
Defined.
End ResetClearsFixture.

(** * More of the JSON parser *)

Section ArrayBody.
Import Go Slice Arena fmt fastjson OpenTSDBHTTP.
Context `{Runtime}.
Variable Value_Int64 : Value -> result Z.
Variable Value_Float64 : Value -> result float.

Local Notation rowError := (OpenTSDBHTTP.rowError Value_Int64 Value_Float64).
Local Notation unmarshalRow := (OpenTSDBHTTP.unmarshalRow Value_Int64 Value_Float64).
Local Notation unmarshalRows_range := (OpenTSDBHTTP.unmarshalRows_range Value_Int64 Value_Float64).
Local Notation Unmarshal := (OpenTSDBHTTP.Rows_Unmarshal Value_Int64 Value_Float64).

Lemma rowError_any_state (o : Value) (mt : list (list Tag)) (r : Row) (pool : slice) :
  valid mt pool -> off pool = 0 ->
  exists mt' r' pool',
    OpenTSDBHTTP.Row_unmarshal Value_Int64 Value_Float64 mt r o pool
      = (mt', r', pool', rowError o) /\
    rowStep mt pool mt' r' pool' (rowError o).
Proof.
  intros Hv Ho. destruct (json_Row_unmarshal_step Value_Int64 Value_Float64 o)
    as (rv & err & Hstep).
  assert (rowError o = err) as ->.
  { unfold OpenTSDBHTTP.rowError.
    destruct (Hstep [] Row_zero nil) as (mt0 & r0 & pool0 & -> & _); [|done|done].
    unfold valid; simpl; lia. }
  destruct (Hstep mt r pool Hv Ho) as (mt' & r' & pool' & Heq & Hrs & _).
  by exists mt', r', pool'.
Qed.

Lemma unmarshalRow_turn (e : Value) (m : Memory) (dst pool : slice) (rows : list Row) :
  parsing m dst pool rows ->
  exists m' dst' pool' rv,
    unmarshalRow m dst e pool = (m', dst', pool', bodyError e (rowError e)) /\
    advanced m rows m' dst' pool' [rv] (bodyError e (rowError e)).
Proof.
  intros Hp. unfold OpenTSDBHTTP.unmarshalRow.
  destruct (extend Row_zero (rowMem m) dst) as [mr dst'] eqn:Hext.
  pose proof Hp as (_ & _ & _ & Hvt & Hot & _).
  destruct (rowError_any_state e (tagMem m) (get Row_zero mr dst' (len dst' - 1)) pool Hvt Hot)
    as (mt' & r' & pool' & -> & Hrs).
  pose proof (turn _ _ _ _ _ _ _ _ _ _ Hp Hext Hrs) as Hadv.
  destruct (rowError e) as [err|]; eexists _, _, _, _; (split; [done|]).
  - destruct Hadv as (rows' & ? & ? & ? & ?). exists rows'. split_and!; done.
  - exact Hadv.
Qed.

(** The good elements at the head of an array are parsed, and the loop
    goes on with what follows them. *)
Lemma range_good (good : list Value) (m : Memory) (dst pool : slice) (rows : list Row) :
  Forall (fun o => rowError o = None) good ->
  parsing m dst pool rows ->
  exists m1 dst1 pool1 rvs,
    advanced m rows m1 dst1 pool1 rvs None /\
    length rvs = length good /\
    forall tail,
      unmarshalRows_range (good ++ tail) m dst pool = unmarshalRows_range tail m1 dst1 pool1.
Proof.
  revert m dst pool rows. induction good as [|o good IH]; intros m dst pool rows Hgood Hp.
  - exists m, dst, pool, []. split_and!; [by apply advanced_refl|done|done].
  - apply Forall_cons in Hgood as [Ho Hgood].
    destruct (unmarshalRow_turn o m dst pool rows Hp) as (m1 & dst1 & pool1 & rv & Heq & Hadv).
    rewrite Ho in Heq, Hadv. simpl in Heq, Hadv.
    pose proof Hadv as (rows1 & _ & _ & _ & Hp1). specialize (Hp1 eq_refl).
    destruct (IH m1 dst1 pool1 _ Hgood Hp1) as (m2 & dst2 & pool2 & rvs & Hadv2 & Hlen & Hrest).
    exists m2, dst2, pool2, ([rv] ++ rvs). split_and!.
    + eapply advanced_trans; [exact Hadv|].
      intros rows2 Hp2. apply parsing_rows in Hp2. pose proof (parsing_rows _ _ _ _ Hp1) as E.
      rewrite Hp2, <- E. exact Hadv2.
    + simpl. by rewrite Hlen.
    + intros tail. simpl. rewrite Heq. apply Hrest.
Qed.

(** X9.  An array body is parsed element by element and left at the
    first element that fails: when the elements before it are good, the
    error names that element with its own error, the arena counts the
    good rows and the slot of the failed one, the result is the same
    whatever elements follow the failed one, and the rows before the
    failure show as they do when the array of the good elements alone
    is parsed. *)
Theorem array_stops_at_first_error (m : Memory) (rs : Rows)
    (good : list Value) (bad : Value) (e : error) :
  wf m rs ->
  Forall (fun o => rowError o = None) good ->
  rowError bad = Some e ->
  exists m1 rs1 m2 rs2,
    (forall rest,
       Unmarshal m rs (Some (VArray (good ++ bad :: rest))) =
         (m1, rs1,
          Some (Errorf "cannot unmarshal OpenTSDB body %s: %s" [ArgValue bad; ArgError e]))) /\
    len (Rows_Rows rs1) = length good + 1 /\
    Unmarshal m rs (Some (VArray good)) = (m2, rs2, None) /\
    len (Rows_Rows rs2) = length good /\
    take (length good) (contents m1 rs1) = contents m2 rs2.
Proof.
  intros Hwf Hgood Hbad. apply wf_parsing in Hwf.
  destruct (range_good good m _ _ [] Hgood Hwf) as (mg & dstg & poolg & rvs & Hadv & Hlen & Hrest).
  pose proof Hadv as (rowsg & _ & _ & _ & Hpg). specialize (Hpg eq_refl).
  destruct (unmarshalRow_turn bad mg dstg poolg _ Hpg) as (mb & dstb & poolb & rv & Heq & Hadvb).
  rewrite Hbad in Heq, Hadvb. simpl in Heq, Hadvb.
  exists mb, (mkRows dstb poolb), mg, (mkRows dstg poolg).
  unfold OpenTSDBHTTP.Rows_Unmarshal, OpenTSDBHTTP.unmarshalRows. simpl.
  assert (forall rest,
            (let '(m0, dst0, pool0, err0) :=
               unmarshalRows_range (good ++ bad :: rest) m
                 (upto (Rows_Rows rs) 0) (upto (Rows_tagsPool rs) 0) in
             (m0, mkRows dst0 pool0, err0)) =
            (mb, mkRows dstb poolb,
             Some (Errorf "cannot unmarshal OpenTSDB body %s: %s" [ArgValue bad; ArgError e])))
    as Hfirst.
  { intros rest. rewrite Hrest. simpl. by rewrite Heq. }
  pose proof (Hrest []) as Hnil. rewrite app_nil_r in Hnil. rewrite Hnil. simpl.
  assert (advanced m [] mb dstb poolb (rvs ++ [rv])
            (Some (Errorf "cannot unmarshal OpenTSDB body %s: %s" [ArgValue bad; ArgError e])))
    as Hall.
  { eapply advanced_trans; [exact Hadv|].
    intros rows2 Hp2. apply parsing_rows in Hp2. pose proof (parsing_rows _ _ _ _ Hpg) as E.
    rewrite Hp2, <- E. exact Hadvb. }
  apply (advanced_start m mb (mkRows dstb poolb)) in Hall as (_ & Hc1 & Hl1 & _).
  apply (advanced_start m mg (mkRows dstg poolg)) in Hadv as (_ & Hc2 & Hl2 & _).
  simpl in Hl1, Hl2.
  split_and!; try done.
  - rewrite Hl1, length_app. simpl. lia.
  - lia.
  - rewrite Hc1, Hc2, <- Hlen. by rewrite take_app_length.
Qed.

(** X13.  A body that is one object is parsed exactly as the array that
    holds only this object: the same arena, the same rows and the same
    error. *)
Theorem object_as_singleton_array (m : Memory) (rs : Rows) (kvs : list (string * Value)) :
  Unmarshal m rs (Some (VObject kvs)) = Unmarshal m rs (Some (VArray [VObject kvs])).
Proof.
  unfold OpenTSDBHTTP.Rows_Unmarshal, OpenTSDBHTTP.unmarshalRows. simpl.
  by destruct (unmarshalRow m _ (VObject kvs) _) as [[[m1 dst1] pool1] [e|]].
Qed.
End ArrayBody.

Section ArrayBodyFixture.
Import Go Slice Arena fmt fastjson OpenTSDBHTTP Fixtures.

Lemma array_stops_at_first_error_witness :
  let missing := Errorf "missing `timestamp` field in %s" [ArgValue noTimestamp] in
  wf Memory_empty Rows_zero /\
  Forall (fun o => OpenTSDBHTTP.rowError (H := doubling_runtime)
                     fastjson_Int64 fastjson_Float64 o = None) [firstBody] /\
  OpenTSDBHTTP.rowError (H := doubling_runtime) fastjson_Int64 fastjson_Float64 noTimestamp
    = Some missing /\
  exists m1 rs1 m2 rs2,
    (forall rest,
       jsonParse Memory_empty Rows_zero (Some (VArray ([firstBody] ++ noTimestamp :: rest))) =
         (m1, rs1,
          Some (Errorf "cannot unmarshal OpenTSDB body %s: %s"
                  [ArgValue noTimestamp; ArgError missing]))) /\
    len (Rows_Rows rs1) = 2 /\
    jsonParse Memory_empty Rows_zero (Some (VArray [firstBody])) = (m2, rs2, None) /\
    len (Rows_Rows rs2) = 1 /\
    take 1 (contents m1 rs1) = contents m2 rs2.
Proof.
  cbv zeta.
  split; [unfold wf, valid; simpl; lia|].
  split; [constructor; [vm_compute; reflexivity|constructor]|].
  split; [vm_compute; reflexivity|].
  apply (array_stops_at_first_error (H := doubling_runtime) fastjson_Int64 fastjson_Float64
           Memory_empty Rows_zero [firstBody] noTimestamp).
  - unfold wf, valid; simpl; lia.
  - constructor; [vm_compute; reflexivity|constructor].
  - vm_compute; reflexivity.
Defined.
End ArrayBodyFixture.

(** * More of the line parser *)

Section BadLine.
Import Go Slice Arena fmt OpenTSDB PutText.
Context `{Runtime}.
Variable ParseBestEffort : string -> float.
Local Open Scope string_scope.

Local Notation Row_unmarshal := (OpenTSDB.Row_unmarshal ParseBestEffort).
Local Notation lineError := (OpenTSDB.lineError ParseBestEffort).
Local Notation unmarshalRows_loop := (OpenTSDB.unmarshalRows_loop ParseBestEffort).
Local Notation Rows_Unmarshal := (OpenTSDB.Rows_Unmarshal ParseBestEffort).

Lemma str_app_nil (s : string) : s ++ EmptyString = s.
Proof. induction s as [|x s IH]; simpl; [done|by rewrite IH]. Qed.

(** The turn of the row loop on a line that [Row.unmarshal] refuses. *)
Lemma bad_line_turn (bad : string) (e : error) (m : Memory) (dst pool : slice)
    (rows : list Row) (mr : list (list Row)) (dst' : slice) :
  lineError bad = Some e ->
  parsing m dst pool rows ->
  extend Row_zero (rowMem m) dst = (mr, dst') ->
  exists mt' r' pool',
    Row_unmarshal (tagMem m) (get Row_zero mr dst' (len dst' - 1)) bad pool
      = Some (mt', r', pool', Some e) /\
    advanced m rows (mkMemory (store mr dst' (len dst' - 1) r') mt') dst' pool'
             [view mt' r'] (Some e).
Proof.
  intros Herr Hp Hext.
  destruct (line_Row_unmarshal_step ParseBestEffort bad) as (rv & err & Hstep).
  assert (err = Some e) as ->.
  { destruct (Hstep [] Row_zero nil) as (mt0 & r0 & pool0 & Heq0 & _); [|done|].
    - unfold valid; simpl; lia.
    - unfold OpenTSDB.lineError in Herr. by rewrite Heq0 in Herr. }
  pose proof Hp as (_ & _ & _ & Hvt & Hot & _).
  destruct (Hstep (tagMem m) (get Row_zero mr dst' (len dst' - 1)) pool Hvt Hot)
    as (mt' & r' & pool' & Heq & Hrs & _).
  exists mt', r', pool'. split; [exact Heq|].
  exact (turn _ _ _ _ _ _ _ _ _ _ Hp Hext Hrs).
Qed.

(** X10.  The line loop stops at the first line that [Row.unmarshal]
    refuses: after a batch of well-formed lines, a non-empty line that
    fails, whether it is the last of the text or a line break and more
    text follow it, makes [Unmarshal] return the error "cannot unmarshal
    OpenTSDB line" with that line and its error; the arena counts the
    rows of the batch and the slot of the failed line, and the rows of
    the batch show as written. *)
Theorem Unmarshal_stops_at_bad_line (ls : list (option Sample)) (bad tail : string)
    (e : error) (m : Memory) (rs : Rows) :
  wf m rs -> goodBatch ls ->
  lacks newline bad -> bad <> EmptyString -> lineError bad = Some e ->
  tail = EmptyString \/ (exists rest, tail = String newline rest) ->
  exists m' rs',
    Rows_Unmarshal m rs (batchText ls ++ bad ++ tail) =
      Some (m', rs',
            Some (Errorf "cannot unmarshal OpenTSDB line %q: %s" [ArgString bad; ArgError e])) /\
    len (Rows_Rows rs') = (length (samples ls) + 1)%nat /\
    take (length (samples ls)) (contents m' rs') = sampleView ParseBestEffort <$> samples ls.
Proof.
  intros Hwf Hgood Hnl Hne Herr Htail. apply wf_parsing in Hwf.
  destruct (batch_loop ParseBestEffort ls (bad ++ tail)
              (S (String.length (batchText ls ++ bad ++ tail)))
              m _ _ [] Hgood ltac:(lia) Hwf) as (m1 & dst1 & pool1 & fuel1 & Hf & Hadv & Heq).
  unfold OpenTSDB.Rows_Unmarshal, OpenTSDB.unmarshalRows. rewrite Heq.
  assert (0 < String.length bad)%nat as Hpos by (destruct bad; [done|simpl; lia]).
  destruct fuel1 as [|fuel1]; [lia|]. cbn [OpenTSDB.unmarshalRows_loop].
  assert ((0 <? Go.len (bad ++ tail))%Z = true) as ->.
  { apply Z.ltb_lt. unfold Go.len. rewrite length_append. lia. }
  pose proof Hadv as (rows1 & _ & _ & _ & Hp1). specialize (Hp1 eq_refl).
  destruct (extend Row_zero (rowMem m1) dst1) as [mr dst'] eqn:Hext.
  destruct (bad_line_turn bad e m1 dst1 pool1 _ mr dst' Herr Hp1 Hext)
    as (mt' & r' & pool' & Hrow & Hadv1).
  assert (advanced m [] (mkMemory (store mr dst' (len dst' - 1) r') mt') dst' pool'
            ((sampleView ParseBestEffort <$> samples ls) ++ [view mt' r']) (Some e)) as Hall.
  { eapply advanced_trans; [exact Hadv|].
    intros rows2 Hp2. apply parsing_rows in Hp2. pose proof (parsing_rows _ _ _ _ Hp1) as E.
    rewrite Hp2, <- E. exact Hadv1. }
  apply (advanced_start m _ (mkRows dst' pool')) in Hall as (_ & Hc & Hl & _).
  simpl in Hl.
  assert (len dst' = (length (samples ls) + 1)%nat /\
          take (length (samples ls))
               (contents (mkMemory (store mr dst' (len dst' - 1) r') mt') (mkRows dst' pool'))
            = sampleView ParseBestEffort <$> samples ls) as [Hlen Htake].
  { split.
    - rewrite Hl, length_app, length_fmap. simpl. lia.
    - rewrite Hc. rewrite <- (length_fmap (sampleView ParseBestEffort)) at 1.
      by rewrite take_app_length. }
  destruct Htail as [->|[rest ->]].
  - rewrite str_app_nil. rewrite (IndexByte_lacks _ newline Hnl).
    change (-1 =? 0)%Z with false. change (-1 <? 0)%Z with true. cbv iota.
    rewrite Hrow. eexists _, _. split_and!; [reflexivity|exact Hlen|exact Htake].
  - rewrite (IndexByte_token bad rest newline Hnl), slice_to_token.
    assert ((Z.of_nat (String.length bad) =? 0)%Z = false) as -> by (apply Z.eqb_neq; lia).
    assert ((Z.of_nat (String.length bad) <? 0)%Z = false) as -> by (apply Z.ltb_ge; lia).
    cbv iota.
    rewrite Hrow. eexists _, _. split_and!; [reflexivity|exact Hlen|exact Htake].
Qed.
End BadLine.

Section BadLineFixture.
Import Go Slice Arena fmt OpenTSDB PutText Fixtures.
Local Open Scope string_scope.

Lemma Unmarshal_stops_at_bad_line_witness :
  let inner :=
    Errorf "cannot find whitespace between timestamp and value in %q"
           [ArgString "cpu 1577836800"] in
  wf Memory_empty Rows_zero /\ goodBatch cpuMemBatch /\
  lacks newline truncatedLine /\ truncatedLine <> EmptyString /\
  OpenTSDB.lineError (H := doubling_runtime) fastfloat.ParseBestEffort truncatedLine
    = Some inner /\
  exists m' rs',
    lineParse Memory_empty Rows_zero
      (batchText cpuMemBatch ++ truncatedLine ++ String newline thirdLine) =
      Some (m', rs',
            Some (Errorf "cannot unmarshal OpenTSDB line %q: %s"
                         [ArgString truncatedLine; ArgError inner])) /\
    len (Rows_Rows rs') = 3%nat /\
    take 2 (contents m' rs') = sampleView fastfloat.ParseBestEffort <$> samples cpuMemBatch.
Proof.
  cbv zeta.
  assert (wf Memory_empty Rows_zero) as Hwf by (unfold wf, valid; simpl; lia).
  assert (goodBatch cpuMemBatch) as Hgood.
  { constructor; [apply goodSample_cpu|constructor; [apply goodSample_mem|constructor]]. }
  assert (lacks newline truncatedLine) as Hnl by (vm_compute; intuition discriminate).
  assert (truncatedLine <> EmptyString) as Hne by discriminate.
  split; [exact Hwf|]. split; [exact Hgood|]. split; [exact Hnl|]. split; [exact Hne|].
  split; [vm_compute; reflexivity|].
  apply (Unmarshal_stops_at_bad_line (H := doubling_runtime) fastfloat.ParseBestEffort
           cpuMemBatch truncatedLine (String newline thirdLine) _ Memory_empty Rows_zero
           Hwf Hgood Hnl Hne).
  - vm_compute; reflexivity.
  - right. by exists thirdLine.
Defined.
End BadLineFixture.

(** * The outcome of the request loop *)

Section HandlerFacts.
Import Go Slice Arena fmt fastjson OpenTSDBHTTP.
Context `{Runtime}.
Variable Value_Int64 : Value -> result Z.
Variable Value_Float64 : Value -> result float.
Variable ParseBytes : string -> result Value.
Variable getGzipReader : Reader -> result Reader.
Variable FlushBufs_error : list Point -> option error.
Local Open Scope Z_scope.

Local Notation Read := (pushCtx_Read Value_Int64 Value_Float64 ParseBytes).
Local Notation InsertRows := (pushCtx_InsertRows FlushBufs_error).
Local Notation loop := (readLoop Value_Int64 Value_Float64 ParseBytes FlushBufs_error).
Local Notation handler :=
  (insertHandlerInternal Value_Int64 Value_Float64 ParseBytes getGzipReader FlushBufs_error).

Ltac read_cases ctx r :=
  unfold pushCtx_Read;
  destruct (ctx_err ctx) as [e0|] eqn:Herr0;
  [|destruct (ByteBuffer_ReadFrom (ctx_reqBuf ctx) (LimitReader r _))
      as [[[B reqLen] [e1|]] lr];
    [|destruct (_ <? reqLen);
      [|cbn [ctx_reqBuf ctx_Rows ctx_Common ctx_err];
        destruct (ParseBytes B) as [v|e2];
        [destruct (Rows_Unmarshal _ _ _ _ _) as [[m1 rs1] [e3|]]|]]]].

(** X11.  [Read] returns true exactly when it leaves no error in the
    context.  On a context without error the error it records is never
    [io.EOF], a failure counts exactly one read or unmarshal error and a
    success counts none; in no case does [Read] touch the storage, the
    counter of calls or the counter of inserted rows. *)
Theorem Read_true_iff_clean (w : World) (ctx : pushCtx) (r : Reader) (maxSize : Z) :
  let '(ok, w', ctx', _) := Read w ctx r maxSize in
  (ok = true <-> ctx_err ctx' = None) /\
  (ctx_err ctx = None -> ctx_err ctx' <> Some EOF) /\
  (ctx_err ctx = None -> ok = false ->
   (opentsdbReadErrors (metrics w') + opentsdbUnmarshalErrors (metrics w') =
    S (opentsdbReadErrors (metrics w) + opentsdbUnmarshalErrors (metrics w)))%nat) /\
  (ok = true -> metrics w' = metrics w) /\
  storage w' = storage w /\
  opentsdbReadCalls (metrics w') = opentsdbReadCalls (metrics w) /\
  rowsInserted (metrics w') = rowsInserted (metrics w).
Proof.
  read_cases ctx r; simpl; split_and!; try done; try (intros; lia);
    try (split; intros; congruence).
Qed.

(** What the loop of the handler needs of [Read] and [InsertRows]. *)
Lemma Read_records (w : World) (ctx : pushCtx) (r : Reader) (maxSize : Z) :
  ctx_err ctx = None ->
  let '(ok, w', ctx', _) := Read w ctx r maxSize in
  opentsdbReadCalls (metrics w') = opentsdbReadCalls (metrics w) /\
  if ok then ctx_err ctx' = None else exists f a, ctx_err ctx' = Some (Errorf f a).
Proof.
  intros Hclean. read_cases ctx r; simpl; try congruence; split; eauto.
Qed.

Lemma InsertRows_frame (w : World) (ctx : pushCtx) :
  let '(w', ctx', _) := InsertRows w ctx in
  ctx_err ctx' = ctx_err ctx /\
  opentsdbReadCalls (metrics w') = opentsdbReadCalls (metrics w).
Proof. unfold pushCtx_InsertRows. cbv zeta. simpl. done. Qed.

Lemma loop_fails (maxSize : Z) (fuel : nat) :
  forall w ctx r w' ctx' err,
    ctx_err ctx = None ->
    loop fuel w ctx r maxSize = Some (w', ctx', err) ->
    err <> None /\ opentsdbReadCalls (metrics w') = opentsdbReadCalls (metrics w).
Proof.
  induction fuel as [|fuel IH]; intros w ctx r w' ctx' err Hclean Hrun; [done|].
  cbn [readLoop] in Hrun.
  pose proof (Read_records w ctx r maxSize Hclean) as HR.
  destruct (Read w ctx r maxSize) as [[[ok w1] ctx1] r1]. destruct HR as [Hcalls Herr].
  destruct ok.
  - pose proof (InsertRows_frame w1 ctx1) as HI.
    destruct (InsertRows w1 ctx1) as [[w2 ctx2] [e|]]; destruct HI as [Herr2 Hcalls2].
    + injection Hrun as <- <- <-. split; [done|congruence].
    + destruct (IH w2 ctx2 r1 w' ctx' err) as [? ?]; [congruence|exact Hrun|].
      split; [done|congruence].
  - destruct Herr as (f & a & Herr). injection Hrun as <- <- <-.
    unfold pushCtx_Error. rewrite Herr. split; [done|exact Hcalls].
Qed.

(** X12.  [insertHandlerInternal] has no way to return without an
    error: on a context without error, as [getPushCtx] hands them out,
    whatever the request and the collaborators, a run that returns
    returns an error, and it has counted exactly one read call.  [Read]
    goes false only with an error that is not [io.EOF], which
    [ctx.Error()] then returns, and the other two exits are the errors
    of [InsertRows] and of the gzip reader. *)
Theorem handler_returns_error (fuel : nat) (w : World) (ctx : pushCtx) (req : Request)
    (maxSize : Z) (w' : World) (ctx' : pushCtx) (err : option error) :
  ctx_err ctx = None ->
  handler fuel w ctx req maxSize = Some (w', ctx', err) ->
  err <> None /\
  opentsdbReadCalls (metrics w') = S (opentsdbReadCalls (metrics w)).
Proof.
  intros Hclean. unfold insertHandlerInternal. cbv zeta.
  assert (forall r,
            match loop fuel (incReadCalls w) ctx r maxSize with
            | Some (w0, ctx0, err0) =>
                let '(w1, ctx1) := pushCtx_reset w0 ctx0 in Some (w1, ctx1, err0)
            | None => None
            end = Some (w', ctx', err) ->
            err <> None /\ opentsdbReadCalls (metrics w') = S (opentsdbReadCalls (metrics w)))
    as Hloop.
  { intros r Hrun.
    destruct (loop fuel (incReadCalls w) ctx r maxSize) as [[[w0 ctx0] err0]|] eqn:Hl; [|done].
    apply loop_fails in Hl as [Hne Hcalls]; [|exact Hclean].
    unfold pushCtx_reset in Hrun.
    destruct (Rows_Reset (memory w0) (ctx_Rows ctx0)) as [m1 rs1].
    injection Hrun as <- <- <-. split; [exact Hne|]. simpl. rewrite Hcalls. done. }
  destruct (String.eqb (ContentEncoding req) "gzip").
  - destruct (getGzipReader (Body req)) as [zr|e].
    + apply Hloop.
    + intros Hrun. injection Hrun as <- <- <-. split; done.
  - apply Hloop.
Qed.
End HandlerFacts.

Section HandlerFixture.
Import Go Slice Arena fmt fastjson OpenTSDBHTTP Fixtures.
Local Open Scope Z_scope.

Lemma handler_returns_error_witness :
  ctx_err pushCtx_zero = None /\
  exists w' ctx' err,
    insertHandlerInternal (H := doubling_runtime) fastjson_Int64 fastjson_Float64
        parseAsNoTimestamp gzipPass flushOk 1 world0 pushCtx_zero tenByteRequest 10
      = Some (w', ctx', err) /\
    err <> None /\
    opentsdbReadCalls (metrics w') = S (opentsdbReadCalls (metrics world0)).
Proof.
  split; [reflexivity|].
  eexists _, _, _. split; [vm_compute; reflexivity|].
  eapply (handler_returns_error (H := doubling_runtime) fastjson_Int64 fastjson_Float64
            parseAsNoTimestamp gzipPass flushOk 1 world0 pushCtx_zero tenByteRequest 10).
  - reflexivity.
  - vm_compute; reflexivity.
Defined.
End HandlerFixture.
